(** * hf_newcaps: ISO 14443-A reader / emulator standalone mode

    A shallow embedding of [armsrc/Standalone/hf_newcaps.c]: the APDU replay
    matcher [Reply2Reader], the emulation session [Emulation] with its command
    loop, the reading step [Reading] and the mode controller [RunMod].  The
    EM4x50 simulator and collector of [armsrc/Standalone/lf_tharexde.c]
    follows in the module [Tharexde].

    Conventions.
    - [uint8_t] values are [Z]; where the C code computes on a byte the
      wrap-around modulo 256 is written out.
    - [size_t] lengths and array indices are [nat].
    - A C array is a [list Z] of the array's size.  Accesses are bounds
      checked: an access outside the array is undefined behaviour in C and is
      [None] here.
    - The reader, the button and the host are the environment: a session runs
      over the list of what [GetIso14443aCommandFromReader] delivers, the
      controller over the list of what each turn of its loop observes.  When
      the list is used up the result says where the code is waiting.
    - The calls that send a response, pause, switch LED C, set up the radio,
      select a card, free the buffers or report to the host are recorded in a
      trace of [effect]s.  Diagnostic printing ([DbpString], [Dbprintf],
      [Dbhexdump]), the LED animations ([SpinErr], [SpinUp]), the watchdog
      and the start-up calls of [RunMod] leave no mark. *)

From stdpp Require Import base option list numbers.
From Stdlib Require Import ZArith Lia.

Local Open Scope nat_scope.

(** ** Checked array accesses *)

(** Sequencing of accesses that may fall outside their array. *)
Notation "'let*' x ':=' e 'in' k" :=
  (match e with Some x => k | None => None end)
  (at level 10, x pattern, e at level 100, k at level 200).

(** [buf[i]]. *)
Definition load (buf : list Z) (i : nat) : option Z := buf !! i.

(** [buf[i] = v]. *)
Definition store (buf : list Z) (i : nat) (v : Z) : option (list Z) :=
  if decide (i < length buf) then Some (<[i := v]> buf) else None.

(** The [n] bytes read at [&buf[off]] by [memcmp] or as the source of
    [memcpy]. *)
Definition memread (buf : list Z) (off n : nat) : option (list Z) :=
  if decide (off + n <= length buf) then Some (take n (drop off buf)) else None.

(** [memcpy(&dst[off], src, length src)]. *)
Definition memcpy (dst : list Z) (off : nat) (src : list Z) : option (list Z) :=
  if decide (off + length src <= length dst)
  then Some (list_inserts off src dst) else None.

(** ** Data *)

(** [tag_response_info_t]: a response buffer with the count of bytes in use,
    and the modulation prepared from it. *)
Record tag_response_info_t := mk_tag_response_info {
  response : list Z;
  response_n : nat;
  modulation : list Z;
  modulation_n : nat
}.

Definition with_response (buf : list Z) (n : nat) (info : tag_response_info_t)
  : tag_response_info_t :=
  {| response := buf; response_n := n;
     modulation := modulation info; modulation_n := modulation_n info |}.

Definition with_response_n (n : nat) (info : tag_response_info_t)
  : tag_response_info_t := with_response (response info) n info.

Definition with_modulation (m : list Z) (n : nat) (info : tag_response_info_t)
  : tag_response_info_t :=
  {| response := response info; response_n := response_n info;
     modulation := m; modulation_n := n |}.

(** The bytes of a response that are in use: [response[0 .. response_n)]. *)
Definition payload (info : tag_response_info_t) : list Z :=
  take (response_n info) (response info).

Definition DYNAMIC_RESPONSE_BUFFER_SIZE : nat := 64.
Definition DYNAMIC_MODULATION_BUFFER_SIZE : nat := 1024.

(** ** Reply2Reader: the APDU replay matcher (lines 61-118) *)

Module Apdu.

Local Open Scope Z_scope.

Definition reply01 : list Z :=
  [0x6f; 0x15; 0x84; 0x0e; 0x31; 0x50; 0x41; 0x59; 0x2e; 0x53; 0x59; 0x53;
   0x2e; 0x44; 0x44; 0x46; 0x30; 0x31; 0xa5; 0x03; 0x08; 0x01; 0x01; 0x90;
   0x00].

Definition reply02 : list Z :=
  [0x6f; 0x37; 0x84; 0x0e; 0x4e; 0x43; 0x2e; 0x65; 0x43; 0x61; 0x72; 0x64;
   0x2e; 0x44; 0x44; 0x46; 0x30; 0x31; 0xa5; 0x25; 0x9f; 0x08; 0x01; 0x02;
   0x9f; 0x0c; 0x1e; 0x6e; 0x65; 0x77; 0x63; 0x61; 0x70; 0x65; 0x63; 0x00;
   0x05; 0xaa; 0x00; 0x00; 0x01; 0x88; 0x0a; 0x10; 0x00; 0x1a; 0x34; 0x00;
   0x00; 0x00; 0x00; 0x00; 0x00; 0x00; 0x00; 0xf8; 0x6a; 0x90; 0x00].

Definition reply03 : list Z :=
  [0x6e; 0x65; 0x77; 0x63; 0x61; 0x70; 0x65; 0x63; 0x00; 0x05; 0xaa; 0x00;
   0x00; 0x01; 0x88; 0x0a; 0x10; 0x00; 0x1a; 0x34; 0x00; 0x00; 0x00; 0x00;
   0x00; 0x00; 0x00; 0x00; 0xf8; 0x6f; 0x90; 0x00].

(** CLA, INS (select), P1 (select MF, DF or EF), P2, Lc, DATA (MF). *)
Definition cmd01 : list Z := [0x00; 0xA4; 0x00; 0x00; 0x02; 0x3f; 0x00].

(** CLA, INS (select), P1 (select by DF name), P2, Lc, DATA (NC.eCard.DDF01). *)
Definition cmd02 : list Z :=
  [0x00; 0xA4; 0x04; 0x00; 0x0e;
   0x4e; 0x43; 0x2e; 0x65; 0x43; 0x61; 0x72; 0x64; 0x2e; 0x44; 0x44; 0x46;
   0x30; 0x31].

(** CLA, INS (read binary), P1, P2, Le. *)
Definition cmd03 : list Z := [0x00; 0xB0; 0x95; 0x00; 0x1e].

(** One row of the parallel arrays [p_apdu_cmd], [apdu_cmd_len],
    [p_apdu_response] and [apdu_response_len]; the two length arrays hold the
    [sizeof] of the byte arrays, here [length]. *)
Record rule := mk_rule { apdu_cmd : list Z; apdu_response : list Z }.

Definition table : list rule :=
  [mk_rule cmd01 reply01; mk_rule cmd02 reply02; mk_rule cmd03 reply03].

End Apdu.

(** The [for] loop of lines 98-115 from row [rules] on, then lines 116-117.
    The result pairs the returned [int] with the updated response info. *)
Fixpoint Reply2Reader_from (rules : list Apdu.rule)
    (dynamic_response_info : tag_response_info_t) (apdu_start : nat)
    (received_cmd : list Z) (cmd_len : nat)
  : option (Z * tag_response_info_t) :=
  match rules with
  | [] => Some ((-1)%Z, with_response_n 0 dynamic_response_info)
  | r :: rules' =>
      if decide (cmd_len < length (Apdu.apdu_cmd r)) then
        Reply2Reader_from rules' dynamic_response_info apdu_start
          received_cmd cmd_len
      else
        let* window :=
          memread received_cmd apdu_start (length (Apdu.apdu_cmd r)) in
        if decide (window = Apdu.apdu_cmd r) then
          let* header := memread received_cmd 0 apdu_start in
          let* buf1 := memcpy (response dynamic_response_info) 0 header in
          let* buf2 := memcpy buf1 apdu_start (Apdu.apdu_response r) in
          Some (0%Z,
                with_response buf2
                  (apdu_start + length (Apdu.apdu_response r))
                  dynamic_response_info)
        else
          Reply2Reader_from rules' dynamic_response_info apdu_start
            received_cmd cmd_len
  end.

Definition Reply2Reader := Reply2Reader_from Apdu.table.

Definition zero_buf (n : nat) : list Z := replicate n 0%Z.

Definition blank_info : tag_response_info_t :=
  mk_tag_response_info (zero_buf DYNAMIC_RESPONSE_BUFFER_SIZE) 0
    (zero_buf DYNAMIC_MODULATION_BUFFER_SIZE) 0.

(** ** Protocol constants *)

(** Modelled from the spec: [protocols.h] is not under src/.  Section 6 of the
    spec gives REQUEST, HALT, ANTICOLLISION/SELECT and RATS; it names WAKEUP
    without a value, for which the ISO/IEC 14443-3 code is taken. *)
Definition ISO14443A_CMD_REQA : Z := 0x26.
Definition ISO14443A_CMD_WUPA : Z := 0x52.
Definition ISO14443A_CMD_HALT : Z := 0x50.
Definition ISO14443A_CMD_ANTICOLL_OR_SELECT : Z := 0x93.
Definition ISO14443A_CMD_RATS : Z := 0xE0.

(** The entries of the canned response array that [Emulation] uses. *)
Inductive resp_index :=
  RESP_INDEX_ATQA | RESP_INDEX_UIDC1 | RESP_INDEX_SAKC1 | RESP_INDEX_RATS.

(** The result codes of [pm3_cmd.h] that the file uses. *)
Inductive pm3_status := PM3_SUCCESS | PM3_EINIT | PM3_EFATAL | PM3_EOPABORTED.

Inductive fpga_mode :=
  FPGA_HF_ISO14443A_TAGSIM_LISTEN | FPGA_HF_ISO14443A_READER_MOD.

(** What [p_response] points to when it is not [NULL]. *)
Inductive resp_ptr := Canned (i : resp_index) | Dynamic.

(** What [SimulateIso14443aInit] hands back through its pointer arguments. *)
Record sim_init := mk_sim_init {
  responses : resp_index -> tag_response_info_t;
  cuid : Z;
  counters : list Z;
  tearings : list Z;
  pages : Z
}.

(** ** The collaborators

    The firmware functions and constants that the file uses and that are
    declared in headers outside src/.  Every theorem below is stated for an
    arbitrary platform. *)
Record platform := mk_platform {
  MAX_FRAME_SIZE : nat;
  PM3_CMD_DATA_SIZE : nat;
  FLAG_4B_UID_IN_DATA : Z;
  (** [SimulateIso14443aInit], called with the tag type, the flags, the data
      block, the counters and the tearing markers: [None] when it returns
      [false]. *)
  SimulateIso14443aInit :
    Z -> Z -> list Z -> list Z -> list Z -> option sim_init;
  (** The two bytes that [AddCrc14A(buf, n)] stores at [buf[n]] and
      [buf[n+1]], from the [n] bytes before them. *)
  AddCrc14A : list Z -> Z * Z;
  (** [prepare_tag_modulation(info, max)]: from the bytes in use, the
      modulation written to [info->modulation], [None] when it returns
      [false]. *)
  prepare_tag_modulation : list Z -> nat -> option (list Z)
}.

(** ** Observable effects *)

Inductive effect :=
| SpinDelay (ms : nat)
| LED_C (on : bool)
| BigBuf_free_keep_EM
| reply_ng (status : pm3_status)
| iso14443a_setup (mode : fpga_mode)
| EmSendPrecompiledCmd (p : resp_ptr) (info : tag_response_info_t)
| iso14443a_select_card (uid : list Z)
| switch_off
| LEDsoff.

(** The frames put on the air by a trace: for each [EmSendPrecompiledCmd] the
    bytes in use of the response it was given. *)
Definition transmitted (t : list effect) : list (list Z) :=
  omap (fun e => match e with
                 | EmSendPrecompiledCmd _ info => Some (payload info)
                 | _ => None
                 end) t.

(** ** Emulation (lines 120-307) *)

(** What one call of [GetIso14443aCommandFromReader] delivers. *)
Inductive reader_event := RxFrame (frame : list Z) | RxAbort.

(** Modelled from the spec: [GetIso14443aCommandFromReader] is defined in
    [iso14443a.c], not under src/.  Per section 6, [receive(buf, maxLen)]
    blocks, stores the received command in the buffer and reports its length,
    or reports failure.  The frame is stored from index 0; the bytes of the
    buffer after it are left as they were. *)
Definition GetIso14443aCommandFromReader (receivedCmd : list Z)
    (ev : reader_event) : option (list Z * nat) :=
  match ev with
  | RxFrame frame => Some (list_inserts 0 frame receivedCmd, length frame)
  | RxAbort => None
  end.

(** The locals of [Emulation] that live across iterations of its loop. *)
Record emu_locals := mk_emu_locals {
  receivedCmd : list Z;
  dynamic_response_info : tag_response_info_t;
  p_response : option resp_ptr;
  emu_cuid : Z;
  emu_counters : list Z;
  emu_tearings : list Z;
  emu_pages : Z
}.

Section Emulation.

Variable P : platform.

Local Open Scope Z_scope.

(** The [switch (receivedCmd[0])] of lines 223-279. *)
Definition Emulation_switch (info : tag_response_info_t)
    (receivedCmd : list Z) (len : nat) : option tag_response_info_t :=
  let* b0 := load receivedCmd 0 in
  if (b0 =? 0x02) || (b0 =? 0x03) then
    let* r := Reply2Reader info 1 receivedCmd len in Some (snd r)
  else if (b0 =? 0x0B) || (b0 =? 0x0A) then
    let* r := Reply2Reader info 2 receivedCmd len in Some (snd r)
  else if (b0 =? 0x1A) || (b0 =? 0x1B) then
    Some (with_response_n 0 info)
  else if (b0 =? 0xAA) || (b0 =? 0xBB) then
    let* buf := store (response info) 0 (Z.lxor b0 0x11) in
    Some (with_response buf 2 info)
  else if b0 =? 0xBA then
    let* buf0 := store (response info) 0 0xAB in
    let* buf1 := store buf0 1 0x01 in
    Some (with_response buf1 2 info)
  else if (b0 =? 0xCA) || (b0 =? 0xC2) then
    let* buf0 := store (response info) 0 0xCA in
    let* buf1 := store buf0 1 0x01 in
    Some (with_response buf1 2 info)
  else
    Some (with_response_n 0 info).

(** The [if] chain of lines 181-280: the new [p_response] and the new
    dynamic response info.  Lines 200 and 206 read [receivedCmd[1]] before
    they test the length; both bytes are read up front here. *)
Definition Emulation_dispatch (p_response : option resp_ptr)
    (info : tag_response_info_t) (receivedCmd : list Z) (len : nat)
  : option (option resp_ptr * tag_response_info_t) :=
  let* b0 := load receivedCmd 0 in
  let* b1 := load receivedCmd 1 in
  if (b0 =? ISO14443A_CMD_REQA) && (len =? 1)%nat then
    Some (Some (Canned RESP_INDEX_ATQA), info)
  else if (b0 =? ISO14443A_CMD_HALT) && (len =? 4)%nat then
    Some (None, info)
  else if (b0 =? ISO14443A_CMD_WUPA) && (len =? 1)%nat then
    Some (Some (Canned RESP_INDEX_ATQA), info)
  else if (b1 =? 0x20) && (b0 =? ISO14443A_CMD_ANTICOLL_OR_SELECT)
          && (len =? 2)%nat then
    Some (Some (Canned RESP_INDEX_UIDC1), info)
  else if (b1 =? 0x70) && (b0 =? ISO14443A_CMD_ANTICOLL_OR_SELECT)
          && (len =? 9)%nat then
    Some (Some (Canned RESP_INDEX_SAKC1), info)
  else if (b0 =? ISO14443A_CMD_RATS) && (len =? 4)%nat then
    Some (Some (Canned RESP_INDEX_RATS), info)
  else
    let* info' := Emulation_switch info receivedCmd len in
    Some (p_response, info').

(** Lines 281-304: the effects, the new [p_response] and the new dynamic
    response info.  The [continue] of line 295 is the [None] case of
    [prepare_tag_modulation]. *)
Definition Emulation_answer (canned : resp_index -> tag_response_info_t)
    (p_response : option resp_ptr) (info : tag_response_info_t)
  : option (list effect * (option resp_ptr * tag_response_info_t)) :=
  if decide (0 < response_n info)%nat then
    let n := response_n info in
    let crc := AddCrc14A P (take n (response info)) in
    let* buf1 := store (response info) n (fst crc) in
    let* buf2 := store buf1 (n + 1) (snd crc) in
    let info1 := with_response buf2 (n + 2) info in
    match prepare_tag_modulation P (payload info1)
            DYNAMIC_MODULATION_BUFFER_SIZE with
    | None => Some ([SpinDelay 500], (p_response, info1))
    | Some m =>
        let info2 :=
          with_modulation (list_inserts 0 m (modulation info1)) (length m)
            info1 in
        Some ([EmSendPrecompiledCmd Dynamic info2; LED_C false],
              (None, info2))
    end
  else
    match p_response with
    | Some (Canned i) =>
        Some ([EmSendPrecompiledCmd (Canned i) (canned i); LED_C false],
              (None, info))
    | Some Dynamic =>
        Some ([EmSendPrecompiledCmd Dynamic info; LED_C false], (None, info))
    | None => Some ([], (None, info))
    end.

Inductive iteration_result :=
| Next (st : emu_locals)
| Return (code : pm3_status).

(** One turn of the [for (;;)] loop, lines 166-305. *)
Definition Emulation_iteration (canned : resp_index -> tag_response_info_t)
    (st : emu_locals) (ev : reader_event)
  : option (list effect * iteration_result) :=
  let info0 := with_response_n 0 (dynamic_response_info st) in
  match GetIso14443aCommandFromReader (receivedCmd st) ev with
  | None => Some ([LED_C true; LED_C false], Return PM3_EOPABORTED)
  | Some (buf, len) =>
      let* (p, info) := Emulation_dispatch (p_response st) info0 buf len in
      let* (eff, (p', info')) := Emulation_answer canned p info in
      Some (LED_C true :: eff,
            Next (mk_emu_locals buf info' p' (emu_cuid st) (emu_counters st)
                    (emu_tearings st) (emu_pages st)))
  end.

(** Where a session stands once the reader events known so far are used up:
    blocked in [GetIso14443aCommandFromReader], or returned. *)
Inductive session_outcome :=
| Listening (st : emu_locals)
| Returned (code : pm3_status).

(** The [for (;;)] loop of lines 165-305 over the reader events. *)
Fixpoint Emulation_loop (canned : resp_index -> tag_response_info_t)
    (st : emu_locals) (evs : list reader_event)
  : option (list effect * session_outcome) :=
  match evs with
  | [] => Some ([], Listening st)
  | ev :: evs' =>
      let* (eff, r) := Emulation_iteration canned st ev in
      match r with
      | Return code => Some (eff, Returned code)
      | Next st' =>
          let* (eff', o) := Emulation_loop canned st' evs' in
          Some (eff ++ eff', o)
      end
  end.

(** Lines 122-163: what [SimulateIso14443aInit] is called with. *)
Definition Emulation_init (uid : list Z) : option (option sim_init) :=
  let flags := FLAG_4B_UID_IN_DATA P in
  let* uid4 := memread uid 0 4 in
  let* data := memcpy (zero_buf (PM3_CMD_DATA_SIZE P)) 0 uid4 in
  let tagType := 4 in
  Some (SimulateIso14443aInit P tagType flags data [0; 0; 0]
          [0xbd; 0xbd; 0xbd]).

(** The locals on entry to the loop. *)
Definition Emulation_locals (init : sim_init) : emu_locals :=
  mk_emu_locals (zero_buf (MAX_FRAME_SIZE P)) blank_info None
    (cuid init) (counters init) (tearings init) (pages init).

Definition Emulation (uid : list Z) (evs : list reader_event)
  : option (list effect * session_outcome) :=
  let* r := Emulation_init uid in
  match r with
  | None =>
      Some ([SpinDelay 500; BigBuf_free_keep_EM; BigBuf_free_keep_EM;
             reply_ng PM3_EINIT],
            Returned PM3_EFATAL)
  | Some init =>
      let* (eff, o) :=
        Emulation_loop (responses init) (Emulation_locals init) evs in
      Some ([SpinDelay 500; BigBuf_free_keep_EM;
             iso14443a_setup FPGA_HF_ISO14443A_TAGSIM_LISTEN] ++ eff, o)
  end.

End Emulation.

(** ** Reading (lines 309-320) *)

(** Modelled from the spec: [iso14443a_select_card] is defined in
    [iso14443a.c], not under src/.  Per section 4.5 a selection either
    succeeds and returns the card's identifier bytes, or fails with no
    identifier.  [card] is [Some] of the identifier a successful selection
    stores at the start of the [uid] buffer, [None] for a failed selection,
    which leaves the buffer as it was. *)
Definition Reading (uid : list Z) (card : option (list Z))
  : list effect * (pm3_status * list Z) :=
  let eff := [iso14443a_setup FPGA_HF_ISO14443A_READER_MOD;
              iso14443a_select_card uid] in
  match card with
  | Some id => (eff, (PM3_SUCCESS, list_inserts 0 id uid))
  | None => (eff, (PM3_EFATAL, uid))
  end.

(** ** RunMod: the mode controller (lines 322-378) *)

(** The results of [BUTTON_HELD] that the loop tells apart. *)
Inductive button_press := BUTTON_HOLD | BUTTON_SINGLE_CLICK | BUTTON_NO_CLICK.

(** What the environment supplies to one turn of the controller loop: the
    host's stop request, the button, the outcome of the card selection (used
    on a single click) and the reader events of the emulation session. *)
Record controller_input := mk_controller_input {
  data_available : bool;
  BUTTON_HELD : button_press;
  card : option (list Z);
  reader : list reader_event
}.

(** Where the controller stands once its inputs are used up. *)
Inductive controller_outcome :=
| Polling (uid : list Z) (retval : pm3_status)
| Emulating (uid : list Z) (st : emu_locals)
| Exited (uid : list Z) (retval : pm3_status).

(** [static uint8_t uid[10] = {0xbf, 0x88, 0x69, 0x3e}] (line 328). *)
Definition uid_default : list Z :=
  [0xbf; 0x88; 0x69; 0x3e; 0; 0; 0; 0; 0; 0]%Z.

Definition is_success (s : pm3_status) : bool :=
  match s with PM3_SUCCESS => true | _ => false end.

(** Lines 352-364, the single click branch: the effects and the [uid] buffer
    after it. *)
Definition RunMod_click (uid : list Z) (card : option (list Z))
  : option (list effect * list Z) :=
  let '(eff, (ret, uid1)) := Reading uid card in
  if is_success ret then Some (eff, uid1)
  else
    let* u0 := load uid1 0 in
    if (u0 <? 255)%Z then
      let* uid2 := store uid1 0 ((u0 + 1) mod 256)%Z in
      Some (eff, uid2)
    else Some (eff, uid1).

(** Lines 371-377. *)
Definition RunMod_exit (retval : pm3_status) : list effect :=
  [switch_off; BigBuf_free_keep_EM; reply_ng retval; LEDsoff].

(** The [for (;;)] loop of lines 335-369. *)
Fixpoint RunMod_loop (P : platform) (uid : list Z) (retval : pm3_status)
    (ins : list controller_input)
  : option (list effect * controller_outcome) :=
  match ins with
  | [] => Some ([], Polling uid retval)
  | i :: ins' =>
      if data_available i then Some (RunMod_exit retval, Exited uid retval)
      else
        match BUTTON_HELD i with
        | BUTTON_HOLD => Some (RunMod_exit retval, Exited uid retval)
        | pressed =>
            let* (eff_r, uid1) :=
              match pressed with
              | BUTTON_SINGLE_CLICK => RunMod_click uid (card i)
              | _ => Some ([], uid)
              end in
            let* (eff_e, o) := Emulation P uid1 (reader i) in
            match o with
            | Listening st => Some (eff_r ++ eff_e, Emulating uid1 st)
            | Returned code =>
                let* (eff', out) := RunMod_loop P uid1 code ins' in
                Some (eff_r ++ eff_e ++ eff', out)
            end
        end
  end.

Definition RunMod (P : platform) (ins : list controller_input)
  : option (list effect * controller_outcome) :=
  RunMod_loop P uid_default PM3_SUCCESS ins.

(** The identifiers handed to [iso14443a_select_card] along a trace. *)
Definition candidates (t : list effect) : list (list Z) :=
  omap (fun e => match e with
                 | iso14443a_select_card uid => Some uid
                 | _ => None
                 end) t.

(** ** A bench platform

    One concrete platform, on which the closed examples run. *)
Module Bench.

Local Open Scope Z_scope.

(** Modelled from the spec: [AddCrc14A] is defined outside src/; section 6
    says it appends the 16-bit frame check the protocol mandates.  This is
    CRC_A of ISO/IEC 14443-3: register preset 0x6363, low byte sent first. *)
Definition crc_step (crc b : Z) : Z :=
  let b1 := Z.lxor b (Z.land crc 0xff) in
  let b2 := Z.lxor b1 (Z.land (Z.shiftl b1 4) 0xff) in
  Z.lxor (Z.lxor (Z.lxor (Z.shiftr crc 8) (Z.shiftl b2 8)) (Z.shiftl b2 3))
         (Z.shiftr b2 4).

Definition crc_a (bytes : list Z) : Z * Z :=
  let crc := fold_left crc_step bytes 0x6363 in
  (Z.land crc 0xff, Z.shiftr crc 8).

Definition framed (body : list Z) : tag_response_info_t :=
  let crc := crc_a body in
  let bytes := body ++ [fst crc; snd crc] in
  mk_tag_response_info bytes (length bytes) bytes (length bytes).

Definition unframed (bytes : list Z) : tag_response_info_t :=
  mk_tag_response_info bytes (length bytes) bytes (length bytes).

(** Modelled from the spec: [SimulateIso14443aInit] is defined in
    [iso14443a.c], not under src/; section 3 says the canned set is built
    once from the session's identifier.  The bench builds the answer to
    request, the identifier with its check byte, and checksummed select and
    transport acknowledgements; it takes the bytes as the modulation. *)
Definition canned (uid4 : list Z) (i : resp_index) : tag_response_info_t :=
  match i with
  | RESP_INDEX_ATQA => unframed [0x04; 0x00]
  | RESP_INDEX_UIDC1 => unframed (uid4 ++ [fold_left Z.lxor uid4 0])
  | RESP_INDEX_SAKC1 => framed [0x28]
  | RESP_INDEX_RATS => framed [0x05; 0x78; 0x80; 0x02]
  end.

Definition init (tagType flags : Z) (data counters tearings : list Z)
  : option sim_init :=
  Some (mk_sim_init (canned (take 4 data)) 0 counters tearings 0).

(** What [init] returns for the default identifier. *)
Definition session0 : sim_init :=
  mk_sim_init (canned (take 4 uid_default)) 0 [0; 0; 0] [0xbd; 0xbd; 0xbd] 0.

(** Modelled from the spec: [prepare_tag_modulation] is defined in
    [iso14443a.c], not under src/; section 6 says it fails when the
    modulation does not fit the capacity it is given.  The bench takes the
    bytes as the modulation. *)
Definition prepare (frame : list Z) (max : nat) : option (list Z) :=
  if decide (length frame <= max)%nat then Some frame else None.

Definition pm3 : platform := mk_platform 256 512 0x02 init crc_a prepare.

(** A platform whose modulation preparation always fails. *)
Definition pm3_no_modulation : platform :=
  mk_platform 256 512 0x02 init crc_a (fun _ _ => None).

(** A platform whose initialisation always fails. *)
Definition pm3_no_init : platform :=
  mk_platform 256 512 0x02 (fun _ _ _ _ _ => None) crc_a prepare.

End Bench.

(** * The vocabulary of the properties

    The predicates, the inputs and the decision list of the specification in
    which the properties below are stated. *)

(** Row [r] is taken by the loop: its guard lets it through and the bytes at
    [apdu_start] compare equal. *)
Definition hits (apdu_start : nat) (received_cmd : list Z) (cmd_len : nat)
    (r : Apdu.rule) : Prop :=
  length (Apdu.apdu_cmd r) <= cmd_len /\
  take (length (Apdu.apdu_cmd r)) (drop apdu_start received_cmd)
    = Apdu.apdu_cmd r.

Global Instance hits_dec apdu_start received_cmd cmd_len r :
  Decision (hits apdu_start received_cmd cmd_len r).
Proof. unfold hits. apply _. Defined.

(** The first row of the table taken, if any. *)
Definition first_hit (apdu_start : nat) (received_cmd : list Z)
    (cmd_len : nat) (rules : list Apdu.rule) : option Apdu.rule :=
  find (fun r => bool_decide (hits apdu_start received_cmd cmd_len r)) rules.

(** The longest command and the longest reply of the table. *)
Definition rule_fits (r : Apdu.rule) : Prop :=
  length (Apdu.apdu_cmd r) <= 19 /\ length (Apdu.apdu_response r) <= 59.

(** The response info left by a hit on row [r]: the header copied from the
    received command, the reply of the row behind it, the rest of the buffer
    as it was. *)
Definition replayed (info : tag_response_info_t) (apdu_start : nat)
    (received_cmd : list Z) (r : Apdu.rule) : tag_response_info_t :=
  with_response
    (take apdu_start received_cmd ++ Apdu.apdu_response r ++
     drop (apdu_start + length (Apdu.apdu_response r)) (response info))
    (apdu_start + length (Apdu.apdu_response r)) info.

(** What the bounds of the model need from the platform's constants: the
    receive buffer holds the longest command of the table behind a two byte
    header, and the data block holds the four identifier bytes. *)
Definition platform_ok (P : platform) : Prop :=
  21 <= MAX_FRAME_SIZE P /\ 4 <= PM3_CMD_DATA_SIZE P.

(** The dynamic response buffer has its declared size and at most [bound]
    of its bytes are in use. *)
Definition within (bound : nat) (info : tag_response_info_t) : Prop :=
  length (response info) = DYNAMIC_RESPONSE_BUFFER_SIZE /\
  response_n info <= bound.

(** What holds of the locals each time the loop is entered. *)
Definition emu_inv (P : platform) (st : emu_locals) : Prop :=
  length (receivedCmd st) = MAX_FRAME_SIZE P /\
  within 63 (dynamic_response_info st) /\
  p_response st = None.

(** Every dynamic response handed to [EmSendPrecompiledCmd] lies within its
    buffer. *)
Definition sent_within (e : effect) : Prop :=
  match e with
  | EmSendPrecompiledCmd Dynamic info => within 63 info
  | _ => True
  end.

(** What a session does before it enters its loop. *)
Definition session_prologue : list effect :=
  [SpinDelay 500; BigBuf_free_keep_EM;
   iso14443a_setup FPGA_HF_ISO14443A_TAGSIM_LISTEN].

(** What a session does when its initialisation fails. *)
Definition session_init_failure : list effect :=
  [SpinDelay 500; BigBuf_free_keep_EM; BigBuf_free_keep_EM;
   reply_ng PM3_EINIT].

(** Rules 1-6 of section 4.1 as the specification words them: a length, the
    leading bytes, and the canned entry to answer with ([None]: no
    response). *)
Record spec_rule := mk_spec_rule {
  rule_len : nat;
  rule_prefix : list Z;
  rule_reply : option resp_index
}.

Definition spec_rules : list spec_rule :=
  [mk_spec_rule 1 [ISO14443A_CMD_REQA] (Some RESP_INDEX_ATQA);
   mk_spec_rule 4 [ISO14443A_CMD_HALT] None;
   mk_spec_rule 1 [ISO14443A_CMD_WUPA] (Some RESP_INDEX_ATQA);
   mk_spec_rule 2 [ISO14443A_CMD_ANTICOLL_OR_SELECT; 0x20%Z]
     (Some RESP_INDEX_UIDC1);
   mk_spec_rule 9 [ISO14443A_CMD_ANTICOLL_OR_SELECT; 0x70%Z]
     (Some RESP_INDEX_SAKC1);
   mk_spec_rule 4 [ISO14443A_CMD_RATS] (Some RESP_INDEX_RATS)].

Fixpoint starts_with (prefix frame : list Z) : bool :=
  match prefix, frame with
  | [], _ => true
  | c :: prefix', x :: frame' => (x =? c)%Z && starts_with prefix' frame'
  | _ :: _, [] => false
  end.

Definition rule_matches (frame : list Z) (r : spec_rule) : bool :=
  (length frame =? rule_len r) && starts_with (rule_prefix r) frame.

(** First match wins. *)
Definition first_match (frame : list Z) : option spec_rule :=
  find (rule_matches frame) spec_rules.

(** A body with its two checksum bytes behind it. *)
Definition checksummed (P : platform) (body : list Z) : list Z :=
  body ++ [fst (AddCrc14A P body); snd (AddCrc14A P body)].

(** The response info after lines 288-289. *)
Definition with_crc (P : platform) (info : tag_response_info_t)
  : tag_response_info_t :=
  let n := response_n info in
  let crc := AddCrc14A P (take n (response info)) in
  with_response (<[n + 1 := snd crc]> (<[n := fst crc]> (response info)))
    (n + 2) info.

(** The response info after a successful [prepare_tag_modulation]. *)
Definition with_prepared (m : list Z) (info : tag_response_info_t)
  : tag_response_info_t :=
  with_modulation (list_inserts 0 m (modulation info)) (length m) info.

(** What a call of [Reply2Reader] reports: the returned [int], the reported
    length and the response bytes in use. *)
Definition verdict (r : option (Z * tag_response_info_t))
  : option (Z * nat * list Z) :=
  (fun x => (fst x, response_n (snd x), payload (snd x))) <$> r.

(** A command of seven bytes behind a one byte header: the last byte of the
    select-MF command is missing from the frame. *)
Definition truncated_select : list Z :=
  [0x02; 0x00; 0xA4; 0x00; 0x00; 0x02; 0x3f]%Z.

(** A read-binary command cut after four of its five bytes, in a buffer whose
    next byte is left from an earlier, complete read-binary command, and the
    same frame in a buffer that holds zero there. *)
Definition truncated_read_stale : list Z :=
  [0x02; 0x00; 0xB0; 0x95; 0x00; 0x1e]%Z ++ zero_buf 250.
Definition truncated_read_clean : list Z :=
  [0x02; 0x00; 0xB0; 0x95; 0x00; 0x00]%Z ++ zero_buf 250.

(** The effects of answering with a canned entry, or with nothing. *)
Definition canned_effects (canned : resp_index -> tag_response_info_t)
    (reply : option resp_index) : list effect :=
  match reply with
  | Some i => [EmSendPrecompiledCmd (Canned i) (canned i); LED_C false]
  | None => []
  end.

(** The locals after a frame was handled and the loop is entered again. *)
Definition after_frame (st : emu_locals) (frame : list Z)
    (info : tag_response_info_t) : emu_locals :=
  mk_emu_locals (list_inserts 0 frame (receivedCmd st)) info None
    (emu_cuid st) (emu_counters st) (emu_tearings st) (emu_pages st).

(** A frame whose first byte is [b]. *)
Definition first_byte (frame : list Z) (b : Z) : Prop := frame !! 0 = Some b.

(** A session hands nothing to [iso14443a_select_card]. *)
Definition no_select (e : effect) : Prop :=
  match e with iso14443a_select_card _ => False | _ => True end.

(** A turn of the controller in which the button is clicked once, the card
    selection fails and the emulation session that follows comes to an
    end. *)
Definition failed_selection (i : controller_input) : Prop :=
  data_available i = false /\ BUTTON_HELD i = BUTTON_SINGLE_CLICK /\
  card i = None /\ In RxAbort (reader i).

(** The first byte [n] failed selections after it was [b]. *)
Definition walked (b : Z) (n : nat) : Z := Z.min (b + Z.of_nat n) 255.

(** Five turns with a single click, no card, and a session the host ends at
    once. *)
Definition five_failed_selections : list controller_input :=
  replicate 5 (mk_controller_input false BUTTON_SINGLE_CLICK None [RxAbort]).

(** The frames a reader has sent among the reader events. *)
Definition received (evs : list reader_event) : list (list Z) :=
  omap (fun ev => match ev with
                  | RxFrame frame => Some frame
                  | RxAbort => None
                  end) evs.

(** What goes on the air for a dynamic reply with the bytes [body]: the body
    with its checksum when the modulation can be prepared, nothing
    otherwise. *)
Definition on_air (P : platform) (body : list Z) : list (list Z) :=
  match prepare_tag_modulation P (checksummed P body)
          DYNAMIC_MODULATION_BUFFER_SIZE with
  | Some _ => [checksummed P body]
  | None => []
  end.

(** The header of an I-block: the block byte alone (0x02, 0x03), or the
    block byte (0x0A, 0x0B) with the card identifier byte behind it. *)
Definition iblock_header (header : list Z) : Prop :=
  header = [0x02%Z] \/ header = [0x03%Z] \/
  exists cid, header = [0x0A%Z; cid] \/ header = [0x0B%Z; cid].

(** The first bytes the [switch] of lines 223-279 answers. *)
Definition answered_first_bytes : list Z :=
  [0x02; 0x03; 0x0B; 0x0A; 0xAA; 0xBB; 0xBA; 0xCA; 0xC2]%Z.

(** * lf_tharexde: EM4x50 simulator and collector

    A shallow embedding of [armsrc/Standalone/lf_tharexde.c]: the loader of
    the dump to simulate, [get_input_data_from_file], the log writer
    [append], and [RunMod] with the text records that it builds in its
    [entry] buffer.

    Conventions, beyond those above.
    - [uint32_t] values are [Z]; where the C code converts to [uint32_t] the
      reduction modulo [2 ^ 32] is written out.  [int] arithmetic is two's
      complement, as the compiler of the firmware has it, so that shifting
      and or-ing in [Z] and reducing at the conversion gives the C result.
    - A file in flash is the list of its bytes, [None] when
      [exists_in_spiffs] says it is not there.  [BigBuf_malloc] is taken to
      grant the buffer and [rdv40_spiffs_read_as_filetype] to fill it with
      the file.
    - [strlen] and [sprintf] are those of the C library: [strlen] scans for
      the first zero byte, [sprintf] stores the text and a closing zero.
    - The simulation and the reading of a tag belong to [em4x50.c], which
      is not among the sources: what [em4x50_handle_commands] and
      [standard_read] leave in the variables they are given comes with the
      environment, turn by turn. *)
Module Tharexde.

(** What the file takes from [em4x50.h], [pm3_cmd.h] and [commonutil.h],
    which are not among the sources: the number of words of a tag, the
    indices of the words that hold the device serial and the device
    identification, the command and the two status codes that [RunMod]
    compares with, the value of a hexadecimal digit and the reversal of the
    bits of a word. *)
Record em4x50 := mk_em4x50 {
  EM4X50_NO_WORDS : nat;
  EM4X50_DEVICE_SERIAL : nat;
  EM4X50_DEVICE_ID : nat;
  EM4X50_COMMAND_STANDARD_READ : Z;
  PM3_EOPABORTED : Z;
  PM3_ETIMEOUT : Z;
  hex2int : Z -> Z;
  reflect32 : Z -> Z
}.

(** Conversion to [uint32_t]. *)
Definition uint32 (z : Z) : Z := (z mod 2 ^ 32)%Z.

(** [for (int i = start; i < start + n; i++) body], stopping at the first
    access outside an array. *)
Fixpoint for_range {A : Type} (body : nat -> A -> option A)
    (start n : nat) (a : A) : option A :=
  match n with
  | 0 => Some a
  | S n' => let* a' := body start a in for_range body (S start) n' a'
  end.

(** ** get_input_data_from_file (lines 86-111) *)

(** Line 101:
    [tag[i] |= (hex2int(mem[2 * j + 9 * i]) << 4
                | hex2int(mem[2 * j + 1 + 9 * i])) << ((3 - j) * 8)]. *)
Definition or_byte (E : em4x50) (mem : list Z) (i j : nat) (tag : list Z)
  : option (list Z) :=
  let* hi := load mem (2 * j + 9 * i) in
  let* lo := load mem (2 * j + 1 + 9 * i) in
  let* w := load tag i in
  store tag i
    (Z.lor w
       (uint32 (Z.shiftl (Z.lor (Z.shiftl (hex2int E hi) 4) (hex2int E lo))
                  (Z.of_nat ((3 - j) * 8))))).

(** The loops of lines 99-103. *)
Definition or_words (E : em4x50) (mem : list Z) (now : nat) (tag : list Z)
  : option (list Z) :=
  for_range (fun i => for_range (or_byte E mem i) 0 4) 0 now tag.

(** Lines 88-106: [now] and the [tag] array after them. *)
Definition or_phase (E : em4x50) (tag : list Z)
    (inputfile : option (list Z)) : option (nat * list Z) :=
  match inputfile with
  | Some mem =>
      let now := length mem / 9 in
      let* tag1 := or_words E mem now tag in
      Some (now, tag1)
  | None => Some (0, tag)
  end.

(** The result pairs the returned [bool] with the [tag] array after the
    call. *)
Definition get_input_data_from_file (E : em4x50) (tag : list Z)
    (inputfile : option (list Z)) : option (bool * list Z) :=
  let* (now, tag1) := or_phase E tag inputfile in
  if decide (now = EM4X50_NO_WORDS E) then
    let* serial := load tag1 (EM4X50_DEVICE_SERIAL E) in
    let* id := load tag1 (EM4X50_DEVICE_ID E) in
    Some (negb (serial =? id)%Z, tag1)
  else Some (false, tag1).

(** ** append (lines 113-121) *)

(** The files of lines 61-63. *)
Inductive filename :=
| LF_EM4X50_INPUTFILE_SIM
| LF_EM4X50_LOGFILE_SIM
| LF_EM4X50_LOGFILE_COLLECT.

(** The two calls that change a file in flash. *)
Inductive flash_op :=
| rdv40_spiffs_write (file : filename) (data : list Z)
| rdv40_spiffs_append (file : filename) (data : list Z).

(** [entry_len] bytes at [entry] go to the file; the result pairs the call
    made with the global [log_exists] after it. *)
Definition append (log_exists : bool) (file : filename) (entry : list Z)
    (entry_len : nat) : option (flash_op * bool) :=
  let* data := memread entry 0 entry_len in
  if log_exists then Some (rdv40_spiffs_append file data, log_exists)
  else Some (rdv40_spiffs_write file data, true).

(** ** The text records of RunMod *)

(** [strlen(buf)]. *)
Fixpoint strlen (buf : list Z) : option nat :=
  match buf with
  | [] => None
  | b :: buf' => if (b =? 0)%Z then Some 0 else S <$> strlen buf'
  end.

(** [sprintf(buf + off, ...)], with [s] the text the format gives. *)
Definition sprintf (buf : list Z) (off : nat) (s : list Z)
  : option (list Z) :=
  memcpy buf off (s ++ [0%Z]).

(** The lower-case hexadecimal digit of a value below 16. *)
Definition hex_digit (d : Z) : Z :=
  if (d <? 10)%Z then (48 + d)%Z else (87 + d)%Z.

(** The text of ["%08" PRIx32 "\n"]: eight digits, the high one first, and a
    line feed. *)
Definition hex8_line (w : Z) : list Z :=
  ((fun k => hex_digit (Z.land (Z.shiftr w (4 * k)) 15))
     <$> [7; 6; 5; 4; 3; 2; 1; 0]%Z) ++ [10%Z].

(** [uint8_t entry[400]] after [memset(entry, 0, sizeof(entry))]. *)
Definition entry0 : list Z := replicate 400 0%Z.

(** Lines 205 and 250:
    [sprintf(entry + strlen(entry), "%08" PRIx32 "\n", tag[i])]. *)
Definition sprintf_word (tag : list Z) (i : nat) (entry : list Z)
  : option (list Z) :=
  let* len := strlen entry in
  let* w := load tag i in
  sprintf entry len (hex8_line w).

(** The loops of lines 204-206 and 249-251, over the first [n] words. *)
Definition sprintf_words (tag : list Z) (n : nat) (entry : list Z)
  : option (list Z) :=
  for_range (sprintf_word tag) 0 n entry.

(** Lines 202-206: the dump of the tag, built after a new password was
    received. *)
Definition password_entry (E : em4x50) (tag : list Z) : option (list Z) :=
  sprintf_words tag (EM4X50_NO_WORDS E) entry0.

(** The characters of ["found EM4x50 tag:\n"]. *)
Definition found_tag : list Z :=
  [102; 111; 117; 110; 100; 32; 69; 77; 52; 120; 53; 48; 32; 116; 97; 103;
   58; 10]%Z.

(** Lines 244-255: the record of the words read from a tag and its way to
    flash.  [no_words] and [tag] are as [standard_read] left them. *)
Definition collect (log_exists : bool) (no_words : Z) (tag : list Z)
  : option (option flash_op * bool) :=
  if (0 <? no_words)%Z then
    let* entry := sprintf entry0 0 found_tag in
    let* entry := sprintf_words tag (Z.to_nat no_words) entry in
    let* len := strlen entry in
    let* entry := sprintf entry len [10%Z] in
    let* len := strlen entry in
    let* (op, log_exists') :=
      append log_exists LF_EM4X50_LOGFILE_COLLECT entry len in
    Some (Some op, log_exists')
  else Some (None, log_exists).

(** ** RunMod (lines 127-279) *)

(** [STATE_SIM] and [STATE_READ], the values of [state]. *)
Inductive mode := STATE_SIM | STATE_READ.

(** The calls of [RunMod] that are recorded.  [exists_in_spiffs] comes with
    its answer, [em4x50_handle_commands] with the [command] and the [tag] that
    it is given. *)
Inductive effect :=
| rdv40_spiffs_lazy_mount
| rdv40_spiffs_lazy_unmount
| exists_in_spiffs (file : filename) (answer : bool)
| flash (op : flash_op)
| LEDsoff
| LED_A_ON
| LED_B_ON
| LED_D (on : bool)
| em4x50_setup_sim
| em4x50_handle_commands (command : Z) (tag : list Z)
| em4x50_setup_read
| standard_read
| reset_timer
| LoadDataInstructions (file : filename)
| DownloadLogInstructions (file : filename)
| FpgaWriteConfWord_OFF.

(** What the environment supplies to one turn of the loop: the host's stop
    request, the button, the input file in flash, what
    [em4x50_handle_commands] leaves in [command], [tag] and [gPassword],
    whether the two logs are in flash, and what [standard_read] leaves in
    [no_words] and [tag]. *)
Record turn := mk_turn {
  data_available : bool;
  BUTTON_CLICKED : button_press;
  inputfile : option (list Z);
  handled : Z * list Z * Z;
  logfile_sim : bool;
  logfile_collect : bool;
  read : Z * list Z
}.

(** The variables of [RunMod] that live across turns of its loop, with the
    global [log_exists]. *)
Record locals := mk_locals {
  state_change : bool;
  command : Z;
  state : mode;
  tag : list Z;
  log_exists : bool
}.

(** Lines 167-225, the simulating branch.  The [bool] says that the loop is
    left. *)
Definition simulate (E : em4x50) (i : turn) (l : locals)
  : option (list effect * locals * bool) :=
  let* (eff, command0, tag0) :=
    if state_change l then
      let* (ok, tag0) :=
        get_input_data_from_file E (tag l) (inputfile i) in
      Some ([LEDsoff; LED_A_ON;
             exists_in_spiffs LF_EM4X50_INPUTFILE_SIM
               (bool_decide (is_Some (inputfile i)));
             em4x50_setup_sim; LED_D false],
            EM4X50_COMMAND_STANDARD_READ E, tag0)
    else Some ([], command l, tag l) in
  let '(command1, tag1, gPassword) := handled i in
  let* w0 := load tag1 0 in
  let* (eff2, tag2, log_exists2) :=
    if decide (gPassword <> reflect32 E w0) then
      let* tag2 := store tag1 0 (reflect32 E gPassword) in
      let* entry := password_entry E tag2 in
      Some ([exists_in_spiffs LF_EM4X50_LOGFILE_SIM (logfile_sim i)],
            tag2, logfile_sim i)
    else Some ([], tag1, log_exists l) in
  let eff := eff ++ [em4x50_handle_commands command0 tag0] ++ eff2 in
  if decide (command1 = PM3_EOPABORTED E) then
    Some (eff, mk_locals false command1 (state l) tag2 log_exists2, true)
  else if decide (command1 = PM3_ETIMEOUT E) then
    Some (eff ++ [LED_D false],
          mk_locals false (EM4X50_COMMAND_STANDARD_READ E) (state l) tag2
            log_exists2,
          false)
  else
    Some (eff, mk_locals false command1 (state l) tag2 log_exists2, false).

(** Lines 226-262, the reading branch. *)
Definition collect_turn (i : turn) (l : locals)
  : option (list effect * locals) :=
  let '(eff, log_exists1) :=
    if state_change l then
      ([LEDsoff; LED_B_ON;
        exists_in_spiffs LF_EM4X50_LOGFILE_COLLECT (logfile_collect i);
        em4x50_setup_read],
       logfile_collect i)
    else ([], log_exists l) in
  let '(no_words, tag1) := read i in
  let* (op, log_exists2) := collect log_exists1 no_words tag1 in
  Some (eff ++ [standard_read]
            ++ match op with Some op => [flash op] | None => [] end
            ++ [reset_timer],
        mk_locals false (command l) (state l) tag1 log_exists2).

(** Lines 150-161, a single click. *)
Definition toggle (l : locals) : locals :=
  mk_locals true (command l)
    match state l with STATE_SIM => STATE_READ | STATE_READ => STATE_SIM end
    (tag l) (log_exists l).

(** Lines 265-278. *)
Definition RunMod_exit (s : mode) : list effect :=
  [match s with
   | STATE_READ => DownloadLogInstructions LF_EM4X50_LOGFILE_COLLECT
   | STATE_SIM => LoadDataInstructions LF_EM4X50_INPUTFILE_SIM
   end;
   LED_D true; rdv40_spiffs_lazy_unmount; LED_D false;
   FpgaWriteConfWord_OFF; LEDsoff].

(** Where [RunMod] stands once the turns are used up. *)
Inductive outcome := Polling (l : locals) | Exited (l : locals).

(** The [for (;;)] loop of lines 138-263 and the lines after it. *)
Fixpoint RunMod_loop (E : em4x50) (l : locals) (turns : list turn)
  : option (list effect * outcome) :=
  match turns with
  | [] => Some ([], Polling l)
  | i :: turns' =>
      if data_available i then Some (RunMod_exit (state l), Exited l)
      else
        match BUTTON_CLICKED i with
        | BUTTON_HOLD => Some (RunMod_exit (state l), Exited l)
        | pressed =>
            let l1 :=
              match pressed with
              | BUTTON_SINGLE_CLICK => toggle l
              | _ => l
              end in
            match state l1 with
            | STATE_SIM =>
                let* (eff, l2, stop) := simulate E i l1 in
                if stop : bool
                then Some (eff ++ RunMod_exit (state l2), Exited l2)
                else
                  let* (eff', o) := RunMod_loop E l2 turns' in
                  Some (eff ++ eff', o)
            | STATE_READ =>
                let* (eff, l2) := collect_turn i l1 in
                let* (eff', o) := RunMod_loop E l2 turns' in
                Some (eff ++ eff', o)
            end
        end
  end.

(** Lines 129-132: the variables as [RunMod] declares them; the global
    [log_exists] is as the firmware left it. *)
Definition RunMod_locals (E : em4x50) (log_exists : bool) : locals :=
  mk_locals true 0 STATE_SIM (replicate (EM4X50_NO_WORDS E) 0%Z) log_exists.

Definition RunMod (E : em4x50) (log_exists : bool) (turns : list turn)
  : option (list effect * outcome) :=
  let* (eff, o) := RunMod_loop E (RunMod_locals E log_exists) turns in
  Some (rdv40_spiffs_lazy_mount :: eff, o).

(** ** The vocabulary of the properties *)

(** The value that line 101 ors into word [i] for byte [j] of line [i] of
    the file. *)
Definition parsed_byte (E : em4x50) (mem : list Z) (i j : nat) : Z :=
  uint32
    (Z.shiftl
       (Z.lor (Z.shiftl (hex2int E (default 0%Z (mem !! (2 * j + 9 * i)))) 4)
              (hex2int E (default 0%Z (mem !! (2 * j + 1 + 9 * i)))))
       (Z.of_nat ((3 - j) * 8))).

(** The value that the four turns of the inner loop or into word [i]. *)
Definition parsed_word (E : em4x50) (mem : list Z) (i : nat) : Z :=
  Z.lor (Z.lor (Z.lor (parsed_byte E mem i 0) (parsed_byte E mem i 1))
               (parsed_byte E mem i 2))
        (parsed_byte E mem i 3).

(** The number of lines of nine characters of a file. *)
Definition lines (inputfile : option (list Z)) : nat :=
  match inputfile with Some mem => length mem / 9 | None => 0 end.

(** The header fits the array that [RunMod] declares: [tag] has
    [EM4X50_NO_WORDS] words, and the two words compared are among them. *)
Definition em4x50_ok (E : em4x50) (tag : list Z) : Prop :=
  length tag = EM4X50_NO_WORDS E /\
  EM4X50_DEVICE_SERIAL E < EM4X50_NO_WORDS E /\
  EM4X50_DEVICE_ID E < EM4X50_NO_WORDS E.

(** [hex2int] gives the value of each of the lower-case digits. *)
Definition decodes_hex (E : em4x50) : Prop :=
  Forall (fun d => hex2int E (hex_digit d) = d) (seqZ 0 16).

(** A value of [uint32_t]. *)
Definition is_uint32 (w : Z) : Prop := (0 <= w < 2 ^ 32)%Z.

(** The text of a dump: a line of eight digits for each word. *)
Definition dump (words : list Z) : list Z := mbind hex8_line words.

(** The record of the words read from a tag, as it goes to the log. *)
Definition record (words : list Z) : list Z :=
  found_tag ++ dump words ++ [10%Z].

(** The call by which [append] puts [data] into the collect log. *)
Definition logged (log_exists : bool) (data : list Z) : flash_op :=
  if log_exists
  then rdv40_spiffs_append LF_EM4X50_LOGFILE_COLLECT data
  else rdv40_spiffs_write LF_EM4X50_LOGFILE_COLLECT data.

(** A text holds no zero byte. *)
Definition is_text (s : list Z) : Prop := Forall (fun c => c <> 0%Z) s.

(** The calls that change flash along a trace. *)
Definition flash_ops (t : list effect) : list flash_op :=
  omap (fun e => match e with flash op => Some op | _ => None end) t.

(** A call that puts the record of between 1 and 42 words at the end of the
    collect log, or makes it the log. *)
Definition logs_record (op : flash_op) : Prop :=
  exists words, 1 <= length words <= 42 /\
    (op = rdv40_spiffs_write LF_EM4X50_LOGFILE_COLLECT (record words) \/
     op = rdv40_spiffs_append LF_EM4X50_LOGFILE_COLLECT (record words)).

(** The discipline of the collect log along a trace.  [known] is what the
    trace says of the log so far: whether it is there, as
    [exists_in_spiffs] last answered or as follows from a record having been
    logged since.  A record is written as a new file only when the log is
    known to be absent, and appended only when it is known to be there. *)
Fixpoint log_discipline (known : option bool) (t : list effect) : bool :=
  match t with
  | [] => true
  | exists_in_spiffs LF_EM4X50_LOGFILE_COLLECT answer :: t' =>
      log_discipline (Some answer) t'
  | flash (rdv40_spiffs_write _ _) :: t' =>
      bool_decide (known = Some false) && log_discipline (Some true) t'
  | flash (rdv40_spiffs_append _ _) :: t' =>
      bool_decide (known = Some true) && log_discipline (Some true) t'
  | _ :: t' => log_discipline known t'
  end.

(** What a trace says of the collect log at its end. *)
Fixpoint log_known (known : option bool) (t : list effect) : option bool :=
  match t with
  | [] => known
  | exists_in_spiffs LF_EM4X50_LOGFILE_COLLECT answer :: t' =>
      log_known (Some answer) t'
  | flash _ :: t' => log_known (Some true) t'
  | _ :: t' => log_known known t'
  end.

(** The header leaves room: the tag has a first word, the words compared are
    among its words, and its dump fits [entry]. *)
Definition header_ok (E : em4x50) : Prop :=
  1 <= EM4X50_NO_WORDS E <= 44 /\
  EM4X50_DEVICE_SERIAL E < EM4X50_NO_WORDS E /\
  EM4X50_DEVICE_ID E < EM4X50_NO_WORDS E.

(** The environment of a turn keeps to the sizes: the input file has no more
    lines than the tag has words, [em4x50_handle_commands] and
    [standard_read] leave the array its length, and [standard_read] reports
    no more words than the array has nor than 42. *)
Definition turn_ok (E : em4x50) (i : turn) : Prop :=
  lines (inputfile i) <= EM4X50_NO_WORDS E /\
  length (handled i).1.2 = EM4X50_NO_WORDS E /\
  length (read i).2 = EM4X50_NO_WORDS E /\
  (Z.to_nat (read i).1 <= EM4X50_NO_WORDS E) /\
  ((read i).1 <= 42)%Z.

(** ** A bench header *)
Module Bench.

Local Open Scope Z_scope.

(** The value of a hexadecimal digit of either case, -1 for any other
    character. *)
Definition hex2int (c : Z) : Z :=
  if (48 <=? c) && (c <=? 57) then c - 48
  else if (97 <=? c) && (c <=? 102) then c - 87
  else if (65 <=? c) && (c <=? 70) then c - 55
  else -1.

(** The bits of a word of 32 bits in reverse order. *)
Definition reflect32 (v : Z) : Z :=
  fold_left (fun acc k => if Z.testbit v k
                          then Z.lor acc (Z.shiftl 1 (31 - k)) else acc)
            (seqZ 0 32) 0.

(** A tag of 34 words, the last two of them the device serial and the device
    identification. *)
Definition em : em4x50 := mk_em4x50 34 32 33 2 (-20) (-4) hex2int reflect32.

(** The words of a tag: multiples of [0x01234567], reduced to 32 bits. *)
Definition words : list Z :=
  (fun i => uint32 (Z.of_nat i * 0x01234567)) <$> seq 0 34.

(** Three turns: a click that switches to reading while there is no log,
    with two words read; a turn without the button, with two words read; and
    the button held. *)
Definition session : list turn :=
  [mk_turn false BUTTON_SINGLE_CLICK None (2, words, 0) false false
     (2, words);
   mk_turn false BUTTON_NO_CLICK None (2, words, 0) false true (2, words);
   mk_turn false BUTTON_HOLD None (2, words, 0) false true (0, words)].

(** What [RunMod] does over these turns. *)
Definition session_trace : list effect :=
  [rdv40_spiffs_lazy_mount;
   LEDsoff; LED_B_ON;
   exists_in_spiffs LF_EM4X50_LOGFILE_COLLECT false; em4x50_setup_read;
   standard_read;
   flash (rdv40_spiffs_write LF_EM4X50_LOGFILE_COLLECT
            (record (take 2 words)));
   reset_timer;
   standard_read;
   flash (rdv40_spiffs_append LF_EM4X50_LOGFILE_COLLECT
            (record (take 2 words)));
   reset_timer;
   DownloadLogInstructions LF_EM4X50_LOGFILE_COLLECT;
   LED_D true; rdv40_spiffs_lazy_unmount; LED_D false;
   FpgaWriteConfWord_OFF; LEDsoff].

(** The loop in reading mode, with a log in flash. *)
Definition reading : locals :=
  mk_locals false 0 STATE_READ (replicate 34 0) true.

(** Two turns: two words are read; then a click switches to simulating, the
    input file is a dump of zeros, and the simulation is aborted. *)
Definition read_two : turn :=
  mk_turn false BUTTON_NO_CLICK None (2, words, 0) false true (2, words).

Definition click_abort : turn :=
  mk_turn false BUTTON_SINGLE_CLICK (Some (dump (replicate 34 0)))
    (-20, words, 0) false true (0, words).

(** What the loop does over these turns. *)
Definition switch_trace : list effect :=
  [standard_read;
   flash (rdv40_spiffs_append LF_EM4X50_LOGFILE_COLLECT
            (record (take 2 words)));
   reset_timer;
   LEDsoff; LED_A_ON;
   exists_in_spiffs LF_EM4X50_INPUTFILE_SIM true;
   em4x50_setup_sim; LED_D false;
   em4x50_handle_commands 2 words;
   LoadDataInstructions LF_EM4X50_INPUTFILE_SIM;
   LED_D true; rdv40_spiffs_lazy_unmount; LED_D false;
   FpgaWriteConfWord_OFF; LEDsoff].

(** A turn in which a password is received. *)
Definition login : turn :=
  mk_turn false BUTTON_NO_CLICK None (2, words, 0x12345678) false false
    (0, words).

(** The variables after that turn, when it is the first of a run. *)
Definition logged_in : locals :=
  mk_locals false 2 STATE_SIM (<[0%nat := reflect32 0x12345678]> words)
    false.

End Bench.

End Tharexde.

(** * Properties *)

(** ** Array accesses *)

Lemma list_inserts_split (off : nat) (k l : list Z) :
  off + length k <= length l ->
  list_inserts off k l = take off l ++ k ++ drop (off + length k) l.
Proof.
  intros Hfit.
  transitivity
    (list_inserts (length (take off l) + 0) k
       (take off l ++
        (take (length k) (drop off l) ++ drop (off + length k) l))).
  - f_equal.
    + rewrite length_take. lia.
    + by rewrite <- drop_drop, !take_drop.
  - rewrite list_inserts_app_r, list_inserts_0_r; [done|].
    rewrite length_take, length_drop. lia.
Qed.

Lemma memread_Some (buf : list Z) (off n : nat) :
  off + n <= length buf -> memread buf off n = Some (take n (drop off buf)).
Proof. intros. unfold memread. by rewrite decide_True. Qed.

Lemma memcpy_Some (dst : list Z) (off : nat) (src : list Z) :
  off + length src <= length dst ->
  memcpy dst off src = Some (list_inserts off src dst).
Proof. intros. unfold memcpy. by rewrite decide_True. Qed.

Lemma store_Some (buf : list Z) (i : nat) (v : Z) :
  i < length buf -> store buf i v = Some (<[i := v]> buf).
Proof. intros. unfold store. by rewrite decide_True. Qed.

Lemma load_Some (buf : list Z) (i : nat) :
  i < length buf -> exists b, load buf i = Some b.
Proof. intros Hi. unfold load. by apply lookup_lt_is_Some_2. Qed.

(** The received frame is what the dispatch reads back, as far as it goes;
    past the frame the buffer keeps what it held. *)
Lemma load_frame_lt (buf frame : list Z) (i : nat) :
  i < length frame -> i < length buf ->
  load (list_inserts 0 frame buf) i = frame !! i.
Proof.
  intros. unfold load. rewrite list_lookup_inserts by lia.
  by rewrite Nat.sub_0_r.
Qed.

Lemma load_frame_ge (buf frame : list Z) (i : nat) :
  length frame <= i -> load (list_inserts 0 frame buf) i = buf !! i.
Proof. intros. unfold load. by rewrite list_lookup_inserts_ge by lia. Qed.

(** The bytes in use after the checksum is stored behind [n] bytes. *)
Lemma take_store_crc (buf : list Z) (n : nat) (c0 c1 : Z) :
  n + 2 <= length buf ->
  take (n + 2) (<[n + 1 := c1]> (<[n := c0]> buf)) = take n buf ++ [c0; c1].
Proof.
  intros Hfit.
  replace (n + 2) with (S (S n)) by lia. replace (n + 1) with (S n) by lia.
  rewrite (take_S_r _ (S n) c1).
  2:{ apply list_lookup_insert_eq. rewrite length_insert. lia. }
  rewrite take_insert_ge by lia.
  rewrite (take_S_r _ n c0).
  2:{ apply list_lookup_insert_eq. lia. }
  rewrite take_insert_ge by lia.
  by rewrite <- app_assoc.
Qed.

(** ** Reply2Reader *)

Lemma table_fits : Forall rule_fits Apdu.table.
Proof. repeat constructor; simpl; lia. Qed.

(** The loop returns on the first row taken, and with -1 when there is
    none. *)
Lemma Reply2Reader_from_first_hit (rules : list Apdu.rule)
    (info : tag_response_info_t) (apdu_start : nat) (received_cmd : list Z)
    (cmd_len : nat) :
  Forall rule_fits rules ->
  apdu_start + 19 <= length received_cmd ->
  Reply2Reader_from rules info apdu_start received_cmd cmd_len =
    match first_hit apdu_start received_cmd cmd_len rules with
    | Some r =>
        let* buf1 := memcpy (response info) 0 (take apdu_start received_cmd) in
        let* buf2 := memcpy buf1 apdu_start (Apdu.apdu_response r) in
        Some (0%Z,
              with_response buf2 (apdu_start + length (Apdu.apdu_response r))
                info)
    | None => Some ((-1)%Z, with_response_n 0 info)
    end.
Proof.
  intros Hfits Hroom. induction Hfits as [|r rules [Hcmd _] _ IH]; [done|].
  unfold first_hit in *. simpl.
  destruct (decide (cmd_len < length (Apdu.apdu_cmd r))) as [Hshort|Hlong].
  - rewrite bool_decide_eq_false_2; [exact IH|].
    unfold hits. lia.
  - rewrite memread_Some by lia.
    destruct (decide (take (length (Apdu.apdu_cmd r))
                        (drop apdu_start received_cmd) = Apdu.apdu_cmd r))
      as [Heq|Hne].
    + rewrite bool_decide_eq_true_2 by (unfold hits; split; [lia|done]).
      rewrite memread_Some by lia. by rewrite drop_0.
    + rewrite bool_decide_eq_false_2; [exact IH|].
      unfold hits. tauto.
Qed.

Lemma first_hit_split (apdu_start : nat) (received_cmd : list Z)
    (cmd_len : nat) (before after : list Apdu.rule) (r : Apdu.rule) :
  Forall (fun r' => ~ hits apdu_start received_cmd cmd_len r') before ->
  hits apdu_start received_cmd cmd_len r ->
  first_hit apdu_start received_cmd cmd_len (before ++ r :: after) = Some r.
Proof.
  intros Hbefore Hr. unfold first_hit.
  induction Hbefore as [|r' before Hr' _ IH]; simpl.
  - by rewrite bool_decide_eq_true_2.
  - by rewrite bool_decide_eq_false_2.
Qed.

Lemma payload_replayed info apdu_start received_cmd r :
  apdu_start <= length received_cmd ->
  payload (replayed info apdu_start received_cmd r)
    = take apdu_start received_cmd ++ Apdu.apdu_response r.
Proof.
  intros Hroom. unfold payload, replayed. simpl.
  rewrite app_assoc.
  apply take_app_length'.
  rewrite length_app, length_take. lia.
Qed.

Lemma Reply2Reader_from_hit (rules : list Apdu.rule)
    (info : tag_response_info_t) (apdu_start : nat) (received_cmd : list Z)
    (cmd_len : nat) (r : Apdu.rule) :
  Forall rule_fits rules ->
  apdu_start + 19 <= length received_cmd ->
  apdu_start + length (Apdu.apdu_response r) <= length (response info) ->
  first_hit apdu_start received_cmd cmd_len rules = Some r ->
  Reply2Reader_from rules info apdu_start received_cmd cmd_len
    = Some (0%Z, replayed info apdu_start received_cmd r).
Proof.
  intros Hfits Hroom Hcap Hhit.
  rewrite Reply2Reader_from_first_hit, Hhit by done.
  assert (Hhdr : length (take apdu_start received_cmd) = apdu_start)
    by (rewrite length_take; lia).
  rewrite memcpy_Some by lia.
  rewrite memcpy_Some by (rewrite length_inserts; lia).
  do 2 f_equal. unfold replayed. f_equal.
  rewrite (list_inserts_split 0) by lia. simpl.
  rewrite list_inserts_split by (rewrite length_app, length_drop; lia).
  rewrite take_app_length' by done.
  do 2 f_equal.
  rewrite drop_app_ge by lia.
  rewrite drop_drop. f_equal. lia.
Qed.

Lemma Reply2Reader_from_miss (rules : list Apdu.rule)
    (info : tag_response_info_t) (apdu_start : nat) (received_cmd : list Z)
    (cmd_len : nat) :
  Forall rule_fits rules ->
  apdu_start + 19 <= length received_cmd ->
  first_hit apdu_start received_cmd cmd_len rules = None ->
  Reply2Reader_from rules info apdu_start received_cmd cmd_len
    = Some ((-1)%Z, with_response_n 0 info).
Proof.
  intros Hfits Hroom Hmiss.
  by rewrite Reply2Reader_from_first_hit, Hmiss.
Qed.

Lemma first_hit_fits apdu_start received_cmd cmd_len rules r :
  Forall rule_fits rules ->
  first_hit apdu_start received_cmd cmd_len rules = Some r ->
  rule_fits r.
Proof.
  intros Hfits Hhit. unfold first_hit in Hhit.
  induction Hfits as [|r' rules Hr' _ IH]; [done|].
  simpl in Hhit. case_bool_decide; [by simplify_eq|auto].
Qed.

(** A command shorter than every command of the table is answered with -1
    and length 0, whatever the buffer holds. *)
Lemma Reply2Reader_below_shortest info apdu_start received_cmd cmd_len :
  cmd_len < 5 ->
  Reply2Reader info apdu_start received_cmd cmd_len
    = Some ((-1)%Z, with_response_n 0 info).
Proof.
  intros Hshort. unfold Reply2Reader, Apdu.table. simpl.
  rewrite !decide_True by lia. done.
Qed.

(** A rule that matches in the sense of the specification, with the whole
    pattern inside the received command, is taken by the loop. *)
Lemma spec_match_hits apdu_start received_cmd cmd_len r :
  apdu_start + length (Apdu.apdu_cmd r) <= cmd_len ->
  take (length (Apdu.apdu_cmd r)) (drop apdu_start received_cmd)
    = Apdu.apdu_cmd r ->
  hits apdu_start received_cmd cmd_len r.
Proof. intros Hlen Heq. split; [lia|done]. Qed.

(** ** The emulation loop: memory safety and the loop invariant *)

Ltac case_if :=
  match goal with
  | |- context [if ?c then _ else _] => destruct c eqn:?
  end.

Lemma within_with_response_n bound n info :
  length (response info) = DYNAMIC_RESPONSE_BUFFER_SIZE -> n <= bound ->
  within bound (with_response_n n info).
Proof. by split. Qed.

Lemma Reply2Reader_safe info apdu_start received_cmd cmd_len :
  length (response info) = DYNAMIC_RESPONSE_BUFFER_SIZE ->
  apdu_start <= 2 ->
  apdu_start + 19 <= length received_cmd ->
  exists rc info',
    Reply2Reader info apdu_start received_cmd cmd_len = Some (rc, info') /\
    within 61 info'.
Proof.
  intros Hcap Hstart Hroom. unfold Reply2Reader.
  destruct (first_hit apdu_start received_cmd cmd_len Apdu.table)
    as [r|] eqn:Hhit.
  - destruct (first_hit_fits _ _ _ _ _ table_fits Hhit) as [_ Hreply].
    unfold DYNAMIC_RESPONSE_BUFFER_SIZE in Hcap.
    eexists _, _. split.
    + apply (Reply2Reader_from_hit _ _ _ _ _ r);
        [apply table_fits|lia|lia|done].
    + split; simpl; [|lia].
      rewrite !length_app, length_take, length_drop.
      unfold DYNAMIC_RESPONSE_BUFFER_SIZE. lia.
  - eexists _, _. split.
    + apply Reply2Reader_from_miss; [apply table_fits|lia|done].
    + apply within_with_response_n; [done|lia].
Qed.

Lemma Emulation_switch_safe info buf len :
  length (response info) = DYNAMIC_RESPONSE_BUFFER_SIZE ->
  21 <= length buf ->
  exists info', Emulation_switch info buf len = Some info' /\ within 61 info'.
Proof.
  intros Hcap Hroom. unfold Emulation_switch.
  destruct (load_Some buf 0) as [b0 ->]; [lia|].
  pose proof Hcap as Hcap'. unfold DYNAMIC_RESPONSE_BUFFER_SIZE in Hcap'.
  repeat case_if;
    try (destruct (Reply2Reader_safe info 1 buf len) as (rc & info' & -> & ?);
         [done|lia|lia|by eexists]);
    try (destruct (Reply2Reader_safe info 2 buf len) as (rc & info' & -> & ?);
         [done|lia|lia|by eexists]);
    rewrite ?store_Some by (rewrite ?length_insert; lia);
    eexists; (split; [done|]);
    (split; simpl; rewrite ?length_insert; [done|lia]).
Qed.

Lemma Emulation_dispatch_safe p info buf len :
  length (response info) = DYNAMIC_RESPONSE_BUFFER_SIZE ->
  response_n info = 0 ->
  21 <= length buf ->
  exists p' info',
    Emulation_dispatch p info buf len = Some (p', info') /\
    within 61 info' /\
    (0 < response_n info' -> p' = p).
Proof.
  intros Hcap Hn Hroom. unfold Emulation_dispatch.
  destruct (load_Some buf 0) as [b0 ->]; [lia|].
  destruct (load_Some buf 1) as [b1 ->]; [lia|].
  repeat case_if;
    try (eexists _, _; split; [done|];
         split; [split; [done|lia]|intros; lia]).
  destruct (Emulation_switch_safe info buf len) as (info' & -> & ?);
    [done|done|].
  by eexists _, _.
Qed.

Section EmulationSafety.

Variable P : platform.
Variable canned : resp_index -> tag_response_info_t.

Lemma Emulation_answer_safe p info :
  within 61 info ->
  (0 < response_n info -> p = None) ->
  exists eff info',
    Emulation_answer P canned p info = Some (eff, (None, info')) /\
    within 63 info' /\
    Forall sent_within eff.
Proof.
  intros [Hcap Hn] Hp. unfold Emulation_answer.
  pose proof Hcap as Hcap'. unfold DYNAMIC_RESPONSE_BUFFER_SIZE in Hcap'.
  destruct (decide (0 < response_n info)) as [Hpos|Hzero].
  - rewrite Hp by done.
    rewrite !store_Some by (rewrite ?length_insert; lia).
    assert (Hin : within 63
              (with_response
                 (<[response_n info + 1 := snd (AddCrc14A P
                      (take (response_n info) (response info)))]>
                    (<[response_n info := fst (AddCrc14A P
                      (take (response_n info) (response info)))]>
                       (response info)))
                 (response_n info + 2) info)).
    { split; simpl; rewrite ?length_insert; [done|lia]. }
    destruct (prepare_tag_modulation P _ _) as [m|].
    + eexists _, _. split; [done|]. split; [exact Hin|].
      constructor; [exact Hin|]. constructor; [exact I|constructor].
    + eexists _, _. split; [done|]. split; [exact Hin|].
      constructor; [exact I|constructor].
  - assert (Hin : within 63 info) by (split; [done|lia]).
    destruct p as [[i|]|]; eexists _, _; (split; [done|]);
      (split; [exact Hin|]).
    + constructor; [exact I|]. constructor; [exact I|constructor].
    + constructor; [exact Hin|]. constructor; [exact I|constructor].
    + constructor.
Qed.

Lemma Emulation_iteration_inv st ev :
  platform_ok P -> emu_inv P st ->
  exists eff r,
    Emulation_iteration P canned st ev = Some (eff, r) /\
    Forall sent_within eff /\
    match r with
    | Next st' => emu_inv P st' /\ ev <> RxAbort
    | Return code => code = PM3_EOPABORTED /\ ev = RxAbort
    end.
Proof.
  intros [Hframe _] (Hrecv & [Hcap _] & Hp). unfold Emulation_iteration.
  destruct ev as [frame|]; simpl.
  - destruct (Emulation_dispatch_safe (p_response st)
                (with_response_n 0 (dynamic_response_info st))
                (list_inserts 0 frame (receivedCmd st)) (length frame))
      as (p' & info' & -> & Hin & Hkeep);
      [done|done|rewrite length_inserts; lia|].
    destruct (Emulation_answer_safe p' info') as (eff & info'' & -> & ? & ?);
      [done|intros; rewrite Hkeep, Hp; done|].
    eexists _, _. split; [done|]. split; [by constructor|].
    split; [|done]. split; [|done]. simpl. by rewrite length_inserts.
  - eexists _, _. split; [done|]. split; [repeat constructor|done].
Qed.

Lemma Emulation_loop_inv st evs :
  platform_ok P -> emu_inv P st ->
  exists t o,
    Emulation_loop P canned st evs = Some (t, o) /\
    Forall sent_within t /\
    match o with
    | Listening st' => emu_inv P st' /\ ~ In RxAbort evs
    | Returned code => code = PM3_EOPABORTED /\ In RxAbort evs
    end.
Proof.
  intros Hok. revert st. induction evs as [|ev evs IH]; intros st Hinv.
  - eexists _, _. split; [done|]. split; [constructor|]. split; [done|].
    by intros [].
  - simpl.
    destruct (Emulation_iteration_inv st ev Hok Hinv)
      as (eff & r & -> & Heff & Hr).
    destruct r as [st'|code].
    + destruct Hr as [Hinv' Hev].
      destruct (IH st' Hinv') as (t & o & -> & Ht & Ho).
      eexists _, _. split; [done|]. split; [by apply Forall_app|].
      destruct o as [st''|code].
      * destruct Ho as [? Hnot]. split; [done|].
        intros [Heq|Hin]; [by subst|by apply Hnot].
      * destruct Ho as [? Hin]. split; [done|by right].
    + destruct Hr as [-> ->].
      eexists _, _. split; [done|]. split; [done|]. split; [done|by left].
Qed.

Lemma Emulation_loop_snoc st evs t st' ev :
  Emulation_loop P canned st evs = Some (t, Listening st') ->
  Emulation_loop P canned st (evs ++ [ev]) =
    let* (eff, r) := Emulation_iteration P canned st' ev in
    Some (t ++ eff,
          match r with
          | Next s => Listening s
          | Return code => Returned code
          end).
Proof.
  revert st t. induction evs as [|e evs IH]; intros st t Hrun; simpl in *.
  - simplify_eq. simpl.
    destruct (Emulation_iteration P canned st' ev) as [[eff [s|code]]|];
      simpl; by rewrite ?app_nil_r.
  - destruct (Emulation_iteration P canned st e) as [[eff [s|code]]|];
      [|done|done].
    destruct (Emulation_loop P canned s evs) as [[t' o]|] eqn:Hrest; [|done].
    simplify_eq. rewrite (IH s t' Hrest).
    destruct (Emulation_iteration P canned st' ev) as [[eff' [s'|code]]|];
      simpl; by rewrite ?app_assoc.
Qed.

End EmulationSafety.

(** ** The session from its start *)

Lemma Emulation_init_total P uid :
  platform_ok P -> 4 <= length uid ->
  exists r, Emulation_init P uid = Some r.
Proof.
  intros [_ Hdata] Huid. unfold Emulation_init.
  rewrite memread_Some by lia.
  rewrite memcpy_Some; [by eexists|].
  unfold zero_buf. rewrite length_take, length_drop, length_replicate. lia.
Qed.

Lemma Emulation_locals_inv P init : emu_inv P (Emulation_locals P init).
Proof.
  split; [|split; [split|]]; simpl; try done.
  - unfold zero_buf. by rewrite length_replicate.
  - lia.
Qed.

Lemma Emulation_failed P uid evs :
  Emulation_init P uid = Some None ->
  Emulation P uid evs = Some (session_init_failure, Returned PM3_EFATAL).
Proof. intros Hinit. unfold Emulation. by rewrite Hinit. Qed.

Lemma Emulation_started P uid init evs :
  Emulation_init P uid = Some (Some init) ->
  Emulation P uid evs =
    let* (eff, o) :=
      Emulation_loop P (responses init) (Emulation_locals P init) evs in
    Some (session_prologue ++ eff, o).
Proof. intros Hinit. unfold Emulation. by rewrite Hinit. Qed.

Lemma Emulation_listening P uid evs t st :
  Emulation P uid evs = Some (t, Listening st) ->
  exists init t',
    Emulation_init P uid = Some (Some init) /\
    t = session_prologue ++ t' /\
    Emulation_loop P (responses init) (Emulation_locals P init) evs
      = Some (t', Listening st).
Proof.
  unfold Emulation. intros Hrun.
  destruct (Emulation_init P uid) as [[init|]|]; [|done|done].
  destruct (Emulation_loop _ _ _ _) as [[t' o]|] eqn:Hloop; [|done].
  simplify_eq. eexists _, _. split_and!; [reflexivity|reflexivity|exact Hloop].
Qed.

Lemma Emulation_listening_inv P uid evs t st :
  platform_ok P ->
  Emulation P uid evs = Some (t, Listening st) ->
  emu_inv P st.
Proof.
  intros Hok Hrun.
  destruct (Emulation_listening _ _ _ _ _ Hrun) as (init & t' & _ & _ & Hloop).
  destruct (Emulation_loop_inv P (responses init) (Emulation_locals P init)
              evs Hok (Emulation_locals_inv P init))
    as (t'' & o & Hloop' & _ & Ho).
  rewrite Hloop in Hloop'. simplify_eq. by destruct Ho.
Qed.

(** One more reader event, from where the session stands. *)
Lemma Emulation_snoc P uid init evs t st ev :
  Emulation_init P uid = Some (Some init) ->
  Emulation P uid evs = Some (t, Listening st) ->
  Emulation P uid (evs ++ [ev]) =
    let* (eff, r) := Emulation_iteration P (responses init) st ev in
    Some (t ++ eff,
          match r with
          | Next s => Listening s
          | Return code => Returned code
          end).
Proof.
  intros Hinit Hrun.
  rewrite (Emulation_started P uid init (evs ++ [ev]) Hinit).
  rewrite (Emulation_started P uid init evs Hinit) in Hrun.
  destruct (Emulation_loop _ _ _ evs) as [[t' o]|] eqn:Hloop; [|done].
  simplify_eq.
  rewrite (Emulation_loop_snoc _ _ _ _ _ _ ev Hloop).
  destruct (Emulation_iteration _ _ _ _) as [[eff r]|]; [|done].
  by rewrite app_assoc.
Qed.

(** ** The classifier against the decision list of the specification *)

Ltac case_eqb :=
  match goal with
  | |- context [Z.eqb ?a ?b] => destruct (Z.eqb_spec a b)
  | |- context [Nat.eqb ?a ?b] => destruct (Nat.eqb_spec a b)
  end.

(** The [if] chain of [Emulation] decides as the decision list does: a frame
    that matches a rule gets that rule's canned entry and leaves the dynamic
    response alone; any other frame goes to the [switch]. *)
Lemma Emulation_dispatch_first_match p info buf frame :
  2 <= length buf ->
  Emulation_dispatch p info (list_inserts 0 frame buf) (length frame) =
    match first_match frame with
    | Some r => Some (Canned <$> rule_reply r, info)
    | None =>
        let* info' :=
          Emulation_switch info (list_inserts 0 frame buf) (length frame) in
        Some (p, info')
    end.
Proof.
  intros Hbuf. unfold Emulation_dispatch.
  destruct frame as [|x0 [|x1 frame]].
  - rewrite !load_frame_ge by (simpl; lia).
    destruct (lookup_lt_is_Some_2 buf 0) as [b0 ->]; [lia|].
    destruct (lookup_lt_is_Some_2 buf 1) as [b1 ->]; [lia|].
    simpl. rewrite !andb_false_r. done.
  - rewrite load_frame_lt, load_frame_ge by (simpl; lia).
    destruct (lookup_lt_is_Some_2 buf 1) as [b1 ->]; [lia|].
    unfold first_match, rule_matches. simpl.
    rewrite !andb_false_r, !andb_true_r.
    repeat case_eqb; simpl; try done; simplify_eq.
  - rewrite !load_frame_lt by (simpl; lia).
    unfold first_match, rule_matches. simpl.
    rewrite !andb_false_r, !andb_true_r.
    repeat case_eqb; simpl; try done; simplify_eq; try lia.
Qed.

(** ** The response builder (lines 281-304) *)

Section Answer.

Variable P : platform.
Variable canned : resp_index -> tag_response_info_t.

Lemma payload_with_crc info :
  within 61 info -> payload (with_crc P info) = checksummed P (payload info).
Proof.
  intros [Hcap Hn]. unfold DYNAMIC_RESPONSE_BUFFER_SIZE in Hcap.
  unfold payload, with_crc, checksummed. simpl.
  apply take_store_crc. lia.
Qed.

Lemma response_n_with_crc info :
  response_n (with_crc P info) = response_n info + 2.
Proof. done. Qed.

Lemma payload_with_prepared m info :
  payload (with_prepared m info) = payload info.
Proof. done. Qed.

Lemma Emulation_answer_dynamic p info :
  within 61 info -> 0 < response_n info ->
  Emulation_answer P canned p info =
    match prepare_tag_modulation P (checksummed P (payload info))
            DYNAMIC_MODULATION_BUFFER_SIZE with
    | Some m =>
        Some ([EmSendPrecompiledCmd Dynamic (with_prepared m (with_crc P info));
               LED_C false],
              (None, with_prepared m (with_crc P info)))
    | None => Some ([SpinDelay 500], (p, with_crc P info))
    end.
Proof.
  intros Hin Hpos. rewrite <- (payload_with_crc info Hin).
  destruct Hin as [Hcap Hn]. unfold DYNAMIC_RESPONSE_BUFFER_SIZE in Hcap.
  unfold Emulation_answer. rewrite decide_True by done.
  rewrite !store_Some by (rewrite ?length_insert; lia).
  done.
Qed.

Lemma Emulation_answer_static p info :
  response_n info = 0 ->
  Emulation_answer P canned p info =
    Some (match p with
          | Some (Canned i) =>
              [EmSendPrecompiledCmd (Canned i) (canned i); LED_C false]
          | Some Dynamic => [EmSendPrecompiledCmd Dynamic info; LED_C false]
          | None => []
          end, (None, info)).
Proof.
  intros Hzero. unfold Emulation_answer.
  rewrite decide_False by lia. by destruct p as [[i|]|].
Qed.

End Answer.

(** ** What the reply of the [switch] depends on *)

Lemma payload_with_response_n_0 info : payload (with_response_n 0 info) = [].
Proof. done. Qed.

Lemma Reply2Reader_payload_agree info1 info2 apdu_start received_cmd cmd_len :
  length (response info1) = DYNAMIC_RESPONSE_BUFFER_SIZE ->
  length (response info2) = DYNAMIC_RESPONSE_BUFFER_SIZE ->
  apdu_start <= 2 ->
  apdu_start + 19 <= length received_cmd ->
  exists rc i1 i2,
    Reply2Reader info1 apdu_start received_cmd cmd_len = Some (rc, i1) /\
    Reply2Reader info2 apdu_start received_cmd cmd_len = Some (rc, i2) /\
    payload i1 = payload i2 /\ response_n i1 = response_n i2.
Proof.
  intros Hcap1 Hcap2 Hstart Hroom. unfold Reply2Reader.
  unfold DYNAMIC_RESPONSE_BUFFER_SIZE in *.
  destruct (first_hit apdu_start received_cmd cmd_len Apdu.table)
    as [r|] eqn:Hhit.
  - destruct (first_hit_fits _ _ _ _ _ table_fits Hhit) as [_ Hreply].
    exists 0%Z, (replayed info1 apdu_start received_cmd r),
      (replayed info2 apdu_start received_cmd r).
    split_and!.
    + apply Reply2Reader_from_hit; [apply table_fits|lia|lia|done].
    + apply Reply2Reader_from_hit; [apply table_fits|lia|lia|done].
    + rewrite !payload_replayed by lia. done.
    + done.
  - exists (-1)%Z, (with_response_n 0 info1), (with_response_n 0 info2).
    split_and!; [| |done|done];
      (apply Reply2Reader_from_miss; [apply table_fits|lia|done]).
Qed.

Lemma take_2_store_0 (buf : list Z) (v x : Z) :
  buf !! 1 = Some x -> take 2 (<[0 := v]> buf) = [v; x].
Proof. destruct buf as [|b0 [|b1 buf]]; intros; by simplify_eq/=. Qed.

Lemma take_2_store_01 (buf : list Z) (v w : Z) :
  2 <= length buf -> take 2 (<[1 := w]> (<[0 := v]> buf)) = [v; w].
Proof. destruct buf as [|b0 [|b1 buf]]; simpl; intros; [lia|lia|done]. Qed.

(** The bytes in use of the reply built by the [switch] are fixed by the
    receive buffer, the length and byte 1 of the response buffer. *)
Lemma Emulation_switch_payload_agree info1 info2 buf len :
  length (response info1) = DYNAMIC_RESPONSE_BUFFER_SIZE ->
  length (response info2) = DYNAMIC_RESPONSE_BUFFER_SIZE ->
  response info1 !! 1 = response info2 !! 1 ->
  21 <= length buf ->
  exists i1 i2,
    Emulation_switch info1 buf len = Some i1 /\
    Emulation_switch info2 buf len = Some i2 /\
    within 61 i1 /\ within 61 i2 /\
    payload i1 = payload i2 /\ response_n i1 = response_n i2.
Proof.
  intros Hcap1 Hcap2 Hbyte1 Hroom.
  destruct (Emulation_switch_safe info1 buf len Hcap1 Hroom)
    as (i1 & H1 & Hin1).
  destruct (Emulation_switch_safe info2 buf len Hcap2 Hroom)
    as (i2 & H2 & Hin2).
  exists i1, i2. split_and!; try done;
    revert H1 H2; unfold Emulation_switch;
    destruct (load_Some buf 0) as [b0 ->]; try lia;
    pose proof Hcap1 as Hcap1'; pose proof Hcap2 as Hcap2';
    unfold DYNAMIC_RESPONSE_BUFFER_SIZE in Hcap1', Hcap2';
    destruct (lookup_lt_is_Some_2 (response info1) 1) as [x Hx]; try lia;
    assert (Hx' : response info2 !! 1 = Some x) by (by rewrite <- Hbyte1);
    repeat case_if;
    try (destruct (Reply2Reader_payload_agree info1 info2 1 buf len)
           as (rc & j1 & j2 & -> & -> & ? & ?); [done|done|lia|lia|];
         intros; by simplify_eq/=);
    try (destruct (Reply2Reader_payload_agree info1 info2 2 buf len)
           as (rc & j1 & j2 & -> & -> & ? & ?); [done|done|lia|lia|];
         intros; by simplify_eq/=);
    rewrite ?store_Some by (rewrite ?length_insert; lia);
    intros; simplify_eq/=; try done;
    unfold payload; simpl;
    rewrite ?take_2_store_01 by lia;
    rewrite ?(take_2_store_0 _ _ x) by done; done.
Qed.

(** ** The replay matcher: claims *)

Lemma take_agree (l c1 c2 : list Z) (n m k : nat) :
  take n l = c1 -> take m l = c2 -> k < length c1 -> k < length c2 ->
  c1 !! k = c2 !! k.
Proof.
  intros <- <- H1 H2. rewrite length_take in H1, H2.
  by rewrite !lookup_take_lt by lia.
Qed.

(** The commands of the table differ within their first three bytes, so at
    most one row is taken. *)
Lemma hits_exclusive apdu_start received_cmd cmd_len r1 r2 :
  In r1 Apdu.table -> In r2 Apdu.table ->
  hits apdu_start received_cmd cmd_len r1 ->
  hits apdu_start received_cmd cmd_len r2 ->
  r1 = r2.
Proof.
  intros Hin1 Hin2 [_ H1] [_ H2].
  pose proof (take_agree _ _ _ _ _ 1 H1 H2) as Hb1.
  pose proof (take_agree _ _ _ _ _ 2 H1 H2) as Hb2.
  simpl in Hin1, Hin2.
  destruct Hin1 as [<-|[<-|[<-|[]]]], Hin2 as [<-|[<-|[<-|[]]]];
    try done; simpl in Hb1, Hb2;
    try (specialize (Hb1 ltac:(lia) ltac:(lia)); discriminate);
    try (specialize (Hb2 ltac:(lia) ltac:(lia)); discriminate).
Qed.

Lemma hit_is_first_hit apdu_start received_cmd cmd_len r :
  In r Apdu.table ->
  hits apdu_start received_cmd cmd_len r ->
  first_hit apdu_start received_cmd cmd_len Apdu.table = Some r.
Proof.
  intros Hin Hr. unfold first_hit.
  destruct (find _ Apdu.table) as [r'|] eqn:Hfind.
  - apply find_some in Hfind as [Hin' Hr'].
    apply bool_decide_eq_true_1 in Hr'.
    f_equal. by apply (hits_exclusive apdu_start received_cmd cmd_len).
  - apply (find_none _ _ Hfind) in Hin.
    apply bool_decide_eq_false_1 in Hin. done.
Qed.

(** C1 (the code departs from the claim).  The guard of line 100 compares
    [cmd_len] with the length of the pattern alone, not with
    [apdu_start] + length: a frame of 7 bytes with a 1 byte header is not
    skipped for the 7 byte select-MF pattern although 7 < 1 + 7; the
    comparison reads index 7, behind the frame, finds the 0 the buffer was
    initialised with, and the matcher answers with reply01.  A session whose
    first command is that frame sends the reply.  With [cmd_len] = 5 and a
    1 byte header every rule should be skipped (5 < 1 + 7, 1 + 19, 1 + 5),
    yet the read-binary rule is taken when byte 5 of the buffer, behind the
    frame, still holds 0x1e; two buffers that agree on the 5 received bytes
    get different answers. *)
Theorem Reply2Reader_compares_behind_frame :
  7 < 1 + length Apdu.cmd01 /\
  verdict (Reply2Reader blank_info 1 (truncated_select ++ zero_buf 249) 7)
    = Some (0%Z, 26, 0x02%Z :: Apdu.reply01) /\
  transmitted <$> (fst <$>
    Emulation Bench.pm3 uid_default [RxFrame truncated_select])
    = Some [checksummed Bench.pm3 (0x02%Z :: Apdu.reply01)] /\
  Forall (fun r => 5 < 1 + length (Apdu.apdu_cmd r)) Apdu.table /\
  take 5 truncated_read_stale = take 5 truncated_read_clean /\
  verdict (Reply2Reader blank_info 1 truncated_read_stale 5)
    = Some (0%Z, 33, 0x02%Z :: Apdu.reply03) /\
  verdict (Reply2Reader blank_info 1 truncated_read_clean 5)
    = Some ((-1)%Z, 0, []).
Proof.
  split_and!.
  - simpl. lia.
  - vm_compute. reflexivity.
  - vm_compute. reflexivity.
  - repeat constructor; simpl; lia.
  - reflexivity.
  - vm_compute. reflexivity.
  - vm_compute. reflexivity.
Qed.

(** C3.  Whenever a row of the table matches the received command at
    [apdu_start], [Reply2Reader] returns 0, the response in use is the first
    [apdu_start] received bytes followed by that row's reply, the reported
    length is [apdu_start] plus the length of the reply, and the row is the
    first one in table order that matches. *)
Theorem Reply2Reader_replays_first_match
    (info : tag_response_info_t) (apdu_start : nat) (received_cmd : list Z)
    (cmd_len : nat) (r : Apdu.rule) :
  In r Apdu.table ->
  hits apdu_start received_cmd cmd_len r ->
  apdu_start + 19 <= length received_cmd ->
  apdu_start + length (Apdu.apdu_response r) <= length (response info) ->
  verdict (Reply2Reader info apdu_start received_cmd cmd_len)
    = Some (0%Z, apdu_start + length (Apdu.apdu_response r),
            take apdu_start received_cmd ++ Apdu.apdu_response r) /\
  first_hit apdu_start received_cmd cmd_len Apdu.table = Some r.
Proof.
  intros Hin Hr Hroom Hcap.
  pose proof (hit_is_first_hit _ _ _ _ Hin Hr) as Hfirst.
  split; [|done]. unfold Reply2Reader.
  rewrite (Reply2Reader_from_hit _ _ _ _ _ r) by (done || apply table_fits).
  unfold verdict. simpl. rewrite payload_replayed by lia. done.
Qed.

Lemma Reply2Reader_replays_first_match_witness :
  verdict (Reply2Reader blank_info 2
             ([0x0A; 0x00]%Z ++ Apdu.cmd03 ++ zero_buf 249) 9)
    = Some (0%Z, 2 + length Apdu.reply03, [0x0A; 0x00]%Z ++ Apdu.reply03) /\
  first_hit 2 ([0x0A; 0x00]%Z ++ Apdu.cmd03 ++ zero_buf 249) 9 Apdu.table
    = Some (Apdu.mk_rule Apdu.cmd03 Apdu.reply03).
Proof.
  apply (Reply2Reader_replays_first_match blank_info 2
           ([0x0A; 0x00]%Z ++ Apdu.cmd03 ++ zero_buf 249) 9
           (Apdu.mk_rule Apdu.cmd03 Apdu.reply03)).
  - simpl. tauto.
  - split; [simpl; lia|reflexivity].
  - simpl. lia.
  - simpl. lia.
Defined.

(** C5, counterexample.  The seven bytes of the select-MF command received
    with no header before them and matched with [apdu_start] = 1: the
    comparison starts at the second byte, no row matches, and the matcher
    returns -1 with length 0. *)
Lemma select_mf_without_header_is_not_matched :
  verdict (Reply2Reader blank_info 1
             ([0x00; 0xA4; 0x00; 0x00; 0x02; 0x3F; 0x00]%Z ++ zero_buf 249) 7)
    = Some ((-1)%Z, 0, []).
Proof. vm_compute. reflexivity. Qed.

(** The bytes in use after the header and the reply are copied in. *)
Lemma take_memcpy_twice (resp hdr reply : list Z) :
  length hdr + length reply <= length resp ->
  take (length hdr + length reply)
    (list_inserts (length hdr) reply (list_inserts 0 hdr resp))
    = hdr ++ reply.
Proof.
  intros Hcap.
  rewrite (list_inserts_split 0) by lia. simpl.
  rewrite list_inserts_split by (rewrite length_app, length_drop; lia).
  rewrite take_app_length. rewrite app_assoc.
  apply take_app_length'. by rewrite length_app.
Qed.

(** C5, amended.  The select-MF command received behind a one byte header
    [h] (eight bytes in all) and matched with [apdu_start] = 1 is answered
    from the first row: return 0, the response is [h] followed by reply01,
    the length is 1 + length reply01. *)
Theorem Reply2Reader_select_mf_behind_header
    (info : tag_response_info_t) (h : Z) (rest : list Z) :
  1 + length Apdu.reply01 <= length (response info) ->
  verdict (Reply2Reader info 1 (h :: Apdu.cmd01 ++ rest) 8)
    = Some (0%Z, 1 + length Apdu.reply01, h :: Apdu.reply01) /\
  first_hit 1 (h :: Apdu.cmd01 ++ rest) 8 Apdu.table
    = Some (Apdu.mk_rule Apdu.cmd01 Apdu.reply01).
Proof.
  intros Hcap. split; [|reflexivity].
  assert (Hrun : Reply2Reader info 1 (h :: Apdu.cmd01 ++ rest) 8 =
            Some (0%Z, with_response
                         (list_inserts 1 Apdu.reply01
                            (list_inserts 0 [h] (response info)))
                         (1 + length Apdu.reply01) info)).
  { unfold Reply2Reader, Apdu.table, Reply2Reader_from.
    rewrite decide_False by (simpl; lia).
    rewrite memread_Some by (simpl; lia).
    rewrite decide_True by reflexivity.
    rewrite memread_Some by (simpl; lia).
    rewrite memcpy_Some by (simpl in *; lia).
    rewrite memcpy_Some by (rewrite length_inserts; simpl in *; lia).
    reflexivity. }
  rewrite Hrun. unfold verdict, payload.
  cbn [fmap option_fmap option_map fst snd response response_n with_response].
  pose proof (take_memcpy_twice (response info) [h] Apdu.reply01 Hcap) as Hp.
  change (length [h]) with 1 in Hp. rewrite Hp. reflexivity.
Qed.

Lemma Reply2Reader_select_mf_behind_header_witness :
  verdict (Reply2Reader blank_info 1 (0x00%Z :: Apdu.cmd01 ++ zero_buf 248) 8)
    = Some (0%Z, 1 + length Apdu.reply01, 0x00%Z :: Apdu.reply01) /\
  first_hit 1 (0x00%Z :: Apdu.cmd01 ++ zero_buf 248) 8 Apdu.table
    = Some (Apdu.mk_rule Apdu.cmd01 Apdu.reply01).
Proof.
  apply (Reply2Reader_select_mf_behind_header blank_info 0x00%Z
           (zero_buf 248)).
  simpl. lia.
Defined.

(** ** The emulation session: claims *)

Lemma Emulation_iteration_canned P canned st frame r :
  2 <= length (receivedCmd st) ->
  first_match frame = Some r ->
  Emulation_iteration P canned st (RxFrame frame) =
    Some (LED_C true :: canned_effects canned (rule_reply r),
          Next (after_frame st frame
                  (with_response_n 0 (dynamic_response_info st)))).
Proof.
  intros Hbuf Hmatch. unfold Emulation_iteration. simpl.
  rewrite Emulation_dispatch_first_match, Hmatch by done.
  rewrite Emulation_answer_static by done.
  by destruct (rule_reply r).
Qed.

Lemma Emulation_iteration_switch P canned st frame :
  2 <= length (receivedCmd st) ->
  first_match frame = None ->
  Emulation_iteration P canned st (RxFrame frame) =
    let* info :=
      Emulation_switch (with_response_n 0 (dynamic_response_info st))
        (list_inserts 0 frame (receivedCmd st)) (length frame) in
    let* (eff, (p', info')) :=
      Emulation_answer P canned (p_response st) info in
    Some (LED_C true :: eff,
          Next (mk_emu_locals (list_inserts 0 frame (receivedCmd st)) info' p'
                  (emu_cuid st) (emu_counters st) (emu_tearings st)
                  (emu_pages st))).
Proof.
  intros Hbuf Hmatch. unfold Emulation_iteration. simpl.
  rewrite Emulation_dispatch_first_match, Hmatch by done.
  by destruct (Emulation_switch _ _ _).
Qed.

Lemma emu_inv_room P st :
  platform_ok P -> emu_inv P st -> 21 <= length (receivedCmd st).
Proof. intros [? _] [-> _]. done. Qed.

(** C2.  The six fixed rules are tried in order and the first that matches
    decides.  A command that matches one of them is answered with the canned
    entry of that rule, handed to [EmSendPrecompiledCmd] as
    [SimulateIso14443aInit] built it, with no checksum added; for the HALT
    rule nothing is sent. *)
Theorem canned_reply_is_sent_as_built
    (P : platform) (uid : list Z) (init : sim_init)
    (evs : list reader_event) (t : list effect) (st : emu_locals)
    (frame : list Z) (r : spec_rule) :
  platform_ok P ->
  Emulation_init P uid = Some (Some init) ->
  Emulation P uid evs = Some (t, Listening st) ->
  first_match frame = Some r ->
  Emulation P uid (evs ++ [RxFrame frame]) =
    Some (t ++ LED_C true :: canned_effects (responses init) (rule_reply r),
          Listening (after_frame st frame
                       (with_response_n 0 (dynamic_response_info st)))).
Proof.
  intros Hok Hinit Hrun Hmatch.
  pose proof (Emulation_listening_inv _ _ _ _ _ Hok Hrun) as Hinv.
  pose proof (emu_inv_room _ _ Hok Hinv) as Hroom.
  rewrite (Emulation_snoc _ _ _ _ _ _ _ Hinit Hrun).
  by rewrite (Emulation_iteration_canned _ _ _ _ r) by (done || lia).
Qed.

Lemma canned_reply_is_sent_as_built_witness :
  Emulation Bench.pm3 uid_default ([] ++ [RxFrame [0x93; 0x20]%Z]) =
    Some (session_prologue ++
          LED_C true ::
            canned_effects (responses Bench.session0) (Some RESP_INDEX_UIDC1),
          Listening
            (after_frame (Emulation_locals Bench.pm3 Bench.session0)
               [0x93; 0x20]%Z (with_response_n 0 blank_info))).
Proof.
  apply (canned_reply_is_sent_as_built Bench.pm3 uid_default Bench.session0
           [] session_prologue (Emulation_locals Bench.pm3 Bench.session0)
           [0x93; 0x20]%Z
           (mk_spec_rule 2 [ISO14443A_CMD_ANTICOLL_OR_SELECT; 0x20%Z]
              (Some RESP_INDEX_UIDC1))).
  - split; simpl; lia.
  - reflexivity.
  - reflexivity.
  - reflexivity.
Defined.

Lemma first_match_halt frame :
  length frame = 4 -> first_byte frame ISO14443A_CMD_HALT ->
  first_match frame = Some (mk_spec_rule 4 [ISO14443A_CMD_HALT] None).
Proof.
  unfold first_byte.
  destruct frame as [|x0 [|x1 [|x2 [|x3 [|x4 frame]]]]]; intros;
    by simplify_eq/=.
Qed.

Lemma first_match_chaining frame :
  first_byte frame 0x1A%Z \/ first_byte frame 0x1B%Z ->
  first_match frame = None.
Proof.
  unfold first_byte, first_match, rule_matches.
  destruct frame as [|x0 frame]; intros [?|?]; simplify_eq/=;
    by rewrite ?andb_false_r.
Qed.

Lemma Emulation_switch_chaining info buf frame :
  1 <= length buf ->
  first_byte frame 0x1A%Z \/ first_byte frame 0x1B%Z ->
  Emulation_switch info (list_inserts 0 frame buf) (length frame)
    = Some (with_response_n 0 info).
Proof.
  unfold first_byte, Emulation_switch. intros Hbuf Hb.
  destruct frame as [|x0 frame]; [by destruct Hb|].
  rewrite load_frame_lt by (simpl; lia). simpl in *.
  by destruct Hb; simplify_eq.
Qed.

(** C4, counterexample.  A HALT followed by a RATS, with no REQUEST or WAKEUP
    in between: the RATS is answered with its canned entry. *)
Lemma rats_after_halt_is_answered :
  transmitted <$> (fst <$>
    Emulation Bench.pm3 uid_default
      [RxFrame [0x50; 0x00; 0x57; 0xcd]%Z; RxFrame [0xE0; 0x80; 0x31; 0x73]%Z])
  = Some [[0x05; 0x78; 0x80; 0x02; 0x93; 0xd1]%Z].
Proof. vm_compute. reflexivity. Qed.

(** C4, amended.  A HALT command (four bytes, the first the HALT code) and
    every chaining command (first byte 0x1A or 0x1B) is answered with
    nothing: the only effect of the turn is the activity LED, and the session
    listens for the next command. *)
Theorem halt_and_chaining_send_nothing
    (P : platform) (uid : list Z) (init : sim_init)
    (evs : list reader_event) (t : list effect) (st : emu_locals)
    (frame : list Z) :
  platform_ok P ->
  Emulation_init P uid = Some (Some init) ->
  Emulation P uid evs = Some (t, Listening st) ->
  (length frame = 4 /\ first_byte frame ISO14443A_CMD_HALT) \/
  first_byte frame 0x1A%Z \/ first_byte frame 0x1B%Z ->
  Emulation P uid (evs ++ [RxFrame frame]) =
    Some (t ++ [LED_C true],
          Listening (after_frame st frame
                       (with_response_n 0 (dynamic_response_info st)))) /\
  transmitted (t ++ [LED_C true]) = transmitted t.
Proof.
  intros Hok Hinit Hrun Hframe.
  pose proof (Emulation_listening_inv _ _ _ _ _ Hok Hrun) as Hinv.
  pose proof (emu_inv_room _ _ Hok Hinv) as Hroom.
  split.
  2:{ unfold transmitted. rewrite omap_app. simpl. by rewrite app_nil_r. }
  rewrite (Emulation_snoc _ _ _ _ _ _ _ Hinit Hrun).
  destruct Hframe as [[Hlen Hhalt]|Hchain].
  - by rewrite (Emulation_iteration_canned _ _ _ _
                  (mk_spec_rule 4 [ISO14443A_CMD_HALT] None))
      by (lia || by apply first_match_halt).
  - rewrite Emulation_iteration_switch
      by (lia || by apply first_match_chaining).
    rewrite Emulation_switch_chaining by (lia || done).
    rewrite Emulation_answer_static by done.
    destruct Hinv as (_ & _ & ->). done.
Qed.

Lemma halt_and_chaining_send_nothing_witness :
  Emulation Bench.pm3 uid_default ([] ++ [RxFrame [0x1A; 0x00]%Z]) =
    Some (session_prologue ++ [LED_C true],
          Listening
            (after_frame (Emulation_locals Bench.pm3 Bench.session0)
               [0x1A; 0x00]%Z (with_response_n 0 blank_info))) /\
  transmitted (session_prologue ++ [LED_C true]) = transmitted session_prologue.
Proof.
  apply (halt_and_chaining_send_nothing Bench.pm3 uid_default Bench.session0
           [] session_prologue (Emulation_locals Bench.pm3 Bench.session0)
           [0x1A; 0x00]%Z).
  - split; simpl; lia.
  - reflexivity.
  - reflexivity.
  - right. left. reflexivity.
Defined.

(** C7.  For a command that reaches the [switch] (no fixed rule matches), let
    [info] be the dynamic response the [switch] builds.  If its length is 0,
    nothing is sent.  Otherwise the checksum of the bytes in use is stored
    behind them and the length grows by 2 before the modulation is prepared
    from exactly those bytes; when the preparation succeeds that response is
    sent, once; when it fails nothing is sent, the session pauses 500 ms and
    goes on to listen for the next command. *)
Theorem dynamic_reply_is_checksummed_once
    (P : platform) (uid : list Z) (init : sim_init)
    (evs : list reader_event) (t : list effect) (st : emu_locals)
    (frame : list Z) :
  platform_ok P ->
  Emulation_init P uid = Some (Some init) ->
  Emulation P uid evs = Some (t, Listening st) ->
  first_match frame = None ->
  exists info,
    Emulation_switch (with_response_n 0 (dynamic_response_info st))
      (list_inserts 0 frame (receivedCmd st)) (length frame) = Some info /\
    payload (with_crc P info) = checksummed P (payload info) /\
    response_n (with_crc P info) = response_n info + 2 /\
    Emulation P uid (evs ++ [RxFrame frame]) =
      if decide (response_n info = 0) then
        Some (t ++ [LED_C true], Listening (after_frame st frame info))
      else
        match prepare_tag_modulation P (payload (with_crc P info))
                DYNAMIC_MODULATION_BUFFER_SIZE with
        | Some m =>
            Some (t ++ [LED_C true;
                        EmSendPrecompiledCmd Dynamic
                          (with_prepared m (with_crc P info));
                        LED_C false],
                  Listening (after_frame st frame
                               (with_prepared m (with_crc P info))))
        | None =>
            Some (t ++ [LED_C true; SpinDelay 500],
                  Listening (after_frame st frame (with_crc P info)))
        end.
Proof.
  intros Hok Hinit Hrun Hmatch.
  pose proof (Emulation_listening_inv _ _ _ _ _ Hok Hrun) as Hinv.
  pose proof (emu_inv_room _ _ Hok Hinv) as Hroom.
  destruct Hinv as (_ & [Hcap _] & Hp).
  destruct (Emulation_switch_safe
              (with_response_n 0 (dynamic_response_info st))
              (list_inserts 0 frame (receivedCmd st)) (length frame))
    as (info & Hswitch & Hin); [done|by rewrite length_inserts|].
  exists info. split_and!; [done|by apply payload_with_crc|done|].
  rewrite (Emulation_snoc _ _ _ _ _ _ _ Hinit Hrun).
  rewrite Emulation_iteration_switch by (lia || done).
  rewrite Hswitch, Hp.
  destruct (decide (response_n info = 0)) as [Hzero|Hpos].
  - by rewrite Emulation_answer_static by done.
  - rewrite Emulation_answer_dynamic by (done || lia).
    rewrite payload_with_crc by done.
    by destruct (prepare_tag_modulation P _ _).
Qed.

Lemma dynamic_reply_is_checksummed_once_witness :
  exists info,
    Emulation_switch
      (with_response_n 0
         (dynamic_response_info
            (Emulation_locals Bench.pm3_no_modulation Bench.session0)))
      (list_inserts 0 [0xBA]%Z
         (receivedCmd
            (Emulation_locals Bench.pm3_no_modulation Bench.session0)))
      (length [0xBA]%Z) = Some info /\
    payload (with_crc Bench.pm3_no_modulation info)
      = checksummed Bench.pm3_no_modulation (payload info) /\
    response_n (with_crc Bench.pm3_no_modulation info) = response_n info + 2 /\
    Emulation Bench.pm3_no_modulation uid_default ([] ++ [RxFrame [0xBA]%Z]) =
      if decide (response_n info = 0) then
        Some (session_prologue ++ [LED_C true],
              Listening
                (after_frame
                   (Emulation_locals Bench.pm3_no_modulation Bench.session0)
                   [0xBA]%Z info))
      else
        match prepare_tag_modulation Bench.pm3_no_modulation
                (payload (with_crc Bench.pm3_no_modulation info))
                DYNAMIC_MODULATION_BUFFER_SIZE with
        | Some m =>
            Some (session_prologue ++
                  [LED_C true;
                   EmSendPrecompiledCmd Dynamic
                     (with_prepared m (with_crc Bench.pm3_no_modulation info));
                   LED_C false],
                  Listening
                    (after_frame
                       (Emulation_locals Bench.pm3_no_modulation Bench.session0)
                       [0xBA]%Z
                       (with_prepared m
                          (with_crc Bench.pm3_no_modulation info))))
        | None =>
            Some (session_prologue ++ [LED_C true; SpinDelay 500],
                  Listening
                    (after_frame
                       (Emulation_locals Bench.pm3_no_modulation Bench.session0)
                       [0xBA]%Z (with_crc Bench.pm3_no_modulation info)))
        end.
Proof.
  apply (dynamic_reply_is_checksummed_once Bench.pm3_no_modulation uid_default
           Bench.session0 [] session_prologue
           (Emulation_locals Bench.pm3_no_modulation Bench.session0)
           [0xBA]%Z).
  - split; simpl; lia.
  - reflexivity.
  - reflexivity.
  - reflexivity.
Defined.

(** C8.  Whatever the reader sends, no access of the session falls outside
    its array (the session is defined), every dynamic response handed to
    [EmSendPrecompiledCmd] lies in a buffer of 64 bytes with at most 63 in
    use, checksum included, and so does the response info each time the
    session listens again. *)
Theorem dynamic_response_stays_within_buffer
    (P : platform) (uid : list Z) (evs : list reader_event) :
  platform_ok P ->
  4 <= length uid ->
  exists t o,
    Emulation P uid evs = Some (t, o) /\
    Forall sent_within t /\
    forall st, o = Listening st ->
      length (response (dynamic_response_info st))
        = DYNAMIC_RESPONSE_BUFFER_SIZE /\
      response_n (dynamic_response_info st) <= 2 + 59 + 2 /\
      2 + 59 + 2 <= DYNAMIC_RESPONSE_BUFFER_SIZE.
Proof.
  intros Hok Huid.
  destruct (Emulation_init_total P uid Hok Huid) as [[init|] Hinit].
  - rewrite (Emulation_started _ _ _ _ Hinit).
    destruct (Emulation_loop_inv P (responses init) (Emulation_locals P init)
                evs Hok (Emulation_locals_inv P init))
      as (t & o & -> & Ht & Ho).
    eexists _, _. split; [done|]. split.
    + apply Forall_app. split; [|done]. repeat constructor.
    + intros st ->. destruct Ho as [(_ & [? ?] & _) _].
      unfold DYNAMIC_RESPONSE_BUFFER_SIZE in *. lia.
  - rewrite (Emulation_failed _ _ _ Hinit).
    eexists _, _. split; [done|]. split; [repeat constructor|done].
Qed.

Lemma dynamic_response_stays_within_buffer_witness :
  exists t o,
    Emulation Bench.pm3 uid_default
      [RxFrame ([0x0A; 0x00]%Z ++ Apdu.cmd02); RxFrame [0xAA]%Z]
      = Some (t, o) /\
    Forall sent_within t /\
    forall st, o = Listening st ->
      length (response (dynamic_response_info st))
        = DYNAMIC_RESPONSE_BUFFER_SIZE /\
      response_n (dynamic_response_info st) <= 2 + 59 + 2 /\
      2 + 59 + 2 <= DYNAMIC_RESPONSE_BUFFER_SIZE.
Proof.
  apply (dynamic_response_stays_within_buffer Bench.pm3 uid_default
           [RxFrame ([0x0A; 0x00]%Z ++ Apdu.cmd02); RxFrame [0xAA]%Z]).
  - split; simpl; lia.
  - simpl. lia.
Defined.

(** C10.  A session never returns [PM3_SUCCESS].  When the initialisation
    fails it returns [PM3_EFATAL] before a single command is awaited; when it
    succeeds the session returns [PM3_EOPABORTED] as soon as a reception
    fails, and as long as none fails it stays in its loop. *)
Theorem Emulation_never_returns_success
    (P : platform) (uid : list Z) (evs : list reader_event) :
  platform_ok P ->
  4 <= length uid ->
  exists t o,
    Emulation P uid evs = Some (t, o) /\
    o <> Returned PM3_SUCCESS /\
    match Emulation_init P uid with
    | Some None => o = Returned PM3_EFATAL /\ t = session_init_failure
    | Some (Some init) =>
        (In RxAbort evs -> o = Returned PM3_EOPABORTED) /\
        (~ In RxAbort evs -> exists st, o = Listening st)
    | None => False
    end.
Proof.
  intros Hok Huid.
  destruct (Emulation_init_total P uid Hok Huid) as [[init|] Hinit];
    rewrite Hinit.
  - rewrite (Emulation_started _ _ _ _ Hinit).
    destruct (Emulation_loop_inv P (responses init) (Emulation_locals P init)
                evs Hok (Emulation_locals_inv P init))
      as (t & o & -> & _ & Ho).
    eexists _, _. split; [done|].
    destruct o as [st|code].
    + destruct Ho as [_ Hnone]. split; [done|]. split; [done|by eexists].
    + destruct Ho as [-> Hsome]. split; [done|]. split; [done|tauto].
  - rewrite (Emulation_failed _ _ _ Hinit). by eexists _, _.
Qed.

Lemma Emulation_never_returns_success_witness :
  exists t o,
    Emulation Bench.pm3 uid_default [RxFrame [0x26]%Z; RxAbort] = Some (t, o) /\
    o <> Returned PM3_SUCCESS /\
    match Emulation_init Bench.pm3 uid_default with
    | Some None => o = Returned PM3_EFATAL /\ t = session_init_failure
    | Some (Some init) =>
        (In RxAbort [RxFrame [0x26]%Z; RxAbort] ->
         o = Returned PM3_EOPABORTED) /\
        (~ In RxAbort [RxFrame [0x26]%Z; RxAbort] ->
         exists st, o = Listening st)
    | None => False
    end.
Proof.
  apply (Emulation_never_returns_success Bench.pm3 uid_default
           [RxFrame [0x26]%Z; RxAbort]).
  - split; simpl; lia.
  - simpl. lia.
Defined.

(** ** What a reply depends on *)

(** One turn of the loop from two sets of locals that agree on the receive
    buffer and on byte 1 of the response buffer puts the same bytes on the
    air. *)
Lemma Emulation_iteration_transmits_agree P canned st1 st2 ev :
  platform_ok P -> emu_inv P st1 -> emu_inv P st2 ->
  receivedCmd st1 = receivedCmd st2 ->
  response (dynamic_response_info st1) !! 1
    = response (dynamic_response_info st2) !! 1 ->
  exists eff1 r1 eff2 r2,
    Emulation_iteration P canned st1 ev = Some (eff1, r1) /\
    Emulation_iteration P canned st2 ev = Some (eff2, r2) /\
    transmitted eff1 = transmitted eff2.
Proof.
  intros Hok Hinv1 Hinv2 Hrecv Hbyte1.
  pose proof (emu_inv_room _ _ Hok Hinv1) as Hroom1.
  pose proof (emu_inv_room _ _ Hok Hinv2) as Hroom2.
  destruct Hinv1 as (_ & [Hcap1 _] & Hp1), Hinv2 as (_ & [Hcap2 _] & Hp2).
  destruct ev as [frame|]; [|by eexists _, _, _, _].
  destruct (first_match frame) as [r|] eqn:Hmatch.
  - rewrite !(Emulation_iteration_canned _ _ _ _ r) by (done || lia).
    by eexists _, _, _, _.
  - rewrite !Emulation_iteration_switch by (done || lia).
    rewrite Hp1, Hp2, <- Hrecv.
    destruct (Emulation_switch_payload_agree
                (with_response_n 0 (dynamic_response_info st1))
                (with_response_n 0 (dynamic_response_info st2))
                (list_inserts 0 frame (receivedCmd st1)) (length frame))
      as (i1 & i2 & -> & -> & Hin1 & Hin2 & Hpay & Hn);
      [done|done|done|rewrite length_inserts; lia|].
    destruct (decide (response_n i1 = 0)) as [Hzero|Hpos].
    + rewrite !Emulation_answer_static by congruence.
      by eexists _, _, _, _.
    + rewrite !Emulation_answer_dynamic by (done || lia).
      rewrite <- Hpay.
      destruct (prepare_tag_modulation P _ _) as [m|].
      * eexists _, _, _, _. split_and!; [done|done|].
        unfold transmitted. simpl.
        rewrite !payload_with_prepared, !payload_with_crc by done.
        by rewrite Hpay.
      * by eexists _, _, _, _.
Qed.

(** C9, counterexample.  Two sessions with the same identifier receive the
    same command 0xAA into the same receive buffer; the second session has
    answered a 0xBA command before.  The first replies BB 00 and its
    checksum, the second BB 01 and its checksum: byte 1 of the reply is what
    the earlier reply left in the response buffer. *)
Lemma xor_reply_depends_on_earlier_reply :
  transmitted <$> (fst <$>
    Emulation Bench.pm3 uid_default [RxFrame [0xAA]%Z])
  = Some [[0xBB; 0x00; 0x66; 0xc0]%Z] /\
  transmitted <$> (fst <$>
    Emulation Bench.pm3 uid_default [RxFrame [0xBA]%Z; RxFrame [0xAA]%Z])
  = Some [[0xAB; 0x01; 0x7e; 0x44]%Z; [0xBB; 0x01; 0xef; 0xd1]%Z].
Proof. split; vm_compute; reflexivity. Qed.

(** C9, amended.  Two sessions started with the same identifier, whatever
    each has received so far: when their receive buffers hold the same bytes
    and byte 1 of their response buffers is the same, the next reader event
    makes both put the same bytes on the air.  Nothing else of a session
    (the rest of the response buffer, the modulation buffer, the counters)
    reaches a reply. *)
Theorem reply_fixed_by_identity_and_buffers
    (P : platform) (uid : list Z)
    (evs1 evs2 : list reader_event) (t1 t2 : list effect)
    (st1 st2 : emu_locals) (ev : reader_event) :
  platform_ok P ->
  Emulation P uid evs1 = Some (t1, Listening st1) ->
  Emulation P uid evs2 = Some (t2, Listening st2) ->
  receivedCmd st1 = receivedCmd st2 ->
  response (dynamic_response_info st1) !! 1
    = response (dynamic_response_info st2) !! 1 ->
  exists eff1 o1 eff2 o2,
    Emulation P uid (evs1 ++ [ev]) = Some (t1 ++ eff1, o1) /\
    Emulation P uid (evs2 ++ [ev]) = Some (t2 ++ eff2, o2) /\
    transmitted eff1 = transmitted eff2.
Proof.
  intros Hok Hrun1 Hrun2 Hrecv Hbyte1.
  pose proof (Emulation_listening_inv _ _ _ _ _ Hok Hrun1) as Hinv1.
  pose proof (Emulation_listening_inv _ _ _ _ _ Hok Hrun2) as Hinv2.
  destruct (Emulation_listening _ _ _ _ _ Hrun1) as (init & _ & Hinit & _).
  destruct (Emulation_iteration_transmits_agree P (responses init) st1 st2 ev)
    as (eff1 & r1 & eff2 & r2 & Hstep1 & Hstep2 & Hsame); try done.
  rewrite (Emulation_snoc _ _ _ _ _ _ _ Hinit Hrun1), Hstep1.
  rewrite (Emulation_snoc _ _ _ _ _ _ _ Hinit Hrun2), Hstep2.
  by eexists _, _, _, _.
Qed.

Lemma reply_fixed_by_identity_and_buffers_witness :
  exists eff1 o1 eff2 o2,
    Emulation Bench.pm3 uid_default ([] ++ [RxFrame [0xAA]%Z])
      = Some (session_prologue ++ eff1, o1) /\
    Emulation Bench.pm3 uid_default
      ([RxFrame [0x00]%Z] ++ [RxFrame [0xAA]%Z])
      = Some ((session_prologue ++ [LED_C true]) ++ eff2, o2) /\
    transmitted eff1 = transmitted eff2.
Proof.
  apply (reply_fixed_by_identity_and_buffers Bench.pm3 uid_default
           [] [RxFrame [0x00]%Z] session_prologue
           (session_prologue ++ [LED_C true])
           (Emulation_locals Bench.pm3 Bench.session0)
           (after_frame (Emulation_locals Bench.pm3 Bench.session0)
              [0x00]%Z (with_response_n 0 blank_info))
           (RxFrame [0xAA]%Z)).
  - split; simpl; lia.
  - reflexivity.
  - reflexivity.
  - reflexivity.
  - reflexivity.
Defined.

(** ** The mode controller: claims *)

Lemma candidates_no_select t : Forall no_select t -> candidates t = [].
Proof.
  induction 1 as [|e t He _ IH]; [done|].
  unfold candidates in *. by destruct e.
Qed.

Lemma candidates_app t1 t2 :
  candidates (t1 ++ t2) = candidates t1 ++ candidates t2.
Proof. apply omap_app. Qed.

Lemma Emulation_iteration_no_select P canned st ev eff r :
  Emulation_iteration P canned st ev = Some (eff, r) -> Forall no_select eff.
Proof.
  unfold Emulation_iteration, Emulation_answer. intros Hstep.
  repeat case_match; simplify_eq; repeat constructor.
Qed.

Lemma Emulation_loop_no_select P canned st evs t o :
  Emulation_loop P canned st evs = Some (t, o) -> Forall no_select t.
Proof.
  revert st t o. induction evs as [|ev evs IH]; intros st t o Hrun.
  - simpl in Hrun. simplify_eq. constructor.
  - simpl in Hrun.
    destruct (Emulation_iteration P canned st ev) as [[eff r]|] eqn:Hstep;
      [|done].
    apply Emulation_iteration_no_select in Hstep.
    destruct r as [st'|code]; [|by simplify_eq].
    destruct (Emulation_loop P canned st' evs) as [[t' o']|] eqn:Hrest;
      [|done].
    simplify_eq. apply Forall_app. eauto.
Qed.

(** A session whose reader events hold a failed reception returns, and hands
    nothing to [iso14443a_select_card]. *)
Lemma Emulation_returns P uid evs :
  platform_ok P -> 4 <= length uid -> In RxAbort evs ->
  exists t code,
    Emulation P uid evs = Some (t, Returned code) /\ candidates t = [].
Proof.
  intros Hok Huid Habort.
  destruct (Emulation_init_total P uid Hok Huid) as [[init|] Hinit].
  - rewrite (Emulation_started _ _ _ _ Hinit).
    destruct (Emulation_loop_inv P (responses init) (Emulation_locals P init)
                evs Hok (Emulation_locals_inv P init))
      as (t & o & Hloop & _ & Ho).
    rewrite Hloop. destruct o as [st|code]; [by destruct Ho|].
    eexists _, _. split; [done|].
    rewrite candidates_app.
    by rewrite (candidates_no_select t)
      by (by eapply Emulation_loop_no_select).
  - rewrite (Emulation_failed _ _ _ Hinit). by eexists _, _.
Qed.

Lemma RunMod_click_failed (b : Z) (rest : list Z) :
  (0 <= b <= 255)%Z ->
  RunMod_click (b :: rest) None =
    Some ([iso14443a_setup FPGA_HF_ISO14443A_READER_MOD;
           iso14443a_select_card (b :: rest)],
          (if (b <? 255)%Z then (b + 1)%Z else b) :: rest).
Proof.
  intros Hb. unfold RunMod_click. simpl.
  destruct (Z.ltb_spec b 255); [|done].

  by rewrite Z.mod_small by lia.
Qed.

Lemma RunMod_loop_failed_selections P ins :
  platform_ok P -> Forall failed_selection ins ->
  forall (b : Z) (rest : list Z) (retval : pm3_status),
    (0 <= b <= 255)%Z -> 3 <= length rest ->
    exists t retval',
      RunMod_loop P (b :: rest) retval ins
        = Some (t, Polling (walked b (length ins) :: rest) retval') /\
      candidates t = (fun k => walked b k :: rest) <$> seq 0 (length ins).
Proof.
  intros Hok Hins.
  induction Hins as [|i ins (Hdata & Hbutton & Hcard & Habort) _ IH];
    intros b rest retval Hb Hrest.
  - exists [], retval. split; [|done]. simpl. unfold walked.
    by rewrite Z.add_0_r, Z.min_l by lia.
  - simpl. rewrite Hdata, Hbutton, Hcard, RunMod_click_failed by done.
    set (b' := if (b <? 255)%Z then (b + 1)%Z else b).
    assert (Hb' : (0 <= b' <= 255)%Z /\ b' = walked b 1).
    { unfold b', walked. destruct (Z.ltb_spec b 255); lia. }
    destruct Hb' as [Hb' Hwalk].
    destruct (Emulation_returns P (b' :: rest) (reader i))
      as (te & code & -> & Hte); [done|simpl; lia|done|].
    destruct (IH b' rest code Hb' Hrest) as (t & retval' & -> & Ht).
    eexists _, _. split.
    + do 4 f_equal. rewrite Hwalk. unfold walked. lia.
    + rewrite !candidates_app, Hte, Ht.
      change ((b :: rest) ::
                ((fun k => walked b' k :: rest) <$> seq 0 (length ins))
              = (fun k => walked b k :: rest) <$> seq 0 (S (length ins))).
      rewrite <- cons_seq, fmap_cons, <- fmap_S_seq, <- list_fmap_compose.
      f_equal.
      * unfold walked. f_equal. lia.
      * apply list_fmap_ext. intros _ k _. simpl.
        rewrite Hwalk. unfold walked. f_equal. lia.
Qed.

(** C6.  In the mode controller a failed card selection adds 1 to the first
    byte of the identifier when that byte is below 255 and leaves the
    identifier as it is otherwise.  After [n] failed selections in a row a
    first byte [b] has become min(b + n, 255), and the selections were tried
    with b, b + 1, ... in turn.  From the default identifier, five failed
    selections are tried with first bytes 0xbf, 0xc0, 0xc1, 0xc2, 0xc3 and
    leave 0xc4.  A first byte of 255 stays 255 whatever the number of failed
    selections. *)
Theorem fallback_identifier_walk
    (P : platform) (ins : list controller_input) :
  platform_ok P ->
  Forall failed_selection ins ->
  (forall b rest, (0 <= b <= 255)%Z ->
     RunMod_click (b :: rest) None =
       Some ([iso14443a_setup FPGA_HF_ISO14443A_READER_MOD;
              iso14443a_select_card (b :: rest)],
             (if (b <? 255)%Z then (b + 1)%Z else b) :: rest)) /\
  (forall b rest retval, (0 <= b <= 255)%Z -> 3 <= length rest ->
     exists t retval',
       RunMod_loop P (b :: rest) retval ins
         = Some (t, Polling (walked b (length ins) :: rest) retval') /\
       candidates t = (fun k => walked b k :: rest) <$> seq 0 (length ins)) /\
  (length ins = 5 ->
     exists t retval',
       RunMod P ins
         = Some (t, Polling (0xc4%Z :: drop 1 uid_default) retval') /\
       head <$> candidates t
         = Some <$> [0xbf; 0xc0; 0xc1; 0xc2; 0xc3]%Z) /\
  (forall rest retval, 3 <= length rest ->
     exists t retval',
       RunMod_loop P (255%Z :: rest) retval ins
         = Some (t, Polling (255%Z :: rest) retval')).
Proof.
  intros Hok Hins.
  pose proof (RunMod_loop_failed_selections P ins Hok Hins) as Hwalk.
  split_and!.
  - intros b rest Hb. by apply RunMod_click_failed.
  - exact Hwalk.
  - intros Hfive.
    destruct (Hwalk 0xbf%Z (drop 1 uid_default) PM3_SUCCESS)
      as (t & retval' & Hrun & Ht); [lia|simpl; lia|].
    exists t, retval'. rewrite Hfive in Hrun, Ht. split.
    + exact Hrun.
    + rewrite Ht. reflexivity.
  - intros rest retval Hrest.
    destruct (Hwalk 255%Z rest retval) as (t & retval' & Hrun & _);
      [lia|done|].
    exists t, retval'. rewrite Hrun. do 4 f_equal. unfold walked. lia.
Qed.

Lemma fallback_identifier_walk_witness :
  exists t retval',
    RunMod Bench.pm3 five_failed_selections
      = Some (t, Polling (0xc4%Z :: drop 1 uid_default) retval') /\
    head <$> candidates t = Some <$> [0xbf; 0xc0; 0xc1; 0xc2; 0xc3]%Z.
Proof.
  apply (fallback_identifier_walk Bench.pm3 five_failed_selections).
  - split; simpl; lia.
  - repeat (constructor; [repeat split; simpl; auto|]). constructor.
  - reflexivity.
Defined.

(** ** Sessions on the bench *)

(** A session whose initialisation fails reports it and returns
    [PM3_EFATAL]; no command is awaited. *)
Example session_without_init :
  Emulation Bench.pm3_no_init uid_default [RxFrame [0x26]%Z]
    = Some (session_init_failure, Returned PM3_EFATAL).
Proof. reflexivity. Qed.

(** REQUEST, anticollision, select, RATS, a ping and the select-MF command in
    an I-block, then the host ends the session. *)
Example session_activation :
  transmitted <$> (fst <$>
    Emulation Bench.pm3 uid_default
      [RxFrame [0x26]%Z;
       RxFrame [0x93; 0x20]%Z;
       RxFrame [0x93; 0x70; 0xbf; 0x88; 0x69; 0x3e; 0x60; 0x3f; 0x03]%Z;
       RxFrame [0xE0; 0x80; 0x31; 0x73]%Z;
       RxFrame [0xBA; 0x00]%Z;
       RxFrame (0x02%Z :: Apdu.cmd01 ++ [0x55; 0x55]%Z);
       RxAbort])
  = Some [[0x04; 0x00]%Z;
          [0xbf; 0x88; 0x69; 0x3e; 0x60]%Z;
          [0x28; 0xb4; 0xfc]%Z;
          [0x05; 0x78; 0x80; 0x02; 0x93; 0xd1]%Z;
          [0xAB; 0x01; 0x7e; 0x44]%Z;
          checksummed Bench.pm3 (0x02%Z :: Apdu.reply01)].
Proof. vm_compute. reflexivity. Qed.

(** The synthetic reply to 0xAA starts with 0xBB and the one to 0xBB with
    0xAA; both have two bytes before the checksum. *)
Example xor_reply_toggles :
  (payload <$> Emulation_switch blank_info (0xAA%Z :: zero_buf 255) 1)
    = Some [0xBB; 0x00]%Z /\
  (payload <$> Emulation_switch blank_info (0xBB%Z :: zero_buf 255) 1)
    = Some [0xAA; 0x00]%Z.
Proof. split; reflexivity. Qed.

(** The controller leaves its loop on a stop request of the host and reports
    the result of the last session. *)
Example controller_stops_on_host_request :
  RunMod Bench.pm3
    [mk_controller_input false BUTTON_NO_CLICK None [RxAbort];
     mk_controller_input true BUTTON_NO_CLICK None []]
  = Some (session_prologue ++ [LED_C true; LED_C false] ++
          RunMod_exit PM3_EOPABORTED,
          Exited uid_default PM3_EOPABORTED).
Proof. reflexivity. Qed.

(** ** More on the emulation session *)

Lemma transmitted_app t1 t2 :
  transmitted (t1 ++ t2) = transmitted t1 ++ transmitted t2.
Proof. apply omap_app. Qed.

Lemma received_app evs1 evs2 :
  received (evs1 ++ evs2) = received evs1 ++ received evs2.
Proof. apply omap_app. Qed.

Lemma Emulation_iteration_one_reply P canned st ev eff r :
  Emulation_iteration P canned st ev = Some (eff, r) ->
  length (transmitted eff) <= length (received [ev]).
Proof.
  unfold Emulation_iteration, Emulation_answer. intros Hstep.
  destruct ev as [frame|]; simpl in Hstep;
    repeat case_match; simplify_eq; unfold transmitted, received; simpl; lia.
Qed.

Lemma Emulation_loop_one_reply P canned st evs t o :
  Emulation_loop P canned st evs = Some (t, o) ->
  length (transmitted t) <= length (received evs).
Proof.
  revert st t o. induction evs as [|ev evs IH]; intros st t o Hrun.
  - simpl in Hrun. by simplify_eq.
  - simpl in Hrun.
    destruct (Emulation_iteration P canned st ev) as [[eff r]|] eqn:Hstep;
      [|done].
    apply Emulation_iteration_one_reply in Hstep.
    change (ev :: evs) with ([ev] ++ evs). rewrite received_app, length_app.
    destruct r as [st'|code].
    + destruct (Emulation_loop P canned st' evs) as [[t' o']|] eqn:Hrest;
        [|done].
      simplify_eq. apply IH in Hrest.
      rewrite transmitted_app, length_app. lia.
    + simplify_eq. lia.
Qed.

(** X1.  A session sends at most one frame for each command it has received:
    nothing before the first command, nothing for a failed reception, never
    two frames for one command. *)
Theorem session_sends_at_most_one_frame_per_command
    (P : platform) (uid : list Z) (evs : list reader_event)
    (t : list effect) (o : session_outcome) :
  Emulation P uid evs = Some (t, o) ->
  length (transmitted t) <= length (received evs).
Proof.
  unfold Emulation. intros Hrun.
  destruct (Emulation_init P uid) as [[init|]|]; [| |done].
  - destruct (Emulation_loop _ _ _ _) as [[t' o']|] eqn:Hloop; [|done].
    simplify_eq. apply Emulation_loop_one_reply in Hloop.
    rewrite transmitted_app. simpl. lia.
  - simplify_eq. simpl. lia.
Qed.

Lemma session_sends_at_most_one_frame_per_command_witness :
  length (transmitted
            (session_prologue ++
             [LED_C true;
              EmSendPrecompiledCmd (Canned RESP_INDEX_ATQA)
                (responses Bench.session0 RESP_INDEX_ATQA);
              LED_C false; LED_C true; LED_C false]))
  <= length (received [RxFrame [0x26]%Z; RxAbort]).
Proof.
  apply (session_sends_at_most_one_frame_per_command Bench.pm3 uid_default
           [RxFrame [0x26]%Z; RxAbort] _ (Returned PM3_EOPABORTED)).
  reflexivity.
Defined.

(** A frame whose first byte is none of the fixed command codes matches no
    fixed rule. *)
Lemma first_match_other frame b :
  first_byte frame b ->
  b <> ISO14443A_CMD_REQA -> b <> ISO14443A_CMD_HALT ->
  b <> ISO14443A_CMD_WUPA -> b <> ISO14443A_CMD_ANTICOLL_OR_SELECT ->
  b <> ISO14443A_CMD_RATS ->
  first_match frame = None.
Proof.
  unfold first_byte, first_match, rule_matches.
  destruct frame as [|x0 frame]; intros; simplify_eq/=.
  repeat case_eqb; simpl; try done; by rewrite ?andb_false_r.
Qed.

(** The bytes of the receive buffer that a stored frame covers. *)
Lemma take_drop_frame (buf frame : list Z) (off n : nat) :
  off + n <= length frame -> off + n <= length buf ->
  take n (drop off (list_inserts 0 frame buf)) = take n (drop off frame).
Proof.
  intros Hframe Hbuf. apply list_eq. intros i.
  destruct (decide (i < n)) as [Hi|Hi].
  - rewrite !lookup_take_lt, !lookup_drop by done.
    rewrite list_lookup_inserts by lia. f_equal. lia.
  - by rewrite !lookup_take_ge by lia.
Qed.

(** One more frame that no fixed rule matches, from where the session
    stands: what goes on the air is decided by the dynamic response the
    [switch] builds. *)
Lemma Emulation_snoc_dynamic P uid evs t st frame info :
  platform_ok P ->
  Emulation P uid evs = Some (t, Listening st) ->
  first_match frame = None ->
  Emulation_switch (with_response_n 0 (dynamic_response_info st))
    (list_inserts 0 frame (receivedCmd st)) (length frame) = Some info ->
  exists eff info',
    Emulation P uid (evs ++ [RxFrame frame])
      = Some (t ++ LED_C true :: eff,
              Listening (after_frame st frame info')) /\
    transmitted eff
      = (if decide (response_n info = 0) then []
         else on_air P (payload info)) /\
    (response_n info = 0 -> eff = [] /\ info' = info).
Proof.
  intros Hok Hrun Hmatch Hswitch.
  pose proof (Emulation_listening_inv _ _ _ _ _ Hok Hrun) as Hinv.
  pose proof (emu_inv_room _ _ Hok Hinv) as Hroom.
  destruct (Emulation_listening _ _ _ _ _ Hrun) as (init & _ & Hinit & _).
  destruct Hinv as (_ & [Hcap _] & Hp).
  destruct (Emulation_switch_safe
              (with_response_n 0 (dynamic_response_info st))
              (list_inserts 0 frame (receivedCmd st)) (length frame))
    as (info0 & Hswitch0 & Hin); [done|by rewrite length_inserts|].
  rewrite Hswitch in Hswitch0. simplify_eq.
  rewrite (Emulation_snoc _ _ _ _ _ _ _ Hinit Hrun).
  rewrite Emulation_iteration_switch by (lia || done).
  rewrite Hswitch, Hp. unfold on_air.
  destruct (decide (response_n info0 = 0)) as [Hzero|Hpos].
  - rewrite Emulation_answer_static by done. by eexists _, _.
  - rewrite Emulation_answer_dynamic by (done || lia).
    destruct (prepare_tag_modulation P _ _) as [m|].
    + eexists _, _. split_and!; [done| |done].
      unfold transmitted. simpl.
      by rewrite payload_with_prepared, payload_with_crc by done.
    + eexists _, _. split_and!; [done|done|done].
Qed.

Lemma take_first (buf header : list Z) (b0 : Z) :
  take (length header) buf = header -> header !! 0 = Some b0 ->
  load buf 0 = Some b0.
Proof.
  intros Htake Hb0. unfold load. rewrite <- Htake in Hb0.
  apply lookup_take_Some in Hb0. tauto.
Qed.

Lemma Emulation_switch_iblock info buf len header :
  take (length header) buf = header ->
  iblock_header header ->
  Emulation_switch info buf len
    = snd <$> Reply2Reader info (length header) buf len.
Proof.
  intros Htake Hheader. unfold Emulation_switch.
  destruct Hheader as [Hh|[Hh|[cid [Hh|Hh]]]]; subst header;
    erewrite take_first by (done || reflexivity);
    simpl; by destruct (Reply2Reader _ _ _ _).
Qed.

Lemma first_match_iblock header rest :
  iblock_header header -> first_match (header ++ rest) = None.
Proof.
  intros [->|[->|[cid [->| ->]]]];
    (eapply first_match_other; [reflexivity|..]); done.
Qed.

Lemma rule_lengths r :
  In r Apdu.table ->
  5 <= length (Apdu.apdu_cmd r) <= 19 /\
  25 <= length (Apdu.apdu_response r) <= 59.
Proof. simpl. intros [<-|[<-|[<-|[]]]]; simpl; lia. Qed.

(** X2.  An I-block that carries a command of the table behind its header
    (one byte 0x02 or 0x03, or 0x0A or 0x0B and a card identifier byte) is
    answered, from wherever the session stands, with the same header
    followed by the reply of that command and the checksum of both; nothing
    is sent when the modulation cannot be prepared. *)
Theorem iblock_command_is_replayed
    (P : platform) (uid : list Z) (evs : list reader_event)
    (t : list effect) (st : emu_locals)
    (header : list Z) (r : Apdu.rule) (rest : list Z) :
  platform_ok P ->
  Emulation P uid evs = Some (t, Listening st) ->
  iblock_header header ->
  In r Apdu.table ->
  exists eff st',
    Emulation P uid (evs ++ [RxFrame (header ++ Apdu.apdu_cmd r ++ rest)])
      = Some (t ++ LED_C true :: eff, Listening st') /\
    transmitted eff = on_air P (header ++ Apdu.apdu_response r).
Proof.
  intros Hok Hrun Hheader Hr.
  pose proof (Emulation_listening_inv _ _ _ _ _ Hok Hrun) as Hinv.
  pose proof (emu_inv_room _ _ Hok Hinv) as Hroom.
  destruct Hinv as (_ & [Hcap _] & _).
  destruct (rule_lengths r Hr) as [Hcmd Hreply].
  set (frame := header ++ Apdu.apdu_cmd r ++ rest).
  set (buf := list_inserts 0 frame (receivedCmd st)).
  set (info0 := with_response_n 0 (dynamic_response_info st)).
  assert (Hlen : length header <= 2 /\ 1 <= length header).
  { destruct Hheader as [->|[->|[cid [->| ->]]]]; simpl; lia. }
  assert (Hframe : length frame
                   = length header + length (Apdu.apdu_cmd r) + length rest).
  { unfold frame. rewrite !length_app. lia. }
  assert (Hbuf : length buf = length (receivedCmd st)).
  { unfold buf. by rewrite length_inserts. }
  assert (Hhdr : take (length header) buf = header).
  { rewrite <- (drop_0 buf). unfold buf.
    rewrite take_drop_frame by lia.
    rewrite drop_0. unfold frame. by rewrite take_app_length. }
  assert (Hhit : hits (length header) buf (length frame) r).
  { split; [lia|]. unfold buf. rewrite take_drop_frame by lia.
    unfold frame. rewrite drop_app_length. by rewrite take_app_length. }
  assert (Hreplay : Reply2Reader info0 (length header) buf (length frame)
                    = Some (0%Z, replayed info0 (length header) buf r)).
  { unfold Reply2Reader. apply Reply2Reader_from_hit.
    - apply table_fits.
    - lia.
    - unfold info0. simpl. unfold DYNAMIC_RESPONSE_BUFFER_SIZE in Hcap. lia.
    - by apply hit_is_first_hit. }
  assert (Hswitch : Emulation_switch info0 buf (length frame)
                    = Some (replayed info0 (length header) buf r)).
  { rewrite (Emulation_switch_iblock _ _ _ header) by done.
    by rewrite Hreplay. }
  assert (Hmatch : first_match frame = None)
    by (by apply first_match_iblock).
  destruct (Emulation_snoc_dynamic P uid evs t st frame _ Hok Hrun Hmatch
              Hswitch)
    as (eff & info' & Hstep & Hsent & _).
  exists eff, (after_frame st frame info'). split; [exact Hstep|].
  rewrite Hsent. rewrite decide_False by (simpl; lia).
  rewrite payload_replayed by lia. by rewrite Hhdr.
Qed.

Lemma iblock_command_is_replayed_witness :
  exists eff st',
    Emulation Bench.pm3 uid_default
      ([] ++ [RxFrame ([0x0A; 0x01]%Z ++ Apdu.cmd02 ++ [0x12; 0x34]%Z)])
      = Some (session_prologue ++ LED_C true :: eff, Listening st') /\
    transmitted eff = on_air Bench.pm3 ([0x0A; 0x01]%Z ++ Apdu.reply02).
Proof.
  apply (iblock_command_is_replayed Bench.pm3 uid_default [] session_prologue
           (Emulation_locals Bench.pm3 Bench.session0)
           [0x0A; 0x01]%Z (Apdu.mk_rule Apdu.cmd02 Apdu.reply02)
           [0x12; 0x34]%Z).
  - split; simpl; lia.
  - reflexivity.
  - right. right. exists 0x01%Z. left. reflexivity.
  - simpl. tauto.
Defined.

Lemma Emulation_switch_fixed info buf len b0 :
  length (response info) = DYNAMIC_RESPONSE_BUFFER_SIZE ->
  load buf 0 = Some b0 ->
  (b0 = 0xBA \/ b0 = 0xCA \/ b0 = 0xC2)%Z ->
  exists info',
    Emulation_switch info buf len = Some info' /\
    response_n info' = 2 /\
    payload info' = [(if (b0 =? 0xBA)%Z then 0xAB else 0xCA)%Z; 0x01%Z].
Proof.
  intros Hcap Hb0 Hb. unfold Emulation_switch. rewrite Hb0.
  unfold DYNAMIC_RESPONSE_BUFFER_SIZE in Hcap.
  destruct Hb as [->|[->| ->]]; simpl;
    rewrite !store_Some by (rewrite ?length_insert; lia);
    (eexists; split_and!; [done|done|]);
    unfold payload; simpl; by rewrite take_2_store_01 by lia.
Qed.

(** X3.  A command whose first byte is 0xBA is answered with AB 01 and the
    checksum, one whose first byte is 0xCA or 0xC2 with CA 01 and the
    checksum, whatever its length and whatever the session has done
    before. *)
Theorem ping_and_deselect_are_acknowledged
    (P : platform) (uid : list Z) (evs : list reader_event)
    (t : list effect) (st : emu_locals) (frame : list Z) (b0 : Z) :
  platform_ok P ->
  Emulation P uid evs = Some (t, Listening st) ->
  first_byte frame b0 ->
  (b0 = 0xBA \/ b0 = 0xCA \/ b0 = 0xC2)%Z ->
  exists eff st',
    Emulation P uid (evs ++ [RxFrame frame])
      = Some (t ++ LED_C true :: eff, Listening st') /\
    transmitted eff
      = on_air P [(if (b0 =? 0xBA)%Z then 0xAB else 0xCA)%Z; 0x01%Z].
Proof.
  intros Hok Hrun Hfirst Hb.
  pose proof (Emulation_listening_inv _ _ _ _ _ Hok Hrun) as Hinv.
  pose proof (emu_inv_room _ _ Hok Hinv) as Hroom.
  destruct Hinv as (_ & [Hcap _] & _).
  assert (Hload : load (list_inserts 0 frame (receivedCmd st)) 0 = Some b0).
  { rewrite load_frame_lt; [done| |lia].
    apply lookup_lt_Some in Hfirst. done. }
  destruct (Emulation_switch_fixed
              (with_response_n 0 (dynamic_response_info st))
              (list_inserts 0 frame (receivedCmd st)) (length frame) b0)
    as (info & Hswitch & Hn & Hpay); [done|done|done|].
  assert (Hmatch : first_match frame = None).
  { eapply first_match_other; [exact Hfirst|..];
      by destruct Hb as [->|[->| ->]]. }
  destruct (Emulation_snoc_dynamic P uid evs t st frame _ Hok Hrun Hmatch
              Hswitch)
    as (eff & info' & Hstep & Hsent & _).
  exists eff, (after_frame st frame info'). split; [exact Hstep|].
  rewrite Hsent, decide_False by lia. by rewrite Hpay.
Qed.

Lemma ping_and_deselect_are_acknowledged_witness :
  exists eff st',
    Emulation Bench.pm3 uid_default ([] ++ [RxFrame [0xC2; 0xe0; 0xb4]%Z])
      = Some (session_prologue ++ LED_C true :: eff, Listening st') /\
    transmitted eff
      = on_air Bench.pm3
          [(if (0xC2 =? 0xBA)%Z then 0xAB else 0xCA)%Z; 0x01%Z].
Proof.
  apply (ping_and_deselect_are_acknowledged Bench.pm3 uid_default []
           session_prologue (Emulation_locals Bench.pm3 Bench.session0)
           [0xC2; 0xe0; 0xb4]%Z 0xC2%Z).
  - split; simpl; lia.
  - reflexivity.
  - reflexivity.
  - right. right. reflexivity.
Defined.

(** X4.  A command whose first byte is 0xAA is answered with two bytes and
    the checksum: 0xBB, and the byte the response buffer holds at index 1
    when the command arrives; a command whose first byte is 0xBB likewise
    with 0xAA.  In a session that has not built a dynamic reply yet that
    second byte is 0. *)
Theorem xor_reply_toggles_first_byte
    (P : platform) (uid : list Z) (evs : list reader_event)
    (t : list effect) (st : emu_locals) (frame : list Z) (b0 : Z) :
  platform_ok P ->
  Emulation P uid evs = Some (t, Listening st) ->
  first_byte frame b0 ->
  (b0 = 0xAA \/ b0 = 0xBB)%Z ->
  exists eff st' x,
    Emulation P uid (evs ++ [RxFrame frame])
      = Some (t ++ LED_C true :: eff, Listening st') /\
    response (dynamic_response_info st) !! 1 = Some x /\
    transmitted eff
      = on_air P [(if (b0 =? 0xAA)%Z then 0xBB else 0xAA)%Z; x] /\
    (evs = [] -> x = 0%Z).
Proof.
  intros Hok Hrun Hfirst Hb.
  pose proof (Emulation_listening_inv _ _ _ _ _ Hok Hrun) as Hinv.
  pose proof (emu_inv_room _ _ Hok Hinv) as Hroom.
  destruct Hinv as (_ & [Hcap _] & _).
  pose proof Hcap as Hcap'. unfold DYNAMIC_RESPONSE_BUFFER_SIZE in Hcap'.
  destruct (lookup_lt_is_Some_2 (response (dynamic_response_info st)) 1)
    as [x Hx]; [lia|].
  assert (Hload : load (list_inserts 0 frame (receivedCmd st)) 0 = Some b0).
  { rewrite load_frame_lt; [done| |lia].
    apply lookup_lt_Some in Hfirst. done. }
  assert (Hswitch :
    Emulation_switch (with_response_n 0 (dynamic_response_info st))
      (list_inserts 0 frame (receivedCmd st)) (length frame)
    = Some (with_response
              (<[0 := Z.lxor b0 0x11]> (response (dynamic_response_info st)))
              2 (with_response_n 0 (dynamic_response_info st)))).
  { unfold Emulation_switch. rewrite Hload.
    destruct Hb as [->| ->]; simpl; by rewrite store_Some by lia. }
  assert (Hmatch : first_match frame = None).
  { eapply first_match_other; [exact Hfirst|..];
      by destruct Hb as [->| ->]. }
  destruct (Emulation_snoc_dynamic P uid evs t st frame _ Hok Hrun Hmatch
              Hswitch)
    as (eff & info' & Hstep & Hsent & _).
  exists eff, (after_frame st frame info'), x.
  split_and!; [exact Hstep|exact Hx| |].
  - rewrite Hsent, decide_False by (simpl; lia).
    unfold payload. simpl. rewrite (take_2_store_0 _ _ x) by done.
    by destruct Hb as [->| ->].
  - intros ->. destruct (Emulation_listening _ _ _ _ _ Hrun)
      as (init & t' & _ & _ & Hloop).
    simpl in Hloop. simplify_eq. simpl in Hx.
    by simplify_eq.
Qed.

Lemma xor_reply_toggles_first_byte_witness :
  exists eff st' x,
    Emulation Bench.pm3 uid_default ([] ++ [RxFrame [0xBB; 0x00]%Z])
      = Some (session_prologue ++ LED_C true :: eff, Listening st') /\
    response
      (dynamic_response_info (Emulation_locals Bench.pm3 Bench.session0))
      !! 1 = Some x /\
    transmitted eff
      = on_air Bench.pm3 [(if (0xBB =? 0xAA)%Z then 0xBB else 0xAA)%Z; x] /\
    (([] : list reader_event) = [] -> x = 0%Z).
Proof.
  apply (xor_reply_toggles_first_byte Bench.pm3 uid_default []
           session_prologue (Emulation_locals Bench.pm3 Bench.session0)
           [0xBB; 0x00]%Z 0xBB%Z).
  - split; simpl; lia.
  - reflexivity.
  - reflexivity.
  - right. reflexivity.
Defined.

Lemma Emulation_switch_unanswered info buf len b0 :
  load buf 0 = Some b0 ->
  ~ In b0 answered_first_bytes ->
  Emulation_switch info buf len = Some (with_response_n 0 info).
Proof.
  intros Hb0 Hb. unfold Emulation_switch. rewrite Hb0.
  unfold answered_first_bytes in Hb. simpl in Hb.
  repeat (case_eqb; simpl;
          [first [done | exfalso; apply Hb; subst; auto 20]|]).
  done.
Qed.

(** X5.  A command that none of the six fixed rules matches and whose first
    byte the [switch] has no reply for is met with silence: the turn switches
    the activity LED on and nothing else, the dynamic response buffer keeps
    its bytes, and the session listens again.  This is what happens to a
    fixed command of the wrong length, such as a REQUEST of two bytes. *)
Theorem unanswered_command_is_met_with_silence
    (P : platform) (uid : list Z) (evs : list reader_event)
    (t : list effect) (st : emu_locals) (frame : list Z) (b0 : Z) :
  platform_ok P ->
  Emulation P uid evs = Some (t, Listening st) ->
  first_byte frame b0 ->
  first_match frame = None ->
  ~ In b0 answered_first_bytes ->
  Emulation P uid (evs ++ [RxFrame frame])
    = Some (t ++ [LED_C true],
            Listening (after_frame st frame
                         (with_response_n 0 (dynamic_response_info st)))).
Proof.
  intros Hok Hrun Hfirst Hmatch Hb.
  pose proof (Emulation_listening_inv _ _ _ _ _ Hok Hrun) as Hinv.
  pose proof (emu_inv_room _ _ Hok Hinv) as Hroom.
  assert (Hload : load (list_inserts 0 frame (receivedCmd st)) 0 = Some b0).
  { rewrite load_frame_lt; [done| |lia].
    apply lookup_lt_Some in Hfirst. done. }
  destruct (Emulation_snoc_dynamic P uid evs t st frame _ Hok Hrun Hmatch
              (Emulation_switch_unanswered _ _ _ _ Hload Hb))
    as (eff & info' & Hstep & _ & Hzero).
  destruct (Hzero eq_refl) as [-> ->]. exact Hstep.
Qed.

Lemma unanswered_command_is_met_with_silence_witness :
  Emulation Bench.pm3 uid_default
    ([] ++ [RxFrame [ISO14443A_CMD_REQA; 0x00%Z]])
    = Some (session_prologue ++ [LED_C true],
            Listening
              (after_frame (Emulation_locals Bench.pm3 Bench.session0)
                 [ISO14443A_CMD_REQA; 0x00%Z]
                 (with_response_n 0
                    (dynamic_response_info
                       (Emulation_locals Bench.pm3 Bench.session0))))).
Proof.
  apply (unanswered_command_is_met_with_silence Bench.pm3 uid_default []
           session_prologue (Emulation_locals Bench.pm3 Bench.session0)
           [ISO14443A_CMD_REQA; 0x00%Z] ISO14443A_CMD_REQA).
  - split; simpl; lia.
  - reflexivity.
  - reflexivity.
  - reflexivity.
  - unfold answered_first_bytes. simpl. intuition discriminate.
Defined.

(** ** More on the replay matcher *)

Lemma Reply2Reader_from_outcome rules info apdu_start received_cmd cmd_len
    rc info' :
  Reply2Reader_from rules info apdu_start received_cmd cmd_len
    = Some (rc, info') ->
  (rc = (-1)%Z /\ info' = with_response_n 0 info) \/
  (rc = 0%Z /\ exists r header,
     In r rules /\ length header = apdu_start /\
     apdu_start + length (Apdu.apdu_response r) <= length (response info) /\
     info' = with_response
               (list_inserts apdu_start (Apdu.apdu_response r)
                  (list_inserts 0 header (response info)))
               (apdu_start + length (Apdu.apdu_response r)) info).
Proof.
  induction rules as [|r rules IH]; simpl; intros Hrun.
  - left. by simplify_eq.
  - assert (Hrest :
      Reply2Reader_from rules info apdu_start received_cmd cmd_len
        = Some (rc, info') ->
      (rc = (-1)%Z /\ info' = with_response_n 0 info) \/
      (rc = 0%Z /\ exists r0 header,
         In r0 (r :: rules) /\ length header = apdu_start /\
         apdu_start + length (Apdu.apdu_response r0)
           <= length (response info) /\
         info' = with_response
                   (list_inserts apdu_start (Apdu.apdu_response r0)
                      (list_inserts 0 header (response info)))
                   (apdu_start + length (Apdu.apdu_response r0)) info)).
    { intros Hr. destruct (IH Hr) as [?|(-> & r0 & header & ? & ? & ? & ?)];
        [by left|right]. split; [done|]. exists r0, header. simpl. tauto. }
    destruct (decide (cmd_len < length (Apdu.apdu_cmd r))); [by apply Hrest|].
    unfold memread, memcpy in Hrun.
    repeat case_decide; simplify_eq; try (by apply Hrest).
    right. split; [done|]. eexists r, _. split_and!; [by left| | |done].
    + rewrite length_take, length_drop. lia.
    + rewrite length_inserts in *. lia.
Qed.

(** X6.  Whatever [Reply2Reader] is given, when it returns it has returned 0
    or -1, and the reported length tells which: the length is 0 exactly when
    the result is -1, and at least [apdu_start] + 25 otherwise.  It leaves
    the modulation, the size of the response buffer and every byte of the
    response buffer from the reported length on as they were. *)
Theorem Reply2Reader_reports_match_by_length
    (info : tag_response_info_t) (apdu_start : nat) (received_cmd : list Z)
    (cmd_len : nat) (rc : Z) (info' : tag_response_info_t) :
  Reply2Reader info apdu_start received_cmd cmd_len = Some (rc, info') ->
  ((rc = (-1)%Z /\ response_n info' = 0) \/
   (rc = 0%Z /\ apdu_start + 25 <= response_n info' <= apdu_start + 59)) /\
  modulation info' = modulation info /\
  modulation_n info' = modulation_n info /\
  length (response info') = length (response info) /\
  forall i, response_n info' <= i -> response info' !! i = response info !! i.
Proof.
  intros Hrun. apply Reply2Reader_from_outcome in Hrun.
  destruct Hrun as [[-> ->]|(-> & r & header & Hr & Hhdr & Hcap & ->)].
  - split_and!; try done. by left.
  - destruct (rule_lengths r Hr) as [_ Hreply].
    split_and!; try done.
    + right. simpl. split; [done|lia].
    + simpl. by rewrite !length_inserts.
    + simpl. intros i Hi.
      rewrite list_lookup_inserts_ge by lia.
      by rewrite list_lookup_inserts_ge by lia.
Qed.

Lemma Reply2Reader_reports_match_by_length_witness :
  length
    (response
       (replayed blank_info 1 (0x03%Z :: Apdu.cmd03 ++ zero_buf 250)
          (Apdu.mk_rule Apdu.cmd03 Apdu.reply03)))
  = length (response blank_info).
Proof.
  apply (Reply2Reader_reports_match_by_length blank_info 1
           (0x03%Z :: Apdu.cmd03 ++ zero_buf 250) 6 0%Z).
  vm_compute. reflexivity.
Defined.

(** The first row taken does not depend on the order of the rows: no two
    rows of the table are taken by the same command. *)
Lemma first_hit_perm apdu_start received_cmd cmd_len rules :
  Permutation rules Apdu.table ->
  first_hit apdu_start received_cmd cmd_len rules
  = first_hit apdu_start received_cmd cmd_len Apdu.table.
Proof.
  intros Hperm. unfold first_hit.
  destruct (find _ Apdu.table) as [r|] eqn:Htable;
    destruct (find _ rules) as [r'|] eqn:Hrules; [| | |done].
  - apply find_some in Htable as [Hin Hhit].
    apply find_some in Hrules as [Hin' Hhit'].
    apply bool_decide_eq_true in Hhit, Hhit'. f_equal.
    apply (hits_exclusive apdu_start received_cmd cmd_len); [|done..].
    by apply (Permutation_in _ Hperm).
  - apply find_some in Htable as [Hin Hhit].
    apply (Permutation_in _ (Permutation_sym Hperm)) in Hin.
    by rewrite (find_none _ _ Hrules _ Hin) in Hhit.
  - apply find_some in Hrules as [Hin' Hhit'].
    apply (Permutation_in _ Hperm) in Hin'.
    by rewrite (find_none _ _ Htable _ Hin') in Hhit'.
Qed.

(** X18.  The rows of the table cannot shadow each other: no command is
    taken by two of them, so that [Reply2Reader] would return the same result
    and leave the same response with its rows in any other order. *)
Theorem table_order_is_immaterial
    (rules : list Apdu.rule) (info : tag_response_info_t)
    (apdu_start : nat) (received_cmd : list Z) (cmd_len : nat) :
  Permutation rules Apdu.table ->
  apdu_start + 19 <= length received_cmd ->
  Reply2Reader_from rules info apdu_start received_cmd cmd_len
  = Reply2Reader info apdu_start received_cmd cmd_len.
Proof.
  intros Hperm Hroom. unfold Reply2Reader.
  assert (Hfits : Forall rule_fits rules).
  { rewrite Hperm. apply table_fits. }
  rewrite (Reply2Reader_from_first_hit rules) by done.
  rewrite (Reply2Reader_from_first_hit Apdu.table)
    by (done || apply table_fits).
  by rewrite (first_hit_perm _ _ _ _ Hperm).
Qed.

Lemma table_order_is_immaterial_witness :
  Reply2Reader_from (rev Apdu.table) blank_info 1
    (0x03%Z :: Apdu.cmd03 ++ zero_buf 250) 6
  = Reply2Reader blank_info 1 (0x03%Z :: Apdu.cmd03 ++ zero_buf 250) 6.
Proof.
  apply (table_order_is_immaterial (rev Apdu.table) blank_info 1
           (0x03%Z :: Apdu.cmd03 ++ zero_buf 250) 6).
  - symmetry. apply Permutation_rev.
  - vm_compute. lia.
Defined.

(** ** More on the mode controller *)






(** * Properties of lf_tharexde *)

Section Tharexde_loader.

Import Tharexde.

Variable E : em4x50.

Lemma for_range_S {A : Type} (body : nat -> A -> option A) start n a :
  for_range body start (S n) a
  = match body start a with
    | Some a' => for_range body (S start) n a'
    | None => None
    end.
Proof. done. Qed.

Lemma or_byte_Some mem i j tag w :
  2 * j + 1 + 9 * i < length mem ->
  tag !! i = Some w ->
  or_byte E mem i j tag
    = Some (<[i := Z.lor w (parsed_byte E mem i j)]> tag).
Proof.
  intros Hmem Hw. unfold or_byte, parsed_byte.
  destruct (load_Some mem (2 * j + 9 * i)) as [hi Hhi]; [lia|].
  destruct (load_Some mem (2 * j + 1 + 9 * i)) as [lo Hlo]; [lia|].
  rewrite Hhi, Hlo. unfold load in *. rewrite Hhi, Hlo, Hw. simpl.
  rewrite store_Some; [done|]. by apply lookup_lt_Some in Hw.
Qed.

Lemma or_byte_outside mem i j tag :
  length tag <= i -> or_byte E mem i j tag = None.
Proof.
  intros Hi. unfold or_byte, load.
  rewrite (lookup_ge_None_2 tag i) by lia.
  by repeat case_match.
Qed.

(** The four turns of the inner loop on line [i]. *)
Lemma or_line_Some mem i tag w :
  9 * i + 9 <= length mem ->
  tag !! i = Some w ->
  for_range (or_byte E mem i) 0 4 tag
    = Some (<[i := Z.lor w (parsed_word E mem i)]> tag).
Proof.
  intros Hmem Hw. pose proof (lookup_lt_Some _ _ _ Hw) as Hi. simpl.
  rewrite (or_byte_Some mem i 0 tag w) by (lia || done).
  rewrite (or_byte_Some mem i 1 _ (Z.lor w (parsed_byte E mem i 0)))
    by (lia || by rewrite list_lookup_insert_eq).
  rewrite list_insert_insert_eq.
  rewrite (or_byte_Some mem i 2 _
             (Z.lor (Z.lor w (parsed_byte E mem i 0))
                    (parsed_byte E mem i 1)))
    by (lia || by rewrite list_lookup_insert_eq).
  rewrite list_insert_insert_eq.
  rewrite (or_byte_Some mem i 3 _
             (Z.lor (Z.lor (Z.lor w (parsed_byte E mem i 0))
                           (parsed_byte E mem i 1))
                    (parsed_byte E mem i 2)))
    by (lia || by rewrite list_lookup_insert_eq).
  rewrite list_insert_insert_eq.
  unfold parsed_word. by rewrite !Z.lor_assoc.
Qed.

Lemma or_line_outside mem i tag :
  length tag <= i -> for_range (or_byte E mem i) 0 4 tag = None.
Proof. intros Hi. simpl. by rewrite or_byte_outside. Qed.

(** The outer loop, from any line on. *)
Lemma or_words_from mem n : forall start tag,
  9 * (start + n) <= length mem ->
  start + n <= length tag ->
  exists tag',
    for_range (fun i => for_range (or_byte E mem i) 0 4) start n tag
      = Some tag' /\
    length tag' = length tag /\
    forall k,
      tag' !! k
      = if decide (start <= k < start + n)
        then (fun w => Z.lor w (parsed_word E mem k)) <$> tag !! k
        else tag !! k.
Proof.
  induction n as [|n IH]; intros start tag Hmem Htag.
  - exists tag. split; [done|]. split; [done|]. intros k.
    case_decide; [lia|done].
  - destruct (lookup_lt_is_Some_2 tag start) as [w Hw]; [lia|].
    rewrite for_range_S, (or_line_Some mem start tag w) by (lia || done).
    destruct (IH (S start) (<[start := Z.lor w (parsed_word E mem start)]> tag))
      as (tag' & -> & Hlen & Hk); [lia|rewrite length_insert; lia|].
    exists tag'. split; [done|].
    split; [by rewrite Hlen, length_insert|].
    intros k. rewrite Hk.
    destruct (decide (k = start)) as [->|Hne].
    + rewrite list_lookup_insert_eq by lia.
      rewrite decide_False by lia. rewrite decide_True by lia.
      by rewrite Hw.
    + rewrite list_lookup_insert_ne by done.
      repeat case_decide; (done || lia).
Qed.

Lemma or_words_overrun mem n : forall start tag,
  9 * (start + n) <= length mem ->
  start <= length tag < start + n ->
  for_range (fun i => for_range (or_byte E mem i) 0 4) start n tag = None.
Proof.
  induction n as [|n IH]; intros start tag Hmem Htag; [lia|].
  rewrite for_range_S.
  destruct (decide (start < length tag)) as [Hin|Hout].
  - destruct (lookup_lt_is_Some_2 tag start) as [w Hw]; [lia|].
    rewrite (or_line_Some mem start tag w) by (lia || done).
    apply IH; rewrite ?length_insert; lia.
  - rewrite or_line_outside by lia. done.
Qed.

Lemma lines_fit (mem : list Z) : 9 * (length mem / 9) <= length mem.
Proof.
  pose proof (Nat.div_mod_eq (length mem) 9).
  pose proof (Nat.mod_upper_bound (length mem) 9). lia.
Qed.

Lemma or_phase_Some tag inputfile :
  lines inputfile <= length tag ->
  exists tag',
    or_phase E tag inputfile = Some (lines inputfile, tag') /\
    length tag' = length tag /\
    forall k,
      tag' !! k
      = if decide (k < lines inputfile)
        then (fun w => Z.lor w (parsed_word E (default [] inputfile) k))
               <$> tag !! k
        else tag !! k.
Proof.
  intros Hfit. unfold or_phase, lines in *.
  destruct inputfile as [mem|].
  - destruct (or_words_from mem (length mem / 9) 0 tag)
      as (tag' & Hrun & Hlen & Hk); [apply lines_fit|done|].
    exists tag'. unfold or_words. rewrite Hrun. split; [done|].
    split; [done|]. intros k. rewrite Hk.
    repeat case_decide; (done || lia).
  - exists tag. split; [done|]. split; [done|]. intros k.
    case_decide; [lia|done].
Qed.

Lemma or_phase_None tag inputfile :
  length tag < lines inputfile -> or_phase E tag inputfile = None.
Proof.
  intros Hlong. unfold or_phase, lines in *.
  destruct inputfile as [mem|]; [|lia].
  unfold or_words. rewrite or_words_overrun; [done|apply lines_fit|lia].
Qed.

(** A call that returns has read no more lines than the array has words, and
    what it returns is this. *)
Lemma get_input_data_from_file_Some tag inputfile ok tag' :
  get_input_data_from_file E tag inputfile = Some (ok, tag') ->
  lines inputfile <= length tag /\
  length tag' = length tag /\
  (forall k,
     tag' !! k
     = if decide (k < lines inputfile)
       then (fun w => Z.lor w (parsed_word E (default [] inputfile) k))
              <$> tag !! k
       else tag !! k) /\
  (ok = true ->
   lines inputfile = EM4X50_NO_WORDS E /\
   tag' !! EM4X50_DEVICE_SERIAL E <> tag' !! EM4X50_DEVICE_ID E).
Proof.
  unfold get_input_data_from_file. intros Hrun.
  destruct (decide (lines inputfile <= length tag)) as [Hfit|Hlong];
    [|by rewrite or_phase_None in Hrun by lia].
  destruct (or_phase_Some tag inputfile Hfit) as (tag1 & Hphase & Hlen & Hk).
  rewrite Hphase in Hrun. unfold load in Hrun.
  case_decide as Hnow.
  - destruct (tag1 !! EM4X50_DEVICE_SERIAL E) as [serial|] eqn:Hs; [|done].
    destruct (tag1 !! EM4X50_DEVICE_ID E) as [id|] eqn:Hi; [|done].
    simplify_eq. split_and!; [done..|].
    intros Hok. split; [done|]. rewrite Hs, Hi. intros [= ->].
    by rewrite Z.eqb_refl in Hok.
  - simplify_eq. by split_and!.
Qed.

End Tharexde_loader.

(** X8.  With the array of [EM4X50_NO_WORDS] words that [RunMod] hands to it,
    the loader of the dump leaves the array exactly when the file has more
    lines of nine characters than the tag has words: it has no check of the
    line count before it stores.  A file that is absent, short or of the
    right size is read within bounds. *)
Theorem long_input_file_overruns_tag
    (E : Tharexde.em4x50) (tag : list Z) (inputfile : option (list Z)) :
  Tharexde.em4x50_ok E tag ->
  Tharexde.get_input_data_from_file E tag inputfile = None
  <-> Tharexde.EM4X50_NO_WORDS E < Tharexde.lines inputfile.
Proof.
  intros (Hlen & Hserial & Hid).
  unfold Tharexde.get_input_data_from_file. split.
  - intros Hrun.
    destruct (decide (Tharexde.lines inputfile <= length tag)) as [Hfit|Hlong];
      [|lia].
    destruct (or_phase_Some E tag inputfile Hfit)
      as (tag1 & Hphase & Hlen1 & _).
    rewrite Hphase in Hrun.
    destruct (load_Some tag1 (Tharexde.EM4X50_DEVICE_SERIAL E)) as [s Hs];
      [lia|].
    destruct (load_Some tag1 (Tharexde.EM4X50_DEVICE_ID E)) as [i Hi];
      [lia|].
    rewrite Hs, Hi in Hrun. by case_decide.
  - intros Hlong. by rewrite or_phase_None by lia.
Qed.

Lemma long_input_file_overruns_tag_witness :
  Tharexde.get_input_data_from_file Tharexde.Bench.em
    (replicate 34 0%Z) (Some (replicate 315 48%Z)) = None
  <-> Tharexde.EM4X50_NO_WORDS Tharexde.Bench.em
      < Tharexde.lines (Some (replicate 315 48%Z)).
Proof.
  apply (long_input_file_overruns_tag Tharexde.Bench.em (replicate 34 0%Z)
           (Some (replicate 315 48%Z))).
  split_and!; simpl; lia.
Defined.

(** X9.  The loader only ever sets bits: the array keeps its length, every
    bit that was set in a word before the call is set after it, and the words
    from the file's line count on are as they were; nothing is cleared
    first.  In particular a file that is absent leaves every word as it
    was. *)
Theorem loader_only_sets_bits
    (E : Tharexde.em4x50) (tag : list Z) (inputfile : option (list Z))
    (ok : bool) (tag' : list Z) :
  Tharexde.get_input_data_from_file E tag inputfile = Some (ok, tag') ->
  length tag' = length tag /\
  forall i w, tag !! i = Some w ->
    exists w', tag' !! i = Some w' /\
      Z.land w' w = w /\
      (Tharexde.lines inputfile <= i -> w' = w).
Proof.
  intros Hrun.
  destruct (get_input_data_from_file_Some E _ _ _ _ Hrun)
    as (_ & Hlen & Hk & _).
  split; [done|]. intros i w Hw. rewrite Hk, Hw. case_decide; simpl.
  - eexists. split; [done|]. split; [|lia].
    apply Z.bits_inj'. intros n _. rewrite Z.land_spec, Z.lor_spec.
    destruct (Z.testbit w n); [done|]. by rewrite andb_false_r.
  - exists w. split; [done|]. split; [|done].
    by rewrite Z.land_diag.
Qed.

Lemma loader_only_sets_bits_witness :
  length (replicate 34 0xff%Z) = length (replicate 34 0x0f%Z) /\
  forall i w, replicate 34 0x0f%Z !! i = Some w ->
    exists w', replicate 34 0xff%Z !! i = Some w' /\
      Z.land w' w = w /\
      (Tharexde.lines (Some (Tharexde.dump (replicate 34 0xf0%Z))) <= i ->
       w' = w).
Proof.
  apply (loader_only_sets_bits Tharexde.Bench.em (replicate 34 0x0f%Z)
           (Some (Tharexde.dump (replicate 34 0xf0%Z)))
           false (replicate 34 0xff%Z)).
  vm_compute. reflexivity.
Defined.

(** X10.  Loading the same file again changes nothing: the second call
    returns the same verdict and leaves the array as the first call left
    it. *)
Theorem loading_twice_is_loading_once
    (E : Tharexde.em4x50) (tag : list Z) (inputfile : option (list Z))
    (ok : bool) (tag' : list Z) :
  Tharexde.get_input_data_from_file E tag inputfile = Some (ok, tag') ->
  Tharexde.get_input_data_from_file E tag' inputfile = Some (ok, tag').
Proof.
  intros Hrun.
  destruct (get_input_data_from_file_Some E _ _ _ _ Hrun)
    as (Hfit & Hlen & Hk & _).
  destruct (or_phase_Some E tag inputfile Hfit) as (tag1 & Hphase & _ & Hk1).
  assert (tag1 = tag') as ->.
  { apply list_eq. intros k. by rewrite Hk, Hk1. }
  destruct (or_phase_Some E tag' inputfile) as (tag2 & Hphase2 & _ & Hk2);
    [lia|].
  assert (tag2 = tag') as ->.
  { apply list_eq. intros k. rewrite Hk2, Hk. case_decide; [|done].
    destruct (tag !! k) as [w|]; [|done]. simpl. f_equal.
    by rewrite <- Z.lor_assoc, Z.lor_diag. }
  unfold Tharexde.get_input_data_from_file in *.
  rewrite Hphase2. by rewrite Hphase in Hrun.
Qed.

Lemma loading_twice_is_loading_once_witness :
  Tharexde.get_input_data_from_file Tharexde.Bench.em (replicate 34 0xff%Z)
    (Some (Tharexde.dump (replicate 34 0xf0%Z)))
  = Some (false, replicate 34 0xff%Z).
Proof.
  apply (loading_twice_is_loading_once Tharexde.Bench.em
           (replicate 34 0x0f%Z)
           (Some (Tharexde.dump (replicate 34 0xf0%Z)))
           false (replicate 34 0xff%Z)).
  vm_compute. reflexivity.
Defined.

(** ** The dump format *)

Lemma nibble_range (x : Z) : (0 <= Z.land x 15 < 16)%Z.
Proof.
  change 15%Z with (Z.ones 4). rewrite Z.land_ones by lia.
  apply Z.mod_pos_bound. lia.
Qed.

Lemma hex2int_digit (E : Tharexde.em4x50) (d : Z) :
  Tharexde.decodes_hex E -> (0 <= d < 16)%Z ->
  Tharexde.hex2int E (Tharexde.hex_digit d) = d.
Proof.
  intros Hdec Hd. unfold Tharexde.decodes_hex in Hdec.
  rewrite list.Forall_forall in Hdec. apply Hdec.
  apply elem_of_seqZ. lia.
Qed.

Ltac bits :=
  repeat first
    [ rewrite Z.lor_spec
    | rewrite Z.land_spec
    | rewrite Z.testbit_mod_pow2 by lia
    | rewrite Z.shiftl_spec_low by lia
    | rewrite Z.shiftl_spec by lia
    | rewrite Z.shiftr_spec by lia
    | rewrite Z.testbit_neg_r by lia
    | rewrite (Z.testbit_ones_nonneg 4) by lia ].

Ltac ltb_cases :=
  repeat match goal with
         | |- context [(?a <? ?b)%Z] =>
             destruct (Z.ltb_spec a b); try lia
         end.

(** The eight digits of a word, two by two and high byte first, or-ed at
    their place give the word back. *)
Lemma word_of_nibbles (w : Z) :
  Tharexde.is_uint32 w ->
  let nibble k := Z.land (Z.shiftr w (4 * k)) 15 in
  let byte j :=
    Tharexde.uint32
      (Z.shiftl (Z.lor (Z.shiftl (nibble (7 - 2 * Z.of_nat j)) 4)
                       (nibble (6 - 2 * Z.of_nat j)))%Z
                (Z.of_nat ((3 - j) * 8))) in
  Z.lor (Z.lor (Z.lor (byte 0) (byte 1)) (byte 2)) (byte 3) = w.
Proof.
  intros Hw nibble byte. subst nibble byte. unfold Tharexde.uint32.
  unfold Tharexde.is_uint32 in Hw.
  rewrite <- (Z.mod_small w (2 ^ 32)) at 9 by lia.
  change 15%Z with (Z.ones 4).
  apply Z.bits_inj'. intros n Hn. simpl Z.of_nat.
  assert (n < 4 \/ 4 <= n < 8 \/ 8 <= n < 12 \/ 12 <= n < 16 \/
          16 <= n < 20 \/ 20 <= n < 24 \/ 24 <= n < 28 \/ 28 <= n < 32 \/
          32 <= n)%Z as Hcases by lia.
  destruct Hcases as [?|[?|[?|[?|[?|[?|[?|[?|?]]]]]]]];
    bits; ltb_cases; simpl;
    rewrite ?orb_false_r, ?andb_false_r, ?andb_true_r; simpl;
    rewrite ?orb_false_r; try done; f_equal; lia.
Qed.

Lemma length_hex8_line (w : Z) : length (Tharexde.hex8_line w) = 9.
Proof. done. Qed.

Lemma length_dump (words : list Z) :
  length (Tharexde.dump words) = 9 * length words.
Proof.
  unfold Tharexde.dump. induction words as [|w words IH]; [done|].
  rewrite bind_cons, length_app, IH, length_hex8_line, length_cons. lia.
Qed.

Lemma lines_dump (words : list Z) :
  Tharexde.lines (Some (Tharexde.dump words)) = length words.
Proof.
  unfold Tharexde.lines. rewrite length_dump.
  rewrite Nat.mul_comm. by apply Nat.div_mul.
Qed.

(** Character [k] of line [i] of a dump. *)
Lemma dump_lookup (words : list Z) : forall i w k,
  words !! i = Some w -> k < 9 ->
  Tharexde.dump words !! (k + 9 * i) = Tharexde.hex8_line w !! k.
Proof.
  unfold Tharexde.dump.
  induction words as [|w0 words IH]; intros i w k Hw Hk; [done|].
  rewrite bind_cons.
  destruct i as [|i].
  - simpl in Hw. injection Hw as ->.
    rewrite Nat.mul_0_r, Nat.add_0_r.
    by rewrite lookup_app_l by (rewrite length_hex8_line; lia).
  - rewrite lookup_app_r by (rewrite length_hex8_line; lia).
    rewrite length_hex8_line.
    replace (k + 9 * S i - 9) with (k + 9 * i) by lia.
    by apply IH.
Qed.

(** What the loader makes of a line of a dump is the word the line was
    printed from. *)
Lemma parsed_word_dump (E : Tharexde.em4x50) (words : list Z) i w :
  Tharexde.decodes_hex E -> Tharexde.is_uint32 w ->
  words !! i = Some w ->
  Tharexde.parsed_word E (Tharexde.dump words) i = w.
Proof.
  intros Hdec Hw Hi.
  unfold Tharexde.parsed_word, Tharexde.parsed_byte.
  rewrite !(dump_lookup words i w) by (done || lia).
  cbn [Tharexde.hex8_line fmap list_fmap app lookup list_lookup Nat.mul
       Nat.add default].
  unfold id.
  rewrite !(hex2int_digit E) by (done || apply nibble_range).
  exact (word_of_nibbles w Hw).
Qed.

(** ** The text records *)

Lemma strlen_text (pre rest : list Z) :
  Tharexde.is_text pre ->
  Tharexde.strlen (pre ++ 0%Z :: rest) = Some (length pre).
Proof.
  induction 1 as [|c pre Hc _ IH]; [done|].
  simpl. destruct (Z.eqb_spec c 0); [done|]. by rewrite IH.
Qed.

Lemma strlen_full (buf : list Z) :
  Tharexde.is_text buf -> Tharexde.strlen buf = None.
Proof.
  induction 1 as [|c pre Hc _ IH]; [done|].
  simpl. destruct (Z.eqb_spec c 0); [done|]. by rewrite IH.
Qed.

(** The length of the text in a buffer that is a text followed by zero
    bytes. *)
Lemma strlen_padded (pre : list Z) (m : nat) :
  Tharexde.is_text pre -> 0 < m ->
  Tharexde.strlen (pre ++ replicate m 0%Z) = Some (length pre).
Proof.
  intros Hpre Hm. destruct m as [|m]; [lia|].
  by apply strlen_text.
Qed.

(** Printing at the end of the text of such a buffer. *)
Lemma sprintf_padded (pre s : list Z) (m : nat) :
  length s < m ->
  Tharexde.sprintf (pre ++ replicate m 0%Z) (length pre) s
  = Some ((pre ++ s) ++ replicate (m - length s) 0%Z).
Proof.
  intros Hfit. unfold Tharexde.sprintf.
  rewrite memcpy_Some
    by (rewrite !length_app, length_replicate; simpl; lia).
  rewrite list_inserts_split
    by (rewrite !length_app, length_replicate; simpl; lia).
  rewrite take_app_length, drop_app_add, drop_replicate, length_app.
  simpl length.
  replace (m - length s) with (S (m - (length s + 1))) by lia.
  simpl. by rewrite <- !app_assoc.
Qed.

Lemma sprintf_overflow (pre s : list Z) (m : nat) :
  m <= length s ->
  Tharexde.sprintf (pre ++ replicate m 0%Z) (length pre) s = None.
Proof.
  intros Hlong. unfold Tharexde.sprintf, memcpy.
  rewrite decide_False; [done|].
  rewrite !length_app, length_replicate. simpl. lia.
Qed.

Lemma sprintf_entry0 (s : list Z) :
  length s < 400 ->
  Tharexde.sprintf Tharexde.entry0 0 s
  = Some (s ++ replicate (400 - length s) 0%Z).
Proof. intros Hfit. exact (sprintf_padded [] s 400 Hfit). Qed.

Lemma hex_digit_text (x : Z) :
  Tharexde.hex_digit (Z.land x 15) <> 0%Z.
Proof.
  pose proof (nibble_range x). unfold Tharexde.hex_digit.
  destruct (Z.ltb_spec (Z.land x 15) 10); lia.
Qed.

Lemma hex8_line_text (w : Z) : Tharexde.is_text (Tharexde.hex8_line w).
Proof.
  unfold Tharexde.is_text, Tharexde.hex8_line. simpl.
  repeat (constructor; [first [apply hex_digit_text | done]|]).
  constructor.
Qed.

Lemma dump_text (words : list Z) : Tharexde.is_text (Tharexde.dump words).
Proof.
  unfold Tharexde.dump, Tharexde.is_text.
  induction words as [|w words IH]; [constructor|].
  rewrite bind_cons. apply Forall_app. split; [apply hex8_line_text|done].
Qed.

Lemma dump_snoc (words : list Z) (w : Z) :
  Tharexde.dump (words ++ [w]) = Tharexde.dump words ++ Tharexde.hex8_line w.
Proof.
  unfold Tharexde.dump. by rewrite bind_app, bind_singleton.
Qed.

Lemma dump_cons (words : list Z) (w : Z) :
  Tharexde.dump (w :: words) = Tharexde.hex8_line w ++ Tharexde.dump words.
Proof. unfold Tharexde.dump. by rewrite bind_cons. Qed.

(** The loop that prints the words, on a buffer that is a text followed by
    [m] zero bytes: it prints when each line and its closing zero find room,
    and leaves the buffer when they do not. *)
Lemma sprintf_words_from (tag : list Z) (n : nat) : forall start pre m,
  Tharexde.is_text pre ->
  start + n <= length tag ->
  Tharexde.for_range (Tharexde.sprintf_word tag) start n
    (pre ++ replicate m 0%Z)
  = if decide (n = 0 \/ 9 * n < m)
    then Some ((pre ++ Tharexde.dump (take n (drop start tag)))
                 ++ replicate (m - 9 * n) 0%Z)
    else None.
Proof.
  induction n as [|n IH]; intros start pre m Hpre Htag.
  - rewrite decide_True by lia. simpl.
    by rewrite app_nil_r, Nat.sub_0_r.
  - rewrite for_range_S. unfold Tharexde.sprintf_word at 1.
    destruct (lookup_lt_is_Some_2 tag start) as [w Hw]; [lia|].
    destruct (decide (m = 0)) as [->|Hm].
    { simpl replicate. rewrite app_nil_r, strlen_full by done.
      rewrite decide_False by lia. done. }
    rewrite strlen_padded by (done || lia).
    unfold load. rewrite Hw.
    destruct (decide (9 < m)) as [Hroom|Hfull].
    + rewrite sprintf_padded by (rewrite length_hex8_line; lia).
      rewrite length_hex8_line.
      rewrite IH by (lia || (apply Forall_app; split;
                             [done|apply hex8_line_text])).
      rewrite (drop_S _ _ _ Hw). rewrite firstn_cons, dump_cons.
      replace (m - 9 - 9 * n) with (m - 9 * S n) by lia.
      repeat case_decide; try lia; try done; by rewrite <- !app_assoc.
    + rewrite sprintf_overflow by (rewrite length_hex8_line; lia).
      rewrite decide_False by lia. done.
Qed.

Lemma password_entry_text (E : Tharexde.em4x50) (tag : list Z) :
  length tag = Tharexde.EM4X50_NO_WORDS E ->
  Tharexde.password_entry E tag
  = if decide (Tharexde.EM4X50_NO_WORDS E = 0
               \/ 9 * Tharexde.EM4X50_NO_WORDS E < 400)
    then Some (Tharexde.dump tag
                 ++ replicate (400 - 9 * Tharexde.EM4X50_NO_WORDS E) 0%Z)
    else None.
Proof.
  intros Hlen. unfold Tharexde.password_entry, Tharexde.sprintf_words.
  change Tharexde.entry0 with ([] ++ replicate 400 0%Z).
  rewrite sprintf_words_from by (constructor || (simpl; lia)).
  by rewrite drop_0, <- Hlen, firstn_all.
Qed.

(** Loading a dump of in-range words into an array of zeros gives the words
    back. *)
Lemma or_phase_dump (E : Tharexde.em4x50) (words : list Z) :
  Tharexde.decodes_hex E ->
  Forall Tharexde.is_uint32 words ->
  Tharexde.or_phase E (replicate (length words) 0%Z)
    (Some (Tharexde.dump words))
  = Some (length words, words).
Proof.
  intros Hdec Hwords.
  destruct (or_phase_Some E (replicate (length words) 0%Z)
              (Some (Tharexde.dump words)))
    as (tag' & Hphase & Hlen & Hk).
  { by rewrite lines_dump, length_replicate. }
  rewrite lines_dump in *. rewrite length_replicate in Hlen.
  rewrite Hphase. do 2 f_equal.
  apply list_eq. intros k. rewrite Hk. case_decide as Hin.
  - destruct (lookup_lt_is_Some_2 words k Hin) as [w Hw].
    rewrite lookup_replicate_2 by done. simpl. rewrite Hw. f_equal.
    apply parsed_word_dump; [done| |done].
    rewrite list.Forall_forall in Hwords. apply Hwords.
    by apply list_elem_of_lookup_2 in Hw.
  - rewrite (proj1 (lookup_replicate_None _ _ _)) by lia.
    by rewrite lookup_ge_None_2 by lia.
Qed.

(** X11.  The dump that the simulator prints of its tag after a new password
    (one line of eight lower-case digits for each word) is a file that the
    loader reads back to the same tag: when [hex2int] gives the digits their
    value and the dump fits the 400 bytes of [entry], loading the text of
    [entry] into an array of zeros gives the words that were printed, and the
    verdict says whether the device serial and the device identification
    differ. *)
Theorem printed_dump_loads_back
    (E : Tharexde.em4x50) (tag : list Z) :
  Tharexde.em4x50_ok E tag ->
  Tharexde.decodes_hex E ->
  Forall Tharexde.is_uint32 tag ->
  Tharexde.EM4X50_NO_WORDS E <= 44 ->
  exists entry,
    Tharexde.password_entry E tag = Some entry /\
    Tharexde.strlen entry = Some (9 * Tharexde.EM4X50_NO_WORDS E) /\
    Tharexde.get_input_data_from_file E
      (replicate (Tharexde.EM4X50_NO_WORDS E) 0%Z)
      (Some (take (9 * Tharexde.EM4X50_NO_WORDS E) entry))
    = Some (bool_decide (tag !! Tharexde.EM4X50_DEVICE_SERIAL E
                         <> tag !! Tharexde.EM4X50_DEVICE_ID E), tag).
Proof.
  intros (Hlen & Hserial & Hid) Hdec Hwords Hfit.
  eexists. rewrite password_entry_text by done.
  rewrite decide_True by lia. split; [done|].
  pose proof (length_dump tag) as Hdump. rewrite Hlen in Hdump.
  split.
  { rewrite strlen_padded by (apply dump_text || lia). by rewrite Hdump. }
  rewrite <- Hdump, take_app_length.
  unfold Tharexde.get_input_data_from_file.
  rewrite <- Hlen, or_phase_dump by done.
  rewrite decide_True by done.
  destruct (load_Some tag (Tharexde.EM4X50_DEVICE_SERIAL E)) as [s Hs];
    [lia|].
  destruct (load_Some tag (Tharexde.EM4X50_DEVICE_ID E)) as [i Hi]; [lia|].
  rewrite Hs, Hi. unfold load in Hs, Hi. rewrite Hs, Hi. do 2 f_equal.
  destruct (Z.eqb_spec s i) as [->|Hne]; simpl.
  - by rewrite bool_decide_eq_false_2 by (intros H; by apply H).
  - rewrite bool_decide_eq_true_2; [done|]. by intros [= ?].
Qed.

Lemma printed_dump_loads_back_witness :
  exists entry,
    Tharexde.password_entry Tharexde.Bench.em Tharexde.Bench.words
      = Some entry /\
    Tharexde.strlen entry
      = Some (9 * Tharexde.EM4X50_NO_WORDS Tharexde.Bench.em) /\
    Tharexde.get_input_data_from_file Tharexde.Bench.em
      (replicate (Tharexde.EM4X50_NO_WORDS Tharexde.Bench.em) 0%Z)
      (Some (take (9 * Tharexde.EM4X50_NO_WORDS Tharexde.Bench.em) entry))
    = Some (bool_decide
              (Tharexde.Bench.words
                 !! Tharexde.EM4X50_DEVICE_SERIAL Tharexde.Bench.em
               <> Tharexde.Bench.words
                    !! Tharexde.EM4X50_DEVICE_ID Tharexde.Bench.em),
            Tharexde.Bench.words).
Proof.
  apply (printed_dump_loads_back Tharexde.Bench.em Tharexde.Bench.words).
  - split_and!; vm_compute; lia.
  - unfold Tharexde.decodes_hex.
    apply (bool_decide_unpack _). vm_compute. reflexivity.
  - unfold Tharexde.is_uint32.
    apply (bool_decide_unpack _). vm_compute. reflexivity.
  - vm_compute. lia.
Defined.

(** A loop that reaches a turn that fails whatever it is given fails. *)
Lemma for_range_fails {A : Type} (body : nat -> A -> option A) (i0 : nat) :
  (forall a, body i0 a = None) ->
  forall n start a, start <= i0 < start + n ->
    Tharexde.for_range body start n a = None.
Proof.
  intros Hfail. induction n as [|n IH]; intros start a Hi; [lia|].
  rewrite for_range_S.
  destruct (decide (start = i0)) as [->|Hne]; [by rewrite Hfail|].
  destruct (body start a); [|done]. apply IH. lia.
Qed.

Lemma sprintf_word_outside (tag : list Z) (i : nat) (entry : list Z) :
  length tag <= i -> Tharexde.sprintf_word tag i entry = None.
Proof.
  intros Hi. unfold Tharexde.sprintf_word, load.
  rewrite (lookup_ge_None_2 tag i) by lia.
  by destruct (Tharexde.strlen entry).
Qed.

Lemma found_tag_text : Tharexde.is_text Tharexde.found_tag.
Proof.
  unfold Tharexde.is_text, Tharexde.found_tag.
  repeat (constructor; [done|]). constructor.
Qed.

(** What a turn of the collector does with what [standard_read] left. *)
Lemma collect_outcome (log_exists : bool) (no_words : Z) (tag : list Z) :
  Tharexde.collect log_exists no_words tag
  = if decide (no_words <= 0)%Z then Some (None, log_exists)
    else if decide ((no_words <= 42)%Z /\ Z.to_nat no_words <= length tag)
    then Some (Some (Tharexde.logged log_exists
                       (Tharexde.record (take (Z.to_nat no_words) tag))),
               true)
    else None.
Proof.
  unfold Tharexde.collect.
  destruct (Z.ltb_spec 0 no_words) as [Hpos|Hneg];
    [|by rewrite decide_True by lia].
  rewrite decide_False by lia.
  rewrite sprintf_entry0 by (simpl; lia).
  unfold Tharexde.sprintf_words.
  pose proof found_tag_text as Hfound.
  change (400 - length Tharexde.found_tag) with 382.
  destruct (decide (Z.to_nat no_words <= length tag)) as [Htag|Hout]; cycle 1.
  { rewrite (for_range_fails _ (length tag));
      [|intros a; by apply sprintf_word_outside|lia].
    rewrite decide_False; [done|]. lia. }
  rewrite sprintf_words_from by (done || lia).
  rewrite drop_0.
  set (words := take (Z.to_nat no_words) tag).
  assert (Hwords : length words = Z.to_nat no_words).
  { subst words. rewrite length_take. lia. }
  destruct (decide (no_words <= 42)%Z) as [Hfit|Hlong].
  - rewrite decide_True by lia. rewrite decide_True by lia.
    assert (Htext : Tharexde.is_text
                      (Tharexde.found_tag ++ Tharexde.dump words)).
    { apply Forall_app. split; [done|apply dump_text]. }
    rewrite strlen_padded by (done || lia).
    rewrite sprintf_padded by (simpl; lia).
    rewrite strlen_padded;
      [|apply Forall_app; split; [done|by constructor]|simpl; lia].
    unfold Tharexde.append.
    rewrite memread_Some by (rewrite !length_app; lia).
    rewrite drop_0, take_app_length.
    unfold Tharexde.record, Tharexde.logged.
    rewrite <- app_assoc. by destruct log_exists.
  - rewrite decide_False by lia. rewrite decide_False; [done|]. lia.
Qed.

Lemma length_record (words : list Z) :
  length (Tharexde.record words) = 19 + 9 * length words.
Proof.
  unfold Tharexde.record. rewrite !length_app, length_dump. simpl. lia.
Qed.

(** X12.  A turn of the collector writes to flash only when words were read.
    When more than 42 words are reported the record does not fit the 400
    bytes of [entry], and when more are reported than the array of words
    holds the record is printed from behind it: in both cases the code
    leaves an array.  Otherwise one record goes to the collect log: the
    heading, a line of eight digits for each word read, and an empty line,
    19 + 9 * [no_words] bytes.  It is appended when the log exists and
    written as a new file when it does not, and from then on the log counts
    as existing. *)
Theorem collector_writes_one_record
    (log_exists : bool) (no_words : Z) (tag : list Z) :
  ((no_words <= 0)%Z ->
   Tharexde.collect log_exists no_words tag = Some (None, log_exists)) /\
  ((0 < no_words <= 42)%Z -> Z.to_nat no_words <= length tag ->
   Tharexde.collect log_exists no_words tag
   = Some (Some (Tharexde.logged log_exists
                   (Tharexde.record (take (Z.to_nat no_words) tag))),
           true) /\
   length (Tharexde.record (take (Z.to_nat no_words) tag))
   = 19 + 9 * Z.to_nat no_words) /\
  ((0 < no_words)%Z ->
   (42 < no_words)%Z \/ length tag < Z.to_nat no_words ->
   Tharexde.collect log_exists no_words tag = None).
Proof.
  rewrite collect_outcome. split_and!.
  - intros Hnone. by rewrite decide_True by lia.
  - intros Hfit Htag. rewrite decide_False by lia.
    rewrite decide_True by lia. split; [done|].
    rewrite length_record, length_take. lia.
  - intros Hpos Hbad. rewrite decide_False by lia.
    rewrite decide_False; [done|]. lia.
Qed.

(** X13.  The dump of the tag fits the 400 bytes of [entry] exactly when the
    tag has at most 44 words: with more, the loop that prints it stores
    behind the array. *)
Theorem password_dump_needs_44_words
    (E : Tharexde.em4x50) (tag : list Z) :
  Tharexde.em4x50_ok E tag ->
  Tharexde.password_entry E tag = None
  <-> 44 < Tharexde.EM4X50_NO_WORDS E.
Proof.
  intros (Hlen & Hserial & Hid). rewrite password_entry_text by done.
  case_decide; split; (done || lia).
Qed.

Lemma password_dump_needs_44_words_witness :
  Tharexde.password_entry Tharexde.Bench.em Tharexde.Bench.words = None
  <-> 44 < Tharexde.EM4X50_NO_WORDS Tharexde.Bench.em.
Proof.
  apply (password_dump_needs_44_words Tharexde.Bench.em
           Tharexde.Bench.words).
  split_and!; vm_compute; lia.
Defined.

(** ** The loop of RunMod *)

Section Tharexde_loop.

Import Tharexde.

Variable E : em4x50.

Lemma log_discipline_app (t1 t2 : list effect) : forall known,
  log_discipline known (t1 ++ t2)
  = log_discipline known t1 && log_discipline (log_known known t1) t2.
Proof.
  induction t1 as [|e t1 IH]; intros known; [done|].
  destruct e as [| |[] answer|[]| | | | | | | | | | | |]; simpl;
    rewrite ?IH, ?andb_assoc; done.
Qed.

Lemma log_known_app (t1 t2 : list effect) : forall known,
  log_known known (t1 ++ t2) = log_known (log_known known t1) t2.
Proof.
  induction t1 as [|e t1 IH]; intros known; [done|].
  destruct e as [| |[] answer|[]| | | | | | | | | | | |]; simpl;
    by rewrite ?IH.
Qed.

Lemma flash_ops_app (t1 t2 : list effect) :
  flash_ops (t1 ++ t2) = flash_ops t1 ++ flash_ops t2.
Proof. apply omap_app. Qed.

(** The simulating branch leaves flash and the collect log alone. *)
Lemma simulate_quiet (i : turn) (l : locals) eff l' stop :
  simulate E i l = Some (eff, l', stop) ->
  state l' = state l /\
  flash_ops eff = [] /\
  forall known, log_discipline known eff = true /\
                log_known known eff = known.
Proof.
  unfold simulate. intros Hrun.
  destruct (handled i) as [[command1 tag1] gPassword].
  repeat (case_match; simplify_eq; try done).
Qed.

(** The reading branch logs at most one record, by the discipline. *)
Lemma collect_turn_logs (i : turn) (l : locals) eff l' :
  collect_turn i l = Some (eff, l') ->
  state l' = state l /\
  state_change l' = false /\
  Forall logs_record (flash_ops eff) /\
  forall known,
    (state_change l = false -> known = Some (log_exists l)) ->
    log_discipline known eff = true /\
    log_known known eff = Some (log_exists l').
Proof.
  unfold collect_turn. intros Hrun.
  destruct (read i) as [no_words tag1].
  assert (Hrecord : forall b,
    (no_words <= 42)%Z /\ Z.to_nat no_words <= length tag1 ->
    ~ (no_words <= 0)%Z ->
    logs_record (logged b (record (take (Z.to_nat no_words) tag1)))).
  { intros b [Hfit Htag] Hpos. exists (take (Z.to_nat no_words) tag1).
    rewrite length_take. split; [lia|]. destruct b; auto. }
  destruct (state_change l) eqn:Hchange;
    rewrite collect_outcome in Hrun;
    repeat case_decide; simplify_eq; simpl.
  - split_and!; [done..|constructor|]. by intros known _.
  - split_and!; [done..| |].
    + constructor; [|constructor]. by apply Hrecord.
    + intros known _. by destruct (logfile_collect i).
  - split_and!; [done..|constructor|].
    intros known ->; [|done]. done.
  - split_and!; [done..| |].
    + constructor; [|constructor]. by apply Hrecord.
    + intros known ->; [|done]. by destruct (log_exists l).
Qed.

Lemma RunMod_exit_quiet (s : mode) :
  flash_ops (RunMod_exit s) = [] /\
  forall known, log_discipline known (RunMod_exit s) = true.
Proof. by destruct s. Qed.

Lemma RunMod_loop_discipline (turns : list turn) : forall l known t o,
  RunMod_loop E l turns = Some (t, o) ->
  (state l = STATE_READ -> state_change l = false ->
   known = Some (log_exists l)) ->
  Forall logs_record (flash_ops t) /\ log_discipline known t = true.
Proof.
  induction turns as [|i turns IH]; intros l known t o Hrun Hinv.
  { simplify_eq/=. split; [constructor|done]. }
  cbn [RunMod_loop] in Hrun.
  assert (Hexit : forall s,
    Forall logs_record (flash_ops (RunMod_exit s)) /\
    log_discipline known (RunMod_exit s) = true).
  { intros s. destruct (RunMod_exit_quiet s) as [-> Hq].
    split; [constructor|done]. }
  destruct (data_available i); [by simplify_eq|].
  assert (Hturn : forall l1,
    (state l1 = STATE_READ -> state_change l1 = false ->
     known = Some (log_exists l1)) ->
    match state l1 with
    | STATE_SIM =>
        let* (eff, l2, stop) := simulate E i l1 in
        if stop : bool
        then Some (eff ++ RunMod_exit (state l2), Exited l2)
        else
          let* (eff', o) := RunMod_loop E l2 turns in
          Some (eff ++ eff', o)
    | STATE_READ =>
        let* (eff, l2) := collect_turn i l1 in
        let* (eff', o) := RunMod_loop E l2 turns in
        Some (eff ++ eff', o)
    end = Some (t, o) ->
    Forall logs_record (flash_ops t) /\ log_discipline known t = true).
  { clear Hrun Hinv. intros l1 Hinv Hrun.
    destruct (state l1) eqn:Hstate.
    - destruct (simulate E i l1) as [[[eff l2] stop]|] eqn:Hsim; [|done].
      destruct (simulate_quiet _ _ _ _ _ Hsim) as (Hs & Hflash & Hq).
      destruct stop.
      + simplify_eq. rewrite flash_ops_app, Hflash, log_discipline_app.
        destruct (Hq known) as [-> ->].
        destruct (RunMod_exit_quiet (state l2)) as [-> Hexit'].
        split; [constructor|]. by rewrite Hexit'.
      + destruct (RunMod_loop E l2 turns) as [[eff' o']|] eqn:Hrest;
          [|done].
        simplify_eq. rewrite flash_ops_app, Hflash, log_discipline_app.
        destruct (Hq known) as [-> ->].
        apply (IH l2 known eff' o Hrest). congruence.
    - destruct (collect_turn i l1) as [[eff l2]|] eqn:Hcol; [|done].
      destruct (collect_turn_logs _ _ _ _ Hcol)
        as (Hs & Hc & Hflash & Hq).
      destruct (RunMod_loop E l2 turns) as [[eff' o']|] eqn:Hrest; [|done].
      simplify_eq. rewrite flash_ops_app, log_discipline_app.
      destruct (Hq known) as [-> ->]; [by apply Hinv|].
      destruct (IH l2 (Some (log_exists l2)) eff' o Hrest) as [Hf Hd];
        [done|].
      split; [by apply Forall_app|done]. }
  destruct (BUTTON_CLICKED i).
  - by simplify_eq.
  - apply (Hturn (toggle l)); [|done]. by intros _ [=].
  - by apply (Hturn l).
Qed.

Lemma get_input_data_from_file_total (tag : list Z)
    (inputfile : option (list Z)) :
  em4x50_ok E tag ->
  lines inputfile <= EM4X50_NO_WORDS E ->
  exists ok tag',
    get_input_data_from_file E tag inputfile = Some (ok, tag') /\
    length tag' = length tag.
Proof.
  intros (Hlen & Hserial & Hid) Hlines.
  destruct (or_phase_Some E tag inputfile) as (tag1 & Hphase & Hlen1 & _);
    [lia|].
  unfold get_input_data_from_file. rewrite Hphase.
  destruct (load_Some tag1 (EM4X50_DEVICE_SERIAL E)) as [s ->]; [lia|].
  destruct (load_Some tag1 (EM4X50_DEVICE_ID E)) as [d ->]; [lia|].
  case_decide; by eexists _, _.
Qed.

Lemma simulate_total (i : turn) (l : locals) :
  header_ok E -> turn_ok E i ->
  length (tag l) = EM4X50_NO_WORDS E ->
  exists eff l' stop,
    simulate E i l = Some (eff, l', stop) /\
    length (tag l') = EM4X50_NO_WORDS E.
Proof.
  intros (Hwords & Hserial & Hid) (Hlines & Hhandled & _) Htag.
  unfold simulate.
  destruct (get_input_data_from_file_total (tag l) (inputfile i))
    as (ok & tag0 & Hload & _); [done..|].
  assert (exists eff command0 tag0,
    (if state_change l then
       let* (ok, tag0) :=
         get_input_data_from_file E (tag l) (inputfile i) in
       Some ([LEDsoff; LED_A_ON;
              exists_in_spiffs LF_EM4X50_INPUTFILE_SIM
                (bool_decide (is_Some (inputfile i)));
              em4x50_setup_sim; LED_D false],
             EM4X50_COMMAND_STANDARD_READ E, tag0)
     else Some ([], command l, tag l)) = Some (eff, command0, tag0))
    as (eff & command0 & tag0' & ->).
  { destruct (state_change l); [rewrite Hload|]; by eexists _, _, _. }
  destruct (handled i) as [[command1 tag1] gPassword]. simpl in Hhandled.
  destruct (load_Some tag1 0) as [w0 ->]; [lia|].
  case_decide.
  - rewrite store_Some by lia.
    rewrite password_entry_text by (rewrite length_insert; lia).
    rewrite decide_True by lia.
    repeat case_decide; eexists _, _, _; (split; [done|]); simpl;
      rewrite length_insert; lia.
  - repeat case_decide; eexists _, _, _; (split; [done|]); simpl; lia.
Qed.

Lemma collect_turn_total (i : turn) (l : locals) :
  turn_ok E i ->
  exists eff l',
    collect_turn i l = Some (eff, l') /\
    length (tag l') = EM4X50_NO_WORDS E.
Proof.
  intros (_ & _ & Hread & Hwords & Hfit). unfold collect_turn.
  destruct (read i) as [no_words tag1]. simpl in *.
  destruct (state_change l); rewrite collect_outcome;
    repeat case_decide; try lia; by eexists _, _.
Qed.

Lemma RunMod_loop_total (turns : list turn) :
  header_ok E -> Forall (turn_ok E) turns ->
  forall l, length (tag l) = EM4X50_NO_WORDS E ->
  exists t o, RunMod_loop E l turns = Some (t, o).
Proof.
  intros Hok. induction 1 as [|i turns Hi _ IH]; intros l Htag.
  { by eexists _, _. }
  cbn [RunMod_loop].
  destruct (data_available i); [by eexists _, _|].
  assert (Hturn : forall l1, length (tag l1) = EM4X50_NO_WORDS E ->
    exists t o,
      match state l1 with
      | STATE_SIM =>
          let* (eff, l2, stop) := simulate E i l1 in
          if stop : bool
          then Some (eff ++ RunMod_exit (state l2), Exited l2)
          else
            let* (eff', o) := RunMod_loop E l2 turns in
            Some (eff ++ eff', o)
      | STATE_READ =>
          let* (eff, l2) := collect_turn i l1 in
          let* (eff', o) := RunMod_loop E l2 turns in
          Some (eff ++ eff', o)
      end = Some (t, o)).
  { intros l1 Htag1. destruct (state l1).
    - destruct (simulate_total i l1 Hok Hi Htag1)
        as (eff & l2 & stop & -> & Htag2).
      destruct stop; [by eexists _, _|].
      destruct (IH l2 Htag2) as (t & o & ->). by eexists _, _.
    - destruct (collect_turn_total i l1 Hi) as (eff & l2 & -> & Htag2).
      destruct (IH l2 Htag2) as (t & o & ->). by eexists _, _. }
  destruct (BUTTON_CLICKED i); [by eexists _, _| |]; by apply Hturn.
Qed.

End Tharexde_loop.

(** X14.  Whatever the button, the readers and the tags do, [RunMod] changes
    flash only by logging records to the collect log: every call that
    changes flash carries the record of between 1 and 42 words that were
    read.  A record replaces the log only when [exists_in_spiffs] answered
    that there is no log and nothing was logged since; in every other case it
    is appended.  The simulating mode never changes flash. *)
Theorem flash_holds_only_collected_records
    (E : Tharexde.em4x50) (log_exists : bool) (turns : list Tharexde.turn)
    (t : list Tharexde.effect) (o : Tharexde.outcome) :
  Tharexde.RunMod E log_exists turns = Some (t, o) ->
  Forall Tharexde.logs_record (Tharexde.flash_ops t) /\
  Tharexde.log_discipline None t = true.
Proof.
  unfold Tharexde.RunMod. intros Hrun.
  destruct (Tharexde.RunMod_loop E (Tharexde.RunMod_locals E log_exists)
              turns) as [[eff o']|] eqn:Hloop; [|done].
  simplify_eq.
  by apply (RunMod_loop_discipline E turns
              (Tharexde.RunMod_locals E log_exists) None eff o Hloop).
Qed.

Lemma flash_holds_only_collected_records_witness :
  Forall Tharexde.logs_record
    (Tharexde.flash_ops Tharexde.Bench.session_trace) /\
  Tharexde.log_discipline None Tharexde.Bench.session_trace = true.
Proof.
  apply (flash_holds_only_collected_records Tharexde.Bench.em true
           Tharexde.Bench.session Tharexde.Bench.session_trace
           (Tharexde.Exited
              (Tharexde.mk_locals false 0 Tharexde.STATE_READ
                 Tharexde.Bench.words true))).
  vm_compute. reflexivity.
Defined.

(** X15.  When the header leaves room (a tag of between 1 and 44 words, with
    the two words compared among them) and the environment keeps to the
    sizes in every turn, [RunMod] never leaves an array: not the words of the
    tag, not the input file, not [entry]. *)
Theorem RunMod_stays_within_its_arrays
    (E : Tharexde.em4x50) (log_exists : bool) (turns : list Tharexde.turn) :
  Tharexde.header_ok E ->
  Forall (Tharexde.turn_ok E) turns ->
  exists t o, Tharexde.RunMod E log_exists turns = Some (t, o).
Proof.
  intros Hok Hturns. unfold Tharexde.RunMod.
  destruct (RunMod_loop_total E turns Hok Hturns
              (Tharexde.RunMod_locals E log_exists))
    as (t & o & ->); [apply length_replicate|].
  by eexists _, _.
Qed.

Lemma RunMod_stays_within_its_arrays_witness :
  exists t o,
    Tharexde.RunMod Tharexde.Bench.em true Tharexde.Bench.session
    = Some (t, o).
Proof.
  apply (RunMod_stays_within_its_arrays Tharexde.Bench.em true
           Tharexde.Bench.session).
  - split_and!; vm_compute; lia.
  - unfold Tharexde.Bench.session.
    repeat (constructor; [split_and!; vm_compute; (lia || discriminate)|]).
    constructor.
Defined.

(** ** What is simulated *)

(** X16.  After a turn of the simulating mode the first word of the tag holds
    the password in reflected form: when reflecting twice gives the password
    back, the first word reflects to [gPassword] as
    [em4x50_handle_commands] left it, and the other words are as
    [em4x50_handle_commands] left them. *)
Theorem simulated_tag_tracks_password
    (E : Tharexde.em4x50) (i : Tharexde.turn) (l : Tharexde.locals)
    (eff : list Tharexde.effect) (l' : Tharexde.locals) (stop : bool) :
  Tharexde.simulate E i l = Some (eff, l', stop) ->
  Tharexde.reflect32 E (Tharexde.reflect32 E (Tharexde.handled i).2)
    = (Tharexde.handled i).2 ->
  exists w,
    Tharexde.tag l' !! 0 = Some w /\
    Tharexde.reflect32 E w = (Tharexde.handled i).2 /\
    forall k, 0 < k ->
      Tharexde.tag l' !! k = (Tharexde.handled i).1.2 !! k.
Proof.
  unfold Tharexde.simulate. intros Hrun Hrefl.
  destruct (Tharexde.handled i) as [[command1 tag1] gPassword].
  simpl in Hrefl |- *.
  destruct (if Tharexde.state_change l then _ else _)
    as [[[eff0 command0] tag0]|]; [|discriminate Hrun].
  destruct (load tag1 0) as [w0|] eqn:Hw0; [|done].
  case_decide as Hpw.
  - destruct (store tag1 0 _) as [tag2|] eqn:Hstore; [|done].
    destruct (Tharexde.password_entry E tag2); [|done].
    unfold store in Hstore.
    destruct (decide (0 < length tag1)); [|done]. simplify_eq.
    exists (Tharexde.reflect32 E gPassword).
    repeat case_decide; simplify_eq; simpl;
      (split_and!; [by rewrite list_lookup_insert_eq by lia|done|];
       intros k Hk; by rewrite list_lookup_insert_ne by lia).
  - exists w0. unfold load in Hw0.
    repeat case_decide; simplify_eq; by simpl.
Qed.

Lemma simulated_tag_tracks_password_witness :
  exists w,
    Tharexde.tag Tharexde.Bench.logged_in !! 0 = Some w /\
    Tharexde.reflect32 Tharexde.Bench.em w
      = (Tharexde.handled Tharexde.Bench.login).2 /\
    forall k, 0 < k ->
      Tharexde.tag Tharexde.Bench.logged_in !! k
      = (Tharexde.handled Tharexde.Bench.login).1.2 !! k.
Proof.
  apply (simulated_tag_tracks_password Tharexde.Bench.em Tharexde.Bench.login
           (Tharexde.RunMod_locals Tharexde.Bench.em false)
           [Tharexde.LEDsoff; Tharexde.LED_A_ON;
            Tharexde.exists_in_spiffs Tharexde.LF_EM4X50_INPUTFILE_SIM false;
            Tharexde.em4x50_setup_sim; Tharexde.LED_D false;
            Tharexde.em4x50_handle_commands 2 (replicate 34 0%Z);
            Tharexde.exists_in_spiffs Tharexde.LF_EM4X50_LOGFILE_SIM false]
           Tharexde.Bench.logged_in false).
  - vm_compute. reflexivity.
  - vm_compute. reflexivity.
Defined.

(** X17.  The words read in the reading mode are not cleared when the button
    switches to simulating: the dump is loaded over them.  When a turn of
    the reading mode is followed by a click, the tag that
    [em4x50_handle_commands] is given has every bit set that was set in the
    words [standard_read] left, whatever the input file holds. *)
Theorem words_read_are_simulated
    (E : Tharexde.em4x50) (l : Tharexde.locals) (i1 i2 : Tharexde.turn)
    (rest : list Tharexde.turn)
    (t : list Tharexde.effect) (o : Tharexde.outcome) :
  Tharexde.state l = Tharexde.STATE_READ ->
  Tharexde.data_available i1 = false ->
  Tharexde.BUTTON_CLICKED i1 = BUTTON_NO_CLICK ->
  Tharexde.data_available i2 = false ->
  Tharexde.BUTTON_CLICKED i2 = BUTTON_SINGLE_CLICK ->
  Tharexde.RunMod_loop E l (i1 :: i2 :: rest) = Some (t, o) ->
  exists tag0,
    In (Tharexde.em4x50_handle_commands
          (Tharexde.EM4X50_COMMAND_STANDARD_READ E) tag0) t /\
    length tag0 = length (Tharexde.read i1).2 /\
    forall k w, (Tharexde.read i1).2 !! k = Some w ->
      exists w', tag0 !! k = Some w' /\ Z.land w' w = w.
Proof.
  intros Hstate Hd1 Hb1 Hd2 Hb2 Hrun.
  cbn [Tharexde.RunMod_loop] in Hrun.
  rewrite Hd1, Hb1, Hstate, Hd2, Hb2 in Hrun.
  destruct (Tharexde.collect_turn i1 l) as [[eff1 l1]|] eqn:Hcol; [|done].
  assert (Tharexde.tag l1 = (Tharexde.read i1).2 /\
          Tharexde.state l1 = Tharexde.STATE_READ) as [Htag Hstate1].
  { unfold Tharexde.collect_turn in Hcol.
    destruct (Tharexde.read i1) as [no_words tag1].
    destruct (Tharexde.state_change l);
      destruct (Tharexde.collect _ _ _) as [[op le]|]; by simplify_eq. }
  unfold Tharexde.toggle in Hrun at 1. rewrite Hstate1 in Hrun.
  cbn [Tharexde.state] in Hrun.
  destruct (Tharexde.simulate E i2 _) as [[[eff2 l2] stop]|] eqn:Hsim;
    [|done].
  unfold Tharexde.simulate in Hsim.
  cbn [Tharexde.state_change Tharexde.toggle Tharexde.tag] in Hsim.
  destruct (Tharexde.get_input_data_from_file E (Tharexde.tag l1)
              (Tharexde.inputfile i2)) as [[ok tag0]|] eqn:Hload; [|done].
  exists tag0.
  destruct (get_input_data_from_file_Some E _ _ _ _ Hload)
    as (_ & Hlen & Hk & _).
  rewrite Htag in Hlen, Hk. split_and!; [|done|].
  - assert (In (Tharexde.em4x50_handle_commands
                  (Tharexde.EM4X50_COMMAND_STANDARD_READ E) tag0) eff2)
      as Hin.
    { destruct (Tharexde.handled i2) as [[command1 tag1] gPassword].
      repeat (case_match; simplify_eq; try done);
        rewrite ?in_app_iff; simpl; tauto. }
    destruct stop.
    + simplify_eq. rewrite !in_app_iff. tauto.
    + destruct (Tharexde.RunMod_loop E l2 rest) as [[eff' o']|]; [|done].
      simplify_eq. rewrite !in_app_iff. tauto.
  - intros k w Hw. rewrite Hk, Hw. case_decide; simpl.
    + eexists. split; [done|].
      apply Z.bits_inj'. intros n _. rewrite Z.land_spec, Z.lor_spec.
      destruct (Z.testbit w n); [done|]. by rewrite andb_false_r.
    + exists w. split; [done|]. by rewrite Z.land_diag.
Qed.

Lemma words_read_are_simulated_witness :
  exists tag0,
    In (Tharexde.em4x50_handle_commands
          (Tharexde.EM4X50_COMMAND_STANDARD_READ Tharexde.Bench.em) tag0)
       Tharexde.Bench.switch_trace /\
    length tag0 = length Tharexde.Bench.words /\
    forall k w, Tharexde.Bench.words !! k = Some w ->
      exists w', tag0 !! k = Some w' /\ Z.land w' w = w.
Proof.
  apply (words_read_are_simulated Tharexde.Bench.em Tharexde.Bench.reading
           Tharexde.Bench.read_two Tharexde.Bench.click_abort []
           Tharexde.Bench.switch_trace
           (Tharexde.Exited
              (Tharexde.mk_locals false (-20) Tharexde.STATE_SIM
                 Tharexde.Bench.words true))).
  all: vm_compute; reflexivity.
Defined.
